(** * fastapi_sqlalchemy: the query builder and its filter DSL

    A shallow embedding of [fastapi_sqlalchemy/util.py] (class
    [DBQuerySetting]) and [fastapi_sqlalchemy/table_query.py] (class
    [TableQuery]), and the properties of the statement compiler, the
    column resolver, the filter DSL, pagination and batch insertion.

    SQLAlchemy constructs ([select], [and_], [or_], [Select.join], ...)
    are kept as syntax: a call is recorded as a constructor of the
    statement or expression it builds.  Of the library's behaviour the
    embedding takes what the code meets when it runs: a [Row] is the
    sequence of its values and no mapping, a clause element has no truth
    value, a column attribute has no [lower].
    The session is a parameter of the terminal operations. *)

From Stdlib Require Import ZArith List String Ascii Bool Lia Arith.
From Stdlib Require DecimalString.
Import ListNotations.
Local Open Scope string_scope.
Local Open Scope Z_scope.
Set Warnings "-register-all".

(** ** Python values, rows and exceptions *)

(** The values that travel through the builder: filter values, row
    fields, bound parameters. *)
Inductive pyvalue : Type :=
| PNone
| PBool (b : bool)
| PInt (z : Z)
| PStr (s : string)
| PList (l : list pyvalue)
| PTuple (l : list pyvalue).

(** [value is None] *)
Definition is_None (v : pyvalue) : bool :=
  match v with PNone => true | _ => false end.

(** A [dict] with string keys, in insertion order. *)
Definition pydict := list (string * pyvalue).

(** A row of a result, as its columns in order: the name and the value
    of each.  [result.mappings()] hands it out as a mapping from the
    names to the values; [result.all()] and [result.first()] hand it out
    as a [Row], the sequence of the values. *)
Definition row := pydict.

(** Whether a value can be a dict key. *)
Fixpoint hashable (v : pyvalue) : bool :=
  match v with
  | PList _ => false
  | PTuple l => forallb hashable l
  | _ => true
  end.

(** [a == b]; [True] and [False] are the integers 1 and 0. *)
Fixpoint py_eqb (a b : pyvalue) {struct a} : bool :=
  match a, b with
  | PNone, PNone => true
  | PBool x, PBool y => Bool.eqb x y
  | PBool x, PInt y => (if x then 1 else 0) =? y
  | PInt x, PBool y => x =? (if y then 1 else 0)
  | PInt x, PInt y => x =? y
  | PStr x, PStr y => String.eqb x y
  | PList x, PList y =>
      (fix go (l1 l2 : list pyvalue) : bool :=
         match l1, l2 with
         | [], [] => true
         | u :: us, v :: vs => andb (py_eqb u v) (go us vs)
         | _, _ => false
         end) x y
  | PTuple x, PTuple y =>
      (fix go (l1 l2 : list pyvalue) : bool :=
         match l1, l2 with
         | [], [] => true
         | u :: us, v :: vs => andb (py_eqb u v) (go us vs)
         | _, _ => false
         end) x y
  | _, _ => false
  end.

(** A [dict] with keys of any kind, in insertion order: what
    [dict(...)] builds from a sequence of pairs. *)
Definition pymap := list (pyvalue * pyvalue).

(** [d[k] = v]: an equal key keeps its place and takes the new value. *)
Fixpoint dict_set (d : pymap) (k v : pyvalue) : pymap :=
  match d with
  | [] => [(k, v)]
  | (k', v') :: rest =>
      if py_eqb k' k then (k', v) :: rest else (k', v') :: dict_set rest k v
  end.

(** [d.get(k)] *)
Definition map_get (d : pymap) (k : pyvalue) : pyvalue :=
  match find (fun kv => py_eqb (fst kv) k) d with
  | Some (_, v) => v
  | None => PNone
  end.

Definition keys (d : pydict) : list string := map fst d.

Inductive exn : Type :=
| ValueError (msg : string)
| AttributeError (msg : string)
| TypeError (msg : string)
| OverflowError (msg : string)
| ZeroDivisionError (msg : string)
| ArgumentError (msg : string)
| NoResultFound
| MultipleResultsFound
| EngineError (msg : string).

Inductive res (A : Type) : Type :=
| Ok (a : A)
| Raise (e : exn).
Arguments Ok {A} a.
Arguments Raise {A} e.

Definition rbind {A B} (m : res A) (k : A -> res B) : res B :=
  match m with Ok a => k a | Raise e => Raise e end.

Notation "x <- m ;; k" := (rbind m (fun x => k))
  (at level 61, m at next level, right associativity).

(** ** Strings *)

(** [str(n)] for a length or an index. *)
Definition str_of_nat (n : nat) : string :=
  DecimalString.NilEmpty.string_of_uint (Nat.to_uint n).

Definition lower_ascii (c : ascii) : ascii :=
  let n := nat_of_ascii c in
  if andb (Nat.leb 65 n) (Nat.leb n 90) then ascii_of_nat (n + 32) else c.

(** [str.lower()], on ASCII identifiers. *)
Fixpoint lower (s : string) : string :=
  match s with
  | EmptyString => EmptyString
  | String c r => String (lower_ascii c) (lower r)
  end.

(** [sep.join(parts)] *)
Fixpoint join (sep : string) (parts : list string) : string :=
  match parts with
  | [] => ""
  | [p] => p
  | p :: ps => p ++ sep ++ join sep ps
  end.

(** [key.split("__")]: cut at every occurrence of two underscores, left
    to right, occurrences not overlapping. *)
Fixpoint split_dunder (s : string) : list string :=
  match s with
  | EmptyString => [EmptyString]
  | String "_" (String "_" r) => EmptyString :: split_dunder r
  | String c r =>
      match split_dunder r with
      | [] => [String c EmptyString]
      | p :: ps => String c p :: ps
      end
  end.

(** ["." in s] *)
Fixpoint has_dot (s : string) : bool :=
  match s with
  | EmptyString => false
  | String c r => if Ascii.eqb c "." then true else has_dot r
  end.

(** [s.split(".", 1)]: the text before the first dot and the text after
    it; without a dot the one piece [s]. *)
Fixpoint split_dot1 (s : string) : string * option string :=
  match s with
  | EmptyString => (EmptyString, None)
  | String c r =>
      if Ascii.eqb c "." then (EmptyString, Some r)
      else let '(a, b) := split_dot1 r in (String c a, b)
  end.

(** Number of dots of a column path. *)
Fixpoint count_dots (s : string) : nat :=
  match s with
  | EmptyString => O
  | String c r => ((if Ascii.eqb c "." then 1 else 0) + count_dots r)%nat
  end.

(** [parts[:-1]] and [parts[-1]] *)
Definition init_parts (parts : list string) : list string := removelast parts.
Definition last_part (parts : list string) : string := last parts "".

(** ** Relations, columns, expressions *)

(** What the builder is given as a table: a model class, or, as the
    target of a join, an alias or a subquery (the [*_join_subquery]
    methods).  The resolver looks at three of its attributes and asks
    [hasattr] of it: [rel_tablename] is [__tablename__] and [rel_name] is
    [__name__], strings when they are there; [rel_alias] is [name] when
    it holds a string, as it does on an alias or a subquery; [rel_attrs]
    lists the column attributes the object has.

    A class has a [__name__] and counts as true in a condition, [None]
    as false.  An object without [__name__] is no class but a SQLAlchemy
    clause element, which refuses to be tested in a condition: the
    resolver meets one as the target of a join.  The base relation of a
    builder is what [table] was given, a class, and the builder's own
    guards ([if not self._base_table:]) take it as true. *)
Record relation : Type := mkRelation {
  rel_tablename : option string;
  rel_name : option string;
  rel_alias : option string;
  rel_attrs : list string
}.

(** [hasattr(model, name)] *)
Definition hasattr (m : relation) (name : string) : bool :=
  existsb (String.eqb name) (rel_attrs m).

Definition is_class (m : relation) : bool :=
  match rel_name m with Some _ => true | None => false end.

(** What [getattr(model, 'name', default)] finds: nothing, a string, or
    the column attribute [name] of a model class. *)
Inductive name_attr : Type :=
| NameAbsent
| NameStr (s : string)
| NameColumn.

Definition getattr_name (m : relation) : name_attr :=
  match rel_alias m with
  | Some s => NameStr s
  | None => if hasattr m "name" then NameColumn else NameAbsent
  end.

(** [getattr(model, name)] for a column attribute: the column handle. *)
Record column : Type := mkColumn {
  col_owner : relation;
  col_name : string
}.

Inductive cmpop : Type := OpEq | OpNe | OpGt | OpGe | OpLt | OpLe.

Inductive expr : Type :=
| Cmp (op : cmpop) (c : column) (v : pyvalue)
| ColCmp (op : cmpop) (c1 c2 : column)
| ILikeWrapped (c : column) (v : pyvalue)
| In_ (c : column) (vs : list pyvalue)
| NotIn (c : column) (vs : list pyvalue)
| Is_ (c : column) (v : pyvalue)
| IsNot (c : column) (v : pyvalue)
| StartsWith (c : column) (v : pyvalue)
| EndsWith (c : column) (v : pyvalue)
| Contains (c : column) (v : pyvalue)
| RegexpMatch (c : column) (v : pyvalue)
| Between (c : column) (lo hi : pyvalue)
| Not_ (e : expr)
| And_ (es : list expr)
| Or_ (es : list expr)
| RawExpr (text : string).

(** What can stand in a projection, a GROUP BY or an ORDER BY. *)
Inductive sel_item : Type :=
| SelRel (r : relation)
| SelCol (c : column)
| SelLiteral (text : string)
| SelCountDistinct (x : sel_item)
| SelRaw (text : string).

Inductive order_item : Type :=
| Asc (x : sel_item)
| Desc (x : sel_item).

(** ** Statements *)

Record join_clause : Type := mkJoin {
  j_target : relation;
  j_on : expr;
  j_isouter : bool;
  j_full : bool
}.

Record select_stmt : Type := mkSelect {
  s_columns : list sel_item;
  s_distinct : bool;
  s_from : list relation;
  s_joins : list join_clause;
  s_where : list expr;
  s_group_by : list sel_item;
  s_having : list expr;
  s_order_by : list order_item;
  s_limit : option Z;
  s_offset : option Z;
  s_schema : option string
}.

(** [select(columns...)] *)
Definition select (cols : list sel_item) : select_stmt :=
  mkSelect cols false [] [] [] [] [] [] None None None.

Definition select_from (s : select_stmt) (r : relation) : select_stmt :=
  mkSelect (s_columns s) (s_distinct s) (s_from s ++ [r]) (s_joins s) (s_where s)
           (s_group_by s) (s_having s) (s_order_by s) (s_limit s) (s_offset s) (s_schema s).

(** [stmt.join(target, onclause, isouter=..., full=...)]: the target is
    the right operand, the left operand is what the statement selects
    from so far. *)
Definition stmt_join (s : select_stmt) (target : relation) (on : expr)
           (isouter full : bool) : select_stmt :=
  mkSelect (s_columns s) (s_distinct s) (s_from s)
           (s_joins s ++ [mkJoin target on isouter full]) (s_where s)
           (s_group_by s) (s_having s) (s_order_by s) (s_limit s) (s_offset s) (s_schema s).

Definition stmt_group_by (s : select_stmt) (g : list sel_item) : select_stmt :=
  mkSelect (s_columns s) (s_distinct s) (s_from s) (s_joins s) (s_where s)
           (s_group_by s ++ g) (s_having s) (s_order_by s) (s_limit s) (s_offset s) (s_schema s).

Definition stmt_having (s : select_stmt) (h : expr) : select_stmt :=
  mkSelect (s_columns s) (s_distinct s) (s_from s) (s_joins s) (s_where s)
           (s_group_by s) (s_having s ++ [h]) (s_order_by s) (s_limit s) (s_offset s) (s_schema s).

Definition stmt_order_by (s : select_stmt) (o : list order_item) : select_stmt :=
  mkSelect (s_columns s) (s_distinct s) (s_from s) (s_joins s) (s_where s)
           (s_group_by s) (s_having s) (s_order_by s ++ o) (s_limit s) (s_offset s) (s_schema s).

Definition stmt_limit (s : select_stmt) (n : Z) : select_stmt :=
  mkSelect (s_columns s) (s_distinct s) (s_from s) (s_joins s) (s_where s)
           (s_group_by s) (s_having s) (s_order_by s) (Some n) (s_offset s) (s_schema s).

Definition stmt_offset (s : select_stmt) (n : Z) : select_stmt :=
  mkSelect (s_columns s) (s_distinct s) (s_from s) (s_joins s) (s_where s)
           (s_group_by s) (s_having s) (s_order_by s) (s_limit s) (Some n) (s_schema s).

(** [stmt.execution_options(schema_translate_map={None: schema})] *)
Definition stmt_schema (s : select_stmt) (schema : string) : select_stmt :=
  mkSelect (s_columns s) (s_distinct s) (s_from s) (s_joins s) (s_where s)
           (s_group_by s) (s_having s) (s_order_by s) (s_limit s) (s_offset s) (Some schema).

Record insert_stmt : Type := mkInsert {
  i_table : relation;
  i_values : option pydict;
  i_returning : bool;
  i_schema : option string
}.

Record update_stmt : Type := mkUpdate {
  u_table : relation;
  u_values : pydict;
  u_where : list expr;
  u_schema : option string
}.

Record delete_stmt : Type := mkDelete {
  d_table : relation;
  d_where : list expr;
  d_schema : option string
}.

(** [.where(criterion)] exists on SELECT, UPDATE and DELETE statements;
    [apply_where] is written against that interface. *)
Class Whereable (S : Type) : Type := {
  stmt_where : S -> expr -> S;
  where_of : S -> list expr
}.

#[export] Instance Whereable_select : Whereable select_stmt := {
  stmt_where s e :=
    mkSelect (s_columns s) (s_distinct s) (s_from s) (s_joins s) (s_where s ++ [e])
             (s_group_by s) (s_having s) (s_order_by s) (s_limit s) (s_offset s) (s_schema s);
  where_of := s_where
}.

#[export] Instance Whereable_update : Whereable update_stmt := {
  stmt_where s e := mkUpdate (u_table s) (u_values s) (u_where s ++ [e]) (u_schema s);
  where_of := u_where
}.

#[export] Instance Whereable_delete : Whereable delete_stmt := {
  stmt_where s e := mkDelete (d_table s) (d_where s ++ [e]) (d_schema s);
  where_of := d_where
}.

(** ** [util.py]: class [DBQuerySetting] *)

Module DBQuerySetting.

(** [apply_join(stmt, join_type, model, onclause)] *)
Definition apply_join (stmt : select_stmt) (join_type : string)
           (model : relation) (onclause : expr) : select_stmt :=
  if String.eqb join_type "right" then
    stmt_join stmt model onclause true false
  else if String.eqb join_type "full" then
    stmt_join stmt model onclause true true
  else
    stmt_join stmt model onclause (String.eqb join_type "left") false.

(** The list [conditions] that [apply_where] builds before it calls
    [stmt.where]. *)
Definition where_groups (where_conditions or_conditions : list expr) : list expr :=
  (match where_conditions with
   | [] => []
   | [w] => [w]
   | _ => [And_ where_conditions]
   end)
  ++
  (match or_conditions with
   | [] => []
   | [o] => [o]
   | _ => [Or_ or_conditions]
   end).

(** [apply_where(stmt, where_conditions, or_conditions)] *)
Definition apply_where {S} `{Whereable S} (stmt : S)
           (where_conditions or_conditions : list expr) : S :=
  match where_conditions, or_conditions with
  | [], [] => stmt
  | _, _ =>
      match where_groups where_conditions or_conditions with
      | [c] => stmt_where stmt c
      | conditions => stmt_where stmt (And_ conditions)
      end
  end.

(** [value if isinstance(value, list) else [value]] *)
Definition as_list (value : pyvalue) : list pyvalue :=
  match value with PList l => l | _ => [value] end.

(** [not isinstance(value, (list, tuple)) or len(value) != 2] fails;
    otherwise the two bounds. *)
Definition range_bounds (value : pyvalue) : option (pyvalue * pyvalue) :=
  match value with
  | PList [lo; hi] | PTuple [lo; hi] => Some (lo, hi)
  | _ => None
  end.

Definition op_in (op : string) (ops : list string) : bool :=
  existsb (String.eqb op) ops.

(** [build_filter_expression(column, op, value)] *)
Definition build_filter_expression (column : column) (op : string)
           (value : pyvalue) : res expr :=
  if String.eqb op "eq" then Ok (Cmp OpEq column value)
  else if op_in op ["ne"; "neq"] then Ok (Cmp OpNe column value)
  else if String.eqb op "gt" then Ok (Cmp OpGt column value)
  else if String.eqb op "gte" then Ok (Cmp OpGe column value)
  else if String.eqb op "lt" then Ok (Cmp OpLt column value)
  else if String.eqb op "lte" then Ok (Cmp OpLe column value)
  else if op_in op ["like"; "icontains"] then Ok (ILikeWrapped column value)
  else if String.eqb op "in" then Ok (In_ column (as_list value))
  else if String.eqb op "notin" then Ok (NotIn column (as_list value))
  else if String.eqb op "is" then Ok (Is_ column value)
  else if String.eqb op "not" then Ok (IsNot column value)
  else if String.eqb op "isnull" then Ok (Is_ column PNone)
  else if String.eqb op "notnull" then Ok (IsNot column PNone)
  else if String.eqb op "startswith" then Ok (StartsWith column value)
  else if String.eqb op "endswith" then Ok (EndsWith column value)
  else if String.eqb op "contains" then Ok (Contains column value)
  else if String.eqb op "regexp" then Ok (RegexpMatch column value)
  else if String.eqb op "between" then
    match range_bounds value with
    | None => Raise (ValueError "'between' requires [min, max] values")
    | Some (lo, hi) => Ok (Between column lo hi)
    end
  else if String.eqb op "not_between" then
    match range_bounds value with
    | None => Raise (ValueError "'not_between' requires [min, max] values")
    | Some (lo, hi) => Ok (Not_ (Between column lo hi))
    end
  else if String.eqb op "isnot" then Ok (IsNot column value)
  else Raise (ValueError ("Unsupported operator: '" ++ op ++ "'")).

(** [getattr(obj, name, default)] for an attribute that, when present,
    holds a string. *)
Definition getattr_str (a : option string) (default : string) : string :=
  match a with Some s => s | None => default end.

(** An attribute read with default [None] and lowered only [if] it is
    truthy (not [None], not empty). *)
Definition lower_if_truthy (a : option string) : option string :=
  match a with
  | Some s => if String.eqb s "" then Some s else Some (lower s)
  | None => None
  end.

Definition opt_eqb (t : string) (a : option string) : bool :=
  match a with Some s => String.eqb t s | None => false end.

(** The test of line 102, on the base relation. *)
Definition base_matches (base_table : relation) (table_name : string) : bool :=
  let table_name_lower := lower table_name in
  let base_table_name := lower (getattr_str (rel_tablename base_table) "unknown") in
  let base_model_name := lower (getattr_str (rel_name base_table) "unknown") in
  orb (String.eqb table_name_lower base_table_name)
      (String.eqb table_name_lower base_model_name).

(** [str(Model.name)] for the column attribute [name] of a class. *)
Definition name_column_str (m : relation) : string :=
  getattr_str (rel_name m) "?" ++ ".name".

(** A column attribute has no [lower]. *)
Definition no_lower_msg (m : relation) : string :=
  "Neither 'InstrumentedAttribute' object nor 'Comparator' object associated with "
  ++ name_column_str m ++ " has an attribute 'lower'".

(** Lines 117-119: [alias_name], read with default [None] and lowered
    [if] it is truthy.  A column attribute counts as true, and lowering
    it raises. *)
Definition alias_name_of (join_model : relation) : res (option string) :=
  match getattr_name join_model with
  | NameAbsent => Ok None
  | NameStr s => Ok (lower_if_truthy (Some s))
  | NameColumn => Raise (AttributeError (no_lower_msg join_model))
  end.

(** Lines 107-123, one turn of the loop: whether the joined relation
    answers to [table_name]. *)
Definition join_matches (join_model : relation) (table_name : string) : res bool :=
  let table_name_lower := lower table_name in
  let model_table_name := lower_if_truthy (rel_tablename join_model) in
  let model_name := lower_if_truthy (rel_name join_model) in
  alias_name <- alias_name_of join_model ;;
  Ok (orb (opt_eqb table_name_lower model_table_name)
          (orb (opt_eqb table_name_lower model_name)
               (opt_eqb table_name_lower alias_name))).

(** The loop of lines 106-125: the first joined relation that matches. *)
Fixpoint scan_joins (joins : list (string * relation * expr))
         (table_name : string) : res (option relation) :=
  match joins with
  | [] => Ok None
  | (_, join_model, _) :: rest =>
      found <- join_matches join_model table_name ;;
      if found then Ok (Some join_model)
      else scan_joins rest table_name
  end.

Definition no_truth_value_msg : string :=
  "Boolean value of this clause is not defined".

(** [x] after a condition has tested it ([if x:], [if not x:]), for [x]
    a relation or [None]: [None] is false, a class is true, and a clause
    element raises. *)
Definition tested (x : option relation) : res (option relation) :=
  match x with
  | None => Ok None
  | Some m =>
      if is_class m then Ok (Some m)
      else Raise (TypeError no_truth_value_msg)
  end.

Definition entry_of_base (base_table : relation) : string :=
  let table_name := getattr_str (rel_tablename base_table) "unknown" in
  let model_name := getattr_str (rel_name base_table) "unknown" in
  model_name ++ "(" ++ table_name ++ ")".

(** [a or b] on an attribute read with default [None]. *)
Definition truthy_str (a : option string) : option string :=
  match a with
  | Some s => if String.eqb s "" then None else Some s
  | None => None
  end.

Definition entry_of_join (join_model : relation) : string :=
  let table_name :=
    match truthy_str (rel_tablename join_model) with
    | Some t => t
    | None =>
        match getattr_name join_model with
        | NameAbsent => "unknown"
        | NameStr s => s
        | NameColumn => name_column_str join_model
        end
    end in
  match truthy_str (rel_name join_model) with
  | Some model_name => model_name ++ "(" ++ table_name ++ ")"
  | None => "subquery(" ++ table_name ++ ")"
  end.

(** The list [tables] of [get_available_tables]. *)
Definition available_entries (base_table : option relation)
           (joins : list (string * relation * expr)) : list string :=
  (match base_table with
   | Some b => [entry_of_base b]
   | None => []
   end)
  ++ map (fun j => entry_of_join (snd (fst j))) joins.

(** [get_available_tables(base_table, joins)] *)
Definition get_available_tables (base_table : option relation)
           (joins : list (string * relation * expr)) : res string :=
  base_table <- tested base_table ;;
  Ok (join ", " (available_entries base_table joins)).

Definition unknown_table_msg (table_name available : string) : string :=
  "Unknown table/model '" ++ table_name ++ "'. Available: " ++ available.

Definition unknown_column_msg (column_name table_name : string) : string :=
  "Column '" ++ column_name ++ "' not found in '" ++ table_name ++ "'.".

(** The relation [model] after lines 95-125.  The test of line 105
    meets [None] or the base relation that line 97 has tested. *)
Definition find_model (base_table : option relation)
           (joins : list (string * relation * expr))
           (table_name : string) : res (option relation) :=
  base_table <- tested base_table ;;
  let model :=
    match base_table with
    | Some b => if base_matches b table_name then Some b else None
    | None => None
    end in
  match model with
  | Some m => Ok (Some m)
  | None => scan_joins joins table_name
  end.

(** [get_column_from_model(base_table, joins, table_name, column_name)] *)
Definition get_column_from_model (base_table : option relation)
           (joins : list (string * relation * expr))
           (table_name column_name : string) : res column :=
  model <- find_model base_table joins table_name ;;
  model <- tested model ;;
  match model with
  | None =>
      available <- get_available_tables base_table joins ;;
      Raise (ValueError (unknown_table_msg table_name available))
  | Some model =>
      if negb (hasattr model column_name) then
        Raise (ValueError (unknown_column_msg column_name table_name))
      else Ok (mkColumn model column_name)
  end.

End DBQuerySetting.

(** ** [table_query.py]: class [TableQuery] *)

(** An entry of [_joins]: [(join_type, model, onclause)]. *)
Definition join_entry : Type := string * relation * expr.

(** The builder's clause state: the attributes that [_reset_state]
    initialises.  The members of a union are builders themselves. *)
Inductive TableQuery : Type := mkTableQuery {
  _schema : option string;
  _base_table : option relation;
  _joins : list join_entry;
  _where : list expr;
  _or_where : list expr;
  _select : list sel_item;
  _order : list order_item;
  _group_by : list sel_item;
  _having : list expr;
  _limit : option Z;
  _offset : option Z;
  _union_queries : list TableQuery;
  _union_all : bool;
  _load_options : list string;
  _enable_orm : bool
}.

(** The state [_reset_state] leaves [self] in. *)
Definition empty_state : TableQuery :=
  mkTableQuery None None [] [] [] [] [] [] [] None None [] false [] false.

(** [self._reset_state()] *)
Definition _reset_state (self : TableQuery) : TableQuery := empty_state.

(** [TableQuery(session)] *)
Definition new_TableQuery : TableQuery := _reset_state empty_state.

(** [self._clone()]: a builder of its own with copies of every
    attribute. *)
Definition _clone (self : TableQuery) : TableQuery :=
  let cloned := new_TableQuery in
  mkTableQuery (_schema self) (_base_table self) (_joins self) (_where self)
               (_or_where self) (_select self) (_order self) (_group_by self)
               (_having self) (_limit self) (_offset self) (_union_queries self)
               (_union_all self) (_load_options self) (_enable_orm self).

(** Field updates, one per attribute that a chain method assigns. *)
Definition set_base_table (self : TableQuery) (b : option relation) : TableQuery :=
  mkTableQuery (_schema self) b (_joins self) (_where self)
               (_or_where self) (_select self) (_order self) (_group_by self)
               (_having self) (_limit self) (_offset self) (_union_queries self)
               (_union_all self) (_load_options self) (_enable_orm self).

Definition set_joins (self : TableQuery) (j : list join_entry) : TableQuery :=
  mkTableQuery (_schema self) (_base_table self) j (_where self)
               (_or_where self) (_select self) (_order self) (_group_by self)
               (_having self) (_limit self) (_offset self) (_union_queries self)
               (_union_all self) (_load_options self) (_enable_orm self).

Definition set_where (self : TableQuery) (w : list expr) : TableQuery :=
  mkTableQuery (_schema self) (_base_table self) (_joins self) w
               (_or_where self) (_select self) (_order self) (_group_by self)
               (_having self) (_limit self) (_offset self) (_union_queries self)
               (_union_all self) (_load_options self) (_enable_orm self).

Definition set_or_where (self : TableQuery) (w : list expr) : TableQuery :=
  mkTableQuery (_schema self) (_base_table self) (_joins self) (_where self)
               w (_select self) (_order self) (_group_by self)
               (_having self) (_limit self) (_offset self) (_union_queries self)
               (_union_all self) (_load_options self) (_enable_orm self).

Definition set_select (self : TableQuery) (s : list sel_item) : TableQuery :=
  mkTableQuery (_schema self) (_base_table self) (_joins self) (_where self)
               (_or_where self) s (_order self) (_group_by self)
               (_having self) (_limit self) (_offset self) (_union_queries self)
               (_union_all self) (_load_options self) (_enable_orm self).

Definition set_order (self : TableQuery) (o : list order_item) : TableQuery :=
  mkTableQuery (_schema self) (_base_table self) (_joins self) (_where self)
               (_or_where self) (_select self) o (_group_by self)
               (_having self) (_limit self) (_offset self) (_union_queries self)
               (_union_all self) (_load_options self) (_enable_orm self).

Definition set_group_by (self : TableQuery) (g : list sel_item) : TableQuery :=
  mkTableQuery (_schema self) (_base_table self) (_joins self) (_where self)
               (_or_where self) (_select self) (_order self) g
               (_having self) (_limit self) (_offset self) (_union_queries self)
               (_union_all self) (_load_options self) (_enable_orm self).

Definition set_having (self : TableQuery) (h : list expr) : TableQuery :=
  mkTableQuery (_schema self) (_base_table self) (_joins self) (_where self)
               (_or_where self) (_select self) (_order self) (_group_by self)
               h (_limit self) (_offset self) (_union_queries self)
               (_union_all self) (_load_options self) (_enable_orm self).

Definition set_limit (self : TableQuery) (l : option Z) : TableQuery :=
  mkTableQuery (_schema self) (_base_table self) (_joins self) (_where self)
               (_or_where self) (_select self) (_order self) (_group_by self)
               (_having self) l (_offset self) (_union_queries self)
               (_union_all self) (_load_options self) (_enable_orm self).

Definition set_offset (self : TableQuery) (o : option Z) : TableQuery :=
  mkTableQuery (_schema self) (_base_table self) (_joins self) (_where self)
               (_or_where self) (_select self) (_order self) (_group_by self)
               (_having self) (_limit self) o (_union_queries self)
               (_union_all self) (_load_options self) (_enable_orm self).

Definition set_union (self : TableQuery) (qs : list TableQuery) (all_ : bool) : TableQuery :=
  mkTableQuery (_schema self) (_base_table self) (_joins self) (_where self)
               (_or_where self) (_select self) (_order self) (_group_by self)
               (_having self) (_limit self) (_offset self) qs
               all_ (_load_options self) (_enable_orm self).

Definition set_schema (self : TableQuery) (s : option string) : TableQuery :=
  mkTableQuery s (_base_table self) (_joins self) (_where self)
               (_or_where self) (_select self) (_order self) (_group_by self)
               (_having self) (_limit self) (_offset self) (_union_queries self)
               (_union_all self) (_load_options self) (_enable_orm self).

(** [TableQuery._chunk(data, chunk_size)]: the slices
    [data[i:i + chunk_size]] for [i] in [range(0, len(data), chunk_size)].
    [chunk_from] takes as fuel the number of slices still to come, which
    [range] fixes from [len(data)]. *)
Fixpoint chunk_from {A} (fuel : nat) (data : list A) (chunk_size : nat) : list (list A) :=
  match fuel with
  | O => []
  | S fuel' => firstn chunk_size data :: chunk_from fuel' (skipn chunk_size data) chunk_size
  end.

(** [len(range(0, n, step))] for a positive [step]. *)
Definition range_len (n step : nat) : nat := ((n + step - 1) / step)%nat.

Definition _chunk {A} (data : list A) (chunk_size : Z) : res (list (list A)) :=
  if chunk_size =? 0 then Raise (ValueError "range() arg 3 must not be zero")
  else if chunk_size <? 0 then Ok []
  else
    let size := Z.to_nat chunk_size in
    Ok (chunk_from (range_len (List.length data) size) data size).

(** The loop of lines 75-76 (and of every aggregate): [apply_join] over
    [_joins], in list order. *)
Definition apply_joins (stmt : select_stmt) (joins : list join_entry) : select_stmt :=
  fold_left (fun s '(join_type, model, onclause) =>
               DBQuerySetting.apply_join s join_type model onclause) joins stmt.

Definition no_base_msg : string := "Base table not set. Use .table(Model) first.".

(** [self._build_query()] *)
Definition _build_query (self : TableQuery) : res select_stmt :=
  match _base_table self with
  | None => Raise (ValueError no_base_msg)
  | Some base =>
      let stmt := select (match _select self with [] => [SelRel base] | cols => cols end) in
      let stmt := match _schema self with
                  | Some schema => if String.eqb schema "" then stmt else stmt_schema stmt schema
                  | None => stmt
                  end in
      let stmt := apply_joins stmt (_joins self) in
      let stmt := DBQuerySetting.apply_where stmt (_where self) (_or_where self) in
      let stmt := match _group_by self with [] => stmt | g => stmt_group_by stmt g end in
      let stmt := match _having self with [] => stmt | h => stmt_having stmt (And_ h) end in
      let stmt := match _order self with [] => stmt | o => stmt_order_by stmt o end in
      let stmt := match _limit self with Some l => stmt_limit stmt l | None => stmt end in
      let stmt := match _offset self with Some o => stmt_offset stmt o | None => stmt end in
      Ok stmt
  end.

(** *** Chain methods

    Each returns [self], that is the builder after the call. *)

Definition table (self : TableQuery) (model : relation) : TableQuery :=
  set_base_table self (Some model).

Definition select_ (self : TableQuery) (columns : list sel_item) : TableQuery :=
  set_select self (_select self ++ columns).

Definition where_ (self : TableQuery) (conditions : list expr) : TableQuery :=
  set_where self (_where self ++ conditions).

Definition or_where (self : TableQuery) (conditions : list expr) : TableQuery :=
  set_or_where self (_or_where self ++ conditions).

Definition add_join (self : TableQuery) (kind : string) (model : relation)
           (onclause : expr) : TableQuery :=
  set_joins self (_joins self ++ [(kind, model, onclause)]).

Definition join_ (self : TableQuery) (model : relation) (onclause : expr) : TableQuery :=
  add_join self "inner" model onclause.

Definition left_join (self : TableQuery) (model : relation) (onclause : expr) : TableQuery :=
  add_join self "left" model onclause.

Definition inner_join (self : TableQuery) (model : relation) (onclause : expr) : TableQuery :=
  add_join self "inner" model onclause.

Definition right_join (self : TableQuery) (model : relation) (onclause : expr) : TableQuery :=
  add_join self "right" model onclause.

Definition full_join (self : TableQuery) (model : relation) (onclause : expr) : TableQuery :=
  add_join self "full" model onclause.

Definition order_by (self : TableQuery) (columns : list order_item) : TableQuery :=
  set_order self (_order self ++ columns).

Definition group_by (self : TableQuery) (columns : list sel_item) : TableQuery :=
  set_group_by self (_group_by self ++ columns).

Definition having (self : TableQuery) (conditions : list expr) : TableQuery :=
  set_having self (_having self ++ conditions).

Definition limit (self : TableQuery) (value : Z) : res TableQuery :=
  if value <? 1 then Raise (ValueError "Limit must be a positive integer")
  else Ok (set_limit self (Some value)).

Definition offset (self : TableQuery) (value : Z) : res TableQuery :=
  if value <? 0 then Raise (ValueError "Offset must be a non-negative integer")
  else Ok (set_offset self (Some value)).

(** [union(queries...)]; every argument is a [TableQuery] by its type. *)
Definition union (self : TableQuery) (queries : list TableQuery) : TableQuery :=
  set_union self queries false.

Definition union_all (self : TableQuery) (queries : list TableQuery) : TableQuery :=
  set_union self queries true.

(** *** The filter DSL *)

Definition nl : string := String (ascii_of_nat 10) EmptyString.

(** The message of lines 366-369. *)
Definition malformed_msg (col_name : string) : string :=
  "Column must be 'table.column' or 'table.column__operator', got '" ++ col_name ++ "'."
  ++ nl ++ "Examples: 'user.name', 'user.age__gt', 'post.title__like'".

(** Lines 361-363: the column path and the operator of a key. *)
Definition parse_key (key : string) : string * string :=
  let parts := split_dunder key in
  if Nat.ltb 1 (List.length parts)
  then (join "__" (init_parts parts), last_part parts)
  else (hd "" parts, "eq").

(** Lines 361-381: one entry whose value is not [None]. *)
Definition filter_entry (self : TableQuery) (key : string) (value : pyvalue) : res expr :=
  let '(col_name, op) := parse_key key in
  if negb (has_dot col_name) then Raise (ValueError (malformed_msg col_name))
  else
    let '(table_name, rest) := split_dot1 col_name in
    let column_name := match rest with Some r => r | None => "" end in
    column <- DBQuerySetting.get_column_from_model
                (_base_table self) (_joins self) table_name column_name ;;
    DBQuerySetting.build_filter_expression column op value.

(** The loop of lines 357-381: the list [expressions]. *)
Fixpoint filter_expressions (self : TableQuery) (filters : pydict) : res (list expr) :=
  match filters with
  | [] => Ok []
  | (key, value) :: rest =>
      if is_None value then filter_expressions self rest
      else
        e <- filter_entry self key value ;;
        es <- filter_expressions self rest ;;
        Ok (e :: es)
  end.

(** [self.apply_filters(filters, use_or=use_or)] *)
Definition apply_filters (self : TableQuery) (filters : pydict) (use_or : bool)
  : res TableQuery :=
  expressions <- filter_expressions self filters ;;
  match expressions with
  | [] => Ok self
  | _ =>
      if use_or then Ok (set_or_where self (_or_where self ++ [Or_ expressions]))
      else Ok (set_where self (_where self ++ [And_ expressions]))
  end.

(** *** Numbers: [int / int] and [math.ceil]

    [total_records / per_page] is Python's true division of two ints: the
    quotient rounded to the nearest binary64 float, ties to even, with
    [OverflowError] beyond the largest float and gradual underflow to
    zero.  A float is kept as its value [f_man * 2 ^ f_exp]. *)

Record pyfloat : Type := mkFloat { f_man : Z; f_exp : Z }.

(** [2 ^ k <= n / d], for positive [n] and [d]. *)
Definition ratio_ge_pow2 (n d k : Z) : bool :=
  if 0 <=? k then d * 2 ^ k <=? n else d <=? n * 2 ^ (- k).

(** [floor (log2 (n / d))], for positive [n] and [d]. *)
Definition log2_ratio (n d : Z) : Z :=
  let k := Z.log2 n - Z.log2 d in
  if ratio_ge_pow2 n d k then k else k - 1.

(** [num / den] rounded to the nearest integer, ties to even. *)
Definition round_half_even (num den : Z) : Z :=
  let q := num / den in
  let r := num mod den in
  if 2 * r <? den then q
  else if den <? 2 * r then q + 1
  else if Z.even q then q else q + 1.

(** The binary64 float nearest to [n / d], for positive [n] and [d]:
    53 significant bits, exponent of the last bit at least [-1074]. *)
Definition truediv_pos (n d : Z) : res pyfloat :=
  let e := Z.max (log2_ratio n d - 52) (- 1074) in
  let m := if 0 <=? e then round_half_even n (d * 2 ^ e)
           else round_half_even (n * 2 ^ (- e)) d in
  if andb (0 <=? e) (2 ^ 1024 <=? m * 2 ^ e)
  then Raise (OverflowError "integer division result too large for a float")
  else Ok (mkFloat m e).

(** [a / b] on ints. *)
Definition truediv (a b : Z) : res pyfloat :=
  if b =? 0 then Raise (ZeroDivisionError "division by zero")
  else if a =? 0 then Ok (mkFloat 0 0)
  else
    f <- truediv_pos (Z.abs a) (Z.abs b) ;;
    Ok (mkFloat (Z.sgn a * Z.sgn b * f_man f) (f_exp f)).

(** [math.ceil(x)] *)
Definition math_ceil (x : pyfloat) : Z :=
  if 0 <=? f_exp x then f_man x * 2 ^ f_exp x
  else - ((- f_man x) / 2 ^ (- f_exp x)).

(** The mathematical ceiling of [a / b], for [b > 0]. *)
Definition ceil_div (a b : Z) : Z := - ((- a) / b).

(** *** Pagination metadata *)

Record pagination : Type := mkPagination {
  total_records : Z;
  pg_limit : Z;
  pg_offset : Z;
  has_more : bool;
  total_pages : Z;
  current_page : Z;
  first_page : Z;
  previous_page : option Z;
  next_page : option Z;
  last_page : Z
}.

(** Lines 705-708. *)
Definition clamp_page (page : Z) : Z := if page <? 1 then 1 else page.
Definition clamp_per_page (per_page : Z) : Z := if per_page <? 1 then 10 else per_page.

(** Line 728. *)
Definition compute_total_pages (total_records per_page : Z) : res Z :=
  if negb (total_records =? 0) then
    x <- truediv total_records per_page ;;
    Ok (math_ceil x)
  else Ok 1.

(** Lines 729-730 and 738-749: the [pagination] dict. *)
Definition pagination_dict (page per_page total_records total_pages : Z) : pagination :=
  let offset := (page - 1) * per_page in
  let has_more := page <? total_pages in
  mkPagination total_records per_page offset has_more total_pages page 1
    (if 1 <? page then Some (page - 1) else None)
    (if has_more then Some (page + 1) else None)
    total_pages.

(** The metadata [paginate(page, per_page)] computes when the count
    query reports [total_records]. *)
Definition pagination_of (page per_page total_records : Z) : res pagination :=
  let page := clamp_page page in
  let per_page := clamp_per_page per_page in
  total_pages <- compute_total_pages total_records per_page ;;
  Ok (pagination_dict page per_page total_records total_pages).

(** *** The session

    What the builder needs of its collaborator: [execute(statement,
    parameters)] and [commit()].  [D] is whatever the database behind the
    session holds. *)

Inductive statement : Type :=
| SelectS (s : select_stmt)
| InsertS (s : insert_stmt)
| UpdateS (s : update_stmt)
| DeleteS (s : delete_stmt).

(** What [execute] hands back: the rows, [lastrowid], [rowcount]. *)
Record cursor : Type := mkCursor {
  c_rows : list row;
  c_lastrowid : Z;
  c_rowcount : Z
}.

Record Session (D : Type) : Type := mkSession {
  execute : statement -> list pydict -> D -> res cursor * D;
  commit : D -> res unit * D
}.
Arguments execute {D} _ _ _ _.
Arguments commit {D} _ _.

(** [result.first()] *)
Definition first_row (c : cursor) : option row := hd_error (c_rows c).

(** [row[0]] *)
Definition row0 (r : row) : pyvalue :=
  match r with (_, v) :: _ => v | [] => PNone end.

(** The items of a value that is a sequence; [None] for a value that
    cannot be iterated. *)
Definition items_of (v : pyvalue) : option (list pyvalue) :=
  match v with
  | PStr s => Some (map (fun c => PStr (String c EmptyString)) (list_ascii_of_string s))
  | PList l | PTuple l => Some l
  | PNone | PBool _ | PInt _ => None
  end.

Definition not_a_sequence_msg (i : nat) : string :=
  "cannot convert dictionary update sequence element #" ++ str_of_nat i
  ++ " to a sequence".

Definition not_a_pair_msg (i n : nat) : string :=
  "dictionary update sequence element #" ++ str_of_nat i ++ " has length "
  ++ str_of_nat n ++ "; 2 is required".

(** [dict(items)] for a sequence that is no mapping: every item has to
    be a sequence of two values, a key that can be hashed and its value;
    [i] is the index of the next item. *)
Fixpoint dict_update (d : pymap) (i : nat) (items : list pyvalue) : res pymap :=
  match items with
  | [] => Ok d
  | item :: rest =>
      match items_of item with
      | None => Raise (TypeError (not_a_sequence_msg i))
      | Some [k; v] =>
          if hashable k then dict_update (dict_set d k v) (S i) rest
          else Raise (TypeError "unhashable type: 'list'")
      | Some l => Raise (ValueError (not_a_pair_msg i (List.length l)))
      end
  end.

(** [dict(row)] for a [Row].  A [Row] is the sequence of its values and
    has no [keys()], so [dict] takes each value for a key and value pair:
    it returns for a row without columns and for a row whose values are
    all sequences of two, and raises for any other row. *)
Definition dict_of_Row (r : row) : res pymap :=
  dict_update [] 0 (map snd r).

(** [[dict(row) for row in rows]] *)
Fixpoint dicts_of_Rows (rows : list row) : res (list pymap) :=
  match rows with
  | [] => Ok []
  | r :: rest =>
      d <- dict_of_Row r ;;
      ds <- dicts_of_Rows rest ;;
      Ok (d :: ds)
  end.

(** [dict(row) if row else None] for what [result.first()] returns: a
    [Row] counts as true when it has a column. *)
Definition dict_if_row (r : option row) : res (option pymap) :=
  match r with
  | Some ((_ :: _) as found) => d <- dict_of_Row found ;; Ok (Some d)
  | _ => Ok None
  end.

(** [result.scalar_one()] *)
Definition scalar_one (c : cursor) : res pyvalue :=
  match c_rows c with
  | [] => Raise NoResultFound
  | [r] => Ok (row0 r)
  | _ => Raise MultipleResultsFound
  end.

Definition truthy (v : pyvalue) : bool :=
  match v with
  | PNone => false
  | PBool b => b
  | PInt z => negb (z =? 0)
  | PStr s => negb (String.eqb s "")
  | PList l | PTuple l => match l with [] => false | _ => true end
  end.

(** [v or 0] *)
Definition or_zero (v : pyvalue) : pyvalue := if truthy v then v else PInt 0.

(** The integer a value stands for in arithmetic; [TypeError] for the
    values that are no numbers. *)
Definition int_of_value (v : pyvalue) : res Z :=
  match v with
  | PInt z => Ok z
  | PBool b => Ok (if b then 1 else 0)
  | _ => Raise (TypeError "unsupported operand type(s) for /")
  end.

(** [model.attr] for a column attribute; [AttributeError] without it. *)
Definition getattr_col (model : relation) (attr : string) : res column :=
  if hasattr model attr then Ok (mkColumn model attr)
  else Raise (AttributeError ("type object has no attribute '" ++ attr ++ "'")).

(** [self._base_table.__tablename__] *)
Definition tablename_of (model : relation) : res string :=
  match rel_tablename model with
  | Some t => Ok t
  | None => Raise (AttributeError "type object has no attribute '__tablename__'")
  end.

(** Lines 523-535 of [count], which lines 713-725 of [paginate] repeat:
    the count statement of a (cloned) builder.  SQLAlchemy refuses
    [None] as the object of [select_from]. *)
Definition count_statement (cloned : TableQuery) : res select_stmt :=
  stmt <-
    match _group_by cloned with
    | _ :: _ =>
        let pk_col := match _base_table cloned with
                      | Some b => if hasattr b "id" then Some (mkColumn b "id") else None
                      | None => None
                      end in
        let count_col := match pk_col with
                         | Some c => SelCol c
                         | None => match _select cloned with
                                   | x :: _ => x
                                   | [] => SelLiteral "1"
                                   end
                         end in
        Ok (select [SelCountDistinct count_col])
    | [] =>
        match _base_table cloned with
        | Some b =>
            c <- getattr_col b "id" ;;
            Ok (select [SelCountDistinct (SelCol c)])
        | None => Raise (AttributeError "'NoneType' object has no attribute 'id'")
        end
    end ;;
  match _base_table cloned with
  | None => Raise (ArgumentError "FROM expression expected, got None")
  | Some b =>
      let stmt := select_from stmt b in
      let stmt := apply_joins stmt (_joins cloned) in
      Ok (DBQuerySetting.apply_where stmt (_where cloned) (_or_where cloned))
  end.

Definition no_column_msg (key tablename : string) : string :=
  "Column '" ++ key ++ "' does not exist on table '" ++ tablename ++ "'".

(** [for key in data.keys(): if not hasattr(base, key): raise ...] *)
Fixpoint validate_keys (base : relation) (ks : list string) : res unit :=
  match ks with
  | [] => Ok tt
  | key :: rest =>
      if negb (hasattr base key) then
        t <- tablename_of base ;;
        Raise (ValueError (no_column_msg key t))
      else validate_keys base rest
  end.

(** [for data in data_list: for key in data.keys(): ...] *)
Fixpoint validate_rows (base : relation) (data_list : list pydict) : res unit :=
  match data_list with
  | [] => Ok tt
  | data :: rest =>
      _ <- validate_keys base (keys data) ;;
      validate_rows base rest
  end.

Definition with_schema_insert (schema : option string) (s : insert_stmt) : insert_stmt :=
  match schema with
  | Some n => if String.eqb n "" then s else mkInsert (i_table s) (i_values s) (i_returning s) (Some n)
  | None => s
  end.

Definition returning (s : insert_stmt) : insert_stmt :=
  mkInsert (i_table s) (i_values s) true (i_schema s).

(** *** Terminal operations

    A terminal runs against the builder it is called on and the database
    behind the session; it may change both and it may raise.  [M A] is
    that computation: from [(self, database)] to a result or an exception
    and the [(self, database)] it leaves. *)

Section Terminals.

Context {D : Type} (session : Session D).

Definition world : Type := (TableQuery * D)%type.
Definition M (A : Type) : Type := world -> res A * world.

Definition ret {A} (a : A) : M A := fun w => (Ok a, w).

Definition bind {A B} (m : M A) (k : A -> M B) : M B :=
  fun w => match m w with
           | (Ok a, w') => k a w'
           | (Raise e, w') => (Raise e, w')
           end.

Definition raise {A} (e : exn) : M A := fun w => (Raise e, w).

Definition lift {A} (r : res A) : M A := fun w => (r, w).

Definition get_self : M TableQuery := fun w => (Ok (fst w), w).

Definition put_self (q : TableQuery) : M unit := fun w => (Ok tt, (q, snd w)).

(** [await self.session.execute(stmt, params)] *)
Definition exec (stmt : statement) (params : list pydict) : M cursor :=
  fun w => let '(r, d) := execute session stmt params (snd w) in (r, (fst w, d)).

(** [await self.session.commit()] *)
Definition do_commit : M unit :=
  fun w => let '(r, d) := commit session (snd w) in (r, (fst w, d)).

(** [try: body  except Exception: handler] *)
Definition try_except {A} (body handler : M A) : M A :=
  fun w => match body w with
           | (Raise _, w') => handler w'
           | done => done
           end.

Notation "x <~ m ;; k" := (bind m (fun x => k))
  (at level 61, m at next level, right associativity).

(** [self._reset_state()] on the builder the terminal was called on. *)
Definition reset_self : M unit :=
  self <~ get_self ;; put_self (_reset_state self).

Definition require_base (self : TableQuery) : M relation :=
  match _base_table self with
  | Some b => ret b
  | None => raise (ValueError no_base_msg)
  end.

(** [await self.all()] *)
Definition all : M (list row) :=
  self <~ get_self ;;
  let cloned := _clone self in
  stmt <~ lift (_build_query cloned) ;;
  result <~ exec (SelectS stmt) [] ;;
  let cloned := _reset_state cloned in
  ret (c_rows result).

(** [await self.first()] *)
Definition first : M (option pymap) :=
  self <~ get_self ;;
  let cloned := _clone self in
  stmt <~ lift (_build_query cloned) ;;
  result <~ exec (SelectS stmt) [] ;;
  let row := first_row result in
  let cloned := _reset_state cloned in
  lift (dict_if_row row).

(** [await self.first_or_fail()] *)
Definition first_or_fail : M pymap :=
  result <~ first ;;
  match result with
  | None =>
      self <~ get_self ;;
      match _base_table self with
      | None => raise (AttributeError "'NoneType' object has no attribute '__tablename__'")
      | Some b =>
          t <~ lift (tablename_of b) ;;
          raise (ValueError ("No record found in " ++ t))
      end
  | Some r => ret r
  end.

(** [await self.count()] *)
Definition count : M pyvalue :=
  self <~ get_self ;;
  _ <~ require_base self ;;
  let cloned := _clone self in
  stmt <~ lift (count_statement cloned) ;;
  result <~ exec (SelectS stmt) [] ;;
  let cloned := _reset_state cloned in
  v <~ lift (scalar_one result) ;;
  ret (or_zero v).

(** [await self.paginate(page, per_page)] *)
Definition paginate (page per_page : Z) : M (list row * pagination) :=
  let page := clamp_page page in
  let per_page := clamp_per_page per_page in
  self <~ get_self ;;
  let cloned := _clone self in
  count_stmt <~ lift (count_statement cloned) ;;
  counted <~ exec (SelectS count_stmt) [] ;;
  v <~ lift (scalar_one counted) ;;
  total_records <~ lift (int_of_value (or_zero v)) ;;
  total_pages <~ lift (compute_total_pages total_records per_page) ;;
  let offset := (page - 1) * per_page in
  paginated_stmt <~ lift (_build_query cloned) ;;
  let paginated_stmt := stmt_offset (stmt_limit paginated_stmt per_page) offset in
  result <~ exec (SelectS paginated_stmt) [] ;;
  let items := c_rows result in
  let pagination := pagination_dict page per_page total_records total_pages in
  _ <~ reset_self ;;
  ret (items, pagination).

(** [self._base_table.id], read off the builder as it is now. *)
Definition base_id (self : TableQuery) : res column :=
  match _base_table self with
  | Some b => getattr_col b "id"
  | None => Raise (AttributeError "'NoneType' object has no attribute 'id'")
  end.

(** [await self.create(data)].  Both branches reset the builder before
    they convert the row (lines 782-783, 794-795); what the first branch
    raises, the conversion included, takes the call to the second
    branch, which reads [self._base_table] again ([select] takes [None]
    for the constant NULL; reading [id] off [None] raises). *)
Definition create (data : pydict) : M (option pymap) :=
  self <~ get_self ;;
  base <~ require_base self ;;
  match data with
  | [] => raise (ValueError "Data cannot be empty")
  | _ =>
      _ <~ lift (validate_keys base (keys data)) ;;
      let stmt := with_schema_insert (_schema self) (mkInsert base (Some data) false None) in
      try_except
        (let stmt_with_returning := returning stmt in
         result <~ exec (InsertS stmt_with_returning) [] ;;
         _ <~ do_commit ;;
         let row := first_row result in
         _ <~ reset_self ;;
         lift (dict_if_row row))
        (result <~ exec (InsertS stmt) [] ;;
         _ <~ do_commit ;;
         let inserted_id := c_lastrowid result in
         self <~ get_self ;;
         id <~ lift (base_id self) ;;
         let select_stmt :=
           stmt_where (select [SelRel (col_owner id)]) (Cmp OpEq id (PInt inserted_id)) in
         fetch_result <~ exec (SelectS select_stmt) [] ;;
         let row := first_row fetch_result in
         _ <~ reset_self ;;
         lift (dict_if_row row))
  end.

(** One turn of the loop of lines 813-835: insert [chunk], extend
    [all_results].  The rows are converted before [all_results] is
    extended; when the conversion raises in the first branch, the second
    branch inserts the chunk again. *)
Definition insert_chunk (self : TableQuery) (base : relation)
           (all_results : list pymap) (chunk : list pydict) : M (list pymap) :=
  let stmt := with_schema_insert (_schema self) (mkInsert base None false None) in
  try_except
    (let stmt_with_returning := returning stmt in
     result <~ exec (InsertS stmt_with_returning) chunk ;;
     _ <~ do_commit ;;
     let rows := c_rows result in
     dicts <~ lift (dicts_of_Rows rows) ;;
     ret (all_results ++ dicts)%list)
    (result <~ exec (InsertS stmt) chunk ;;
     _ <~ do_commit ;;
     id <~ lift (getattr_col base "id") ;;
     let select_stmt :=
       stmt_limit (stmt_order_by (select [SelRel base]) [Desc (SelCol id)])
                  (Z.of_nat (List.length chunk)) in
     fetch_result <~ exec (SelectS select_stmt) [] ;;
     let rows := c_rows fetch_result in
     dicts <~ lift (dicts_of_Rows rows) ;;
     ret (all_results ++ dicts)%list).

Fixpoint insert_chunks (self : TableQuery) (base : relation)
         (all_results : list pymap) (chunks : list (list pydict)) : M (list pymap) :=
  match chunks with
  | [] => ret all_results
  | chunk :: rest =>
      all_results <~ insert_chunk self base all_results chunk ;;
      insert_chunks self base all_results rest
  end.

(** [await self.create_many(data_list, chunk_size)] *)
Definition create_many (data_list : list pydict) (chunk_size : Z) : M (list pymap) :=
  self <~ get_self ;;
  base <~ require_base self ;;
  match data_list with
  | [] => raise (ValueError "Data list cannot be empty")
  | _ =>
      _ <~ lift (validate_rows base data_list) ;;
      chunks <~ lift (_chunk data_list chunk_size) ;;
      all_results <~ insert_chunks self base [] chunks ;;
      _ <~ reset_self ;;
      ret all_results
  end.

Definition with_schema_update (schema : option string) (s : update_stmt) : update_stmt :=
  match schema with
  | Some n => if String.eqb n "" then s else mkUpdate (u_table s) (u_values s) (u_where s) (Some n)
  | None => s
  end.

Definition with_schema_delete (schema : option string) (s : delete_stmt) : delete_stmt :=
  match schema with
  | Some n => if String.eqb n "" then s else mkDelete (d_table s) (d_where s) (Some n)
  | None => s
  end.

(** [not self._where and not self._or_where] *)
Definition no_predicate (self : TableQuery) : bool :=
  match _where self, _or_where self with
  | [], [] => true
  | _, _ => false
  end.

(** [await self.update(data)].  The builder is reset (line 884) before
    the rows are converted (line 885). *)
Definition update (data : pydict) : M (list pymap) :=
  self <~ get_self ;;
  base <~ require_base self ;;
  match data with
  | [] => raise (ValueError "Data cannot be empty")
  | _ =>
      if no_predicate self then
        raise (ValueError "WHERE clause required for UPDATE. Use .where() first.")
      else
        _ <~ lift (validate_keys base (keys data)) ;;
        id <~ lift (getattr_col base "id") ;;
        let id_stmt := DBQuerySetting.apply_where (select [SelCol id])
                         (_where self) (_or_where self) in
        id_result <~ exec (SelectS id_stmt) [] ;;
        let affected_ids := map row0 (c_rows id_result) in
        let stmt := DBQuerySetting.apply_where (mkUpdate base data [] None)
                      (_where self) (_or_where self) in
        let stmt := with_schema_update (_schema self) stmt in
        _ <~ exec (UpdateS stmt) [] ;;
        _ <~ do_commit ;;
        let select_stmt := stmt_where (select [SelRel base]) (In_ id affected_ids) in
        result <~ exec (SelectS select_stmt) [] ;;
        let rows := c_rows result in
        _ <~ reset_self ;;
        lift (dicts_of_Rows rows)
  end.

(** [await self.delete()] *)
Definition delete : M Z :=
  self <~ get_self ;;
  base <~ require_base self ;;
  if no_predicate self then
    raise (ValueError "WHERE clause required for DELETE. Use .where() first.")
  else
    let stmt := DBQuerySetting.apply_where (mkDelete base [] None)
                  (_where self) (_or_where self) in
    let stmt := with_schema_delete (_schema self) stmt in
    result <~ exec (DeleteS stmt) [] ;;
    _ <~ do_commit ;;
    _ <~ reset_self ;;
    ret (c_rowcount result).

End Terminals.

(** ** A reference engine

    A database of one table, to run the terminals on concrete inputs:
    rows get consecutive ids, RETURNING (when the engine has it) gives
    the new rows in parameter order, predicates are evaluated on the
    stored rows.  Joins are not evaluated.  Nothing below is used by the
    general theorems; they hold for every session. *)

Module Engine.

Record db : Type := mkDb {
  has_returning : bool;
  stored : list row;
  next_id : Z
}.

Definition field (r : row) (name : string) : pyvalue :=
  match find (fun kv => String.eqb (fst kv) name) r with
  | Some (_, v) => v
  | None => PNone
  end.

Definition value_eqb (a b : pyvalue) : bool :=
  match a, b with
  | PNone, PNone => true
  | PBool x, PBool y => Bool.eqb x y
  | PInt x, PInt y => x =? y
  | PStr x, PStr y => String.eqb x y
  | _, _ => false
  end.

Definition cmp_values (op : cmpop) (a b : pyvalue) : bool :=
  match op, a, b with
  | OpEq, _, _ => value_eqb a b
  | OpNe, _, _ => negb (value_eqb a b)
  | OpGt, PInt x, PInt y => y <? x
  | OpGe, PInt x, PInt y => y <=? x
  | OpLt, PInt x, PInt y => x <? y
  | OpLe, PInt x, PInt y => x <=? y
  | _, _, _ => false
  end.

Fixpoint is_prefix (p s : string) : bool :=
  match p, s with
  | EmptyString, _ => true
  | String a p', String b s' => andb (Ascii.eqb a b) (is_prefix p' s')
  | _, EmptyString => false
  end.

Fixpoint is_substring (p s : string) : bool :=
  orb (is_prefix p s)
      (match s with
       | EmptyString => false
       | String _ s' => is_substring p s'
       end).

(** The truth of a predicate on a stored row. *)
Fixpoint holds (r : row) (e : expr) : bool :=
  match e with
  | Cmp op c v => cmp_values op (field r (col_name c)) v
  | ColCmp op c1 c2 => cmp_values op (field r (col_name c1)) (field r (col_name c2))
  | ILikeWrapped c (PStr p) =>
      match field r (col_name c) with
      | PStr s => is_substring (lower p) (lower s)
      | _ => false
      end
  | In_ c vs => existsb (value_eqb (field r (col_name c))) vs
  | NotIn c vs => negb (existsb (value_eqb (field r (col_name c))) vs)
  | Is_ c v => value_eqb (field r (col_name c)) v
  | IsNot c v => negb (value_eqb (field r (col_name c)) v)
  | Between c lo hi =>
      andb (cmp_values OpGe (field r (col_name c)) lo)
           (cmp_values OpLe (field r (col_name c)) hi)
  | Not_ e' => negb (holds r e')
  | And_ es => forallb (holds r) es
  | Or_ es => existsb (holds r) es
  | _ => false
  end.

(** Successive [.where] calls narrow the result. *)
Definition matches (ws : list expr) (r : row) : bool := forallb (holds r) ws.

Definition int_field (r : row) (name : string) : Z :=
  match field r name with PInt z => z | _ => 0 end.

Fixpoint insert_sorted (le : row -> row -> bool) (x : row) (l : list row) : list row :=
  match l with
  | [] => [x]
  | y :: t => if le x y then x :: l else y :: insert_sorted le x t
  end.

Definition sort_rows (le : row -> row -> bool) (l : list row) : list row :=
  fold_right (insert_sorted le) [] l.

(** ORDER BY, by the first item when it is a column. *)
Definition ordered (o : list order_item) (l : list row) : list row :=
  match o with
  | Asc (SelCol c) :: _ =>
      sort_rows (fun a b => int_field a (col_name c) <=? int_field b (col_name c)) l
  | Desc (SelCol c) :: _ =>
      sort_rows (fun a b => int_field b (col_name c) <=? int_field a (col_name c)) l
  | _ => l
  end.

Definition windowed (lim off : option Z) (l : list row) : list row :=
  let l := match off with Some o => skipn (Z.to_nat o) l | None => l end in
  match lim with Some n => firstn (Z.to_nat n) l | None => l end.

Fixpoint distinct_values (vs : list pyvalue) : list pyvalue :=
  match vs with
  | [] => []
  | v :: t => if existsb (value_eqb v) t then distinct_values t else v :: distinct_values t
  end.

Definition run_select (s : select_stmt) (d : db) : list row :=
  let rows := filter (matches (s_where s)) (stored d) in
  match s_columns s with
  | [SelCountDistinct (SelCol c)] =>
      let vs := filter (fun v => negb (is_None v)) (map (fun r => field r (col_name c)) rows) in
      [[("count_1", PInt (Z.of_nat (List.length (distinct_values vs))))]]
  | [SelCol c] =>
      windowed (s_limit s) (s_offset s)
        (map (fun r => [(col_name c, field r (col_name c))]) (ordered (s_order_by s) rows))
  | _ => windowed (s_limit s) (s_offset s) (ordered (s_order_by s) rows)
  end.

(** The new rows, ids from [n] on. *)
Fixpoint with_ids (n : Z) (params : list pydict) : list row :=
  match params with
  | [] => []
  | p :: t => (("id", PInt n) :: p) :: with_ids (n + 1) t
  end.

Definition run_insert (s : insert_stmt) (params : list pydict) (d : db) : res cursor * db :=
  let params := match i_values s with Some v => [v] | None => params end in
  if andb (i_returning s) (negb (has_returning d)) then
    (Raise (EngineError "RETURNING is not supported by this dialect"), d)
  else
    let rows := with_ids (next_id d) params in
    let n := Z.of_nat (List.length rows) in
    let d' := mkDb (has_returning d) (stored d ++ rows) (next_id d + n) in
    (Ok (mkCursor (if i_returning s then rows else []) (next_id d + n - 1) n), d').

(** [data] laid over a stored row. *)
Definition overwrite (data : pydict) (r : row) : row :=
  map (fun kv => match find (fun x => String.eqb (fst x) (fst kv)) data with
                 | Some x => x
                 | None => kv
                 end) r.

Definition run_update (s : update_stmt) (d : db) : res cursor * db :=
  let hit := matches (u_where s) in
  let rows := map (fun r => if hit r then overwrite (u_values s) r else r) (stored d) in
  (Ok (mkCursor [] 0 (Z.of_nat (List.length (filter hit (stored d))))),
   mkDb (has_returning d) rows (next_id d)).

Definition run_delete (s : delete_stmt) (d : db) : res cursor * db :=
  let hit := matches (d_where s) in
  (Ok (mkCursor [] 0 (Z.of_nat (List.length (filter hit (stored d))))),
   mkDb (has_returning d) (filter (fun r => negb (hit r)) (stored d)) (next_id d)).

Definition session : Session db := {|
  execute stmt params d :=
    match stmt with
    | SelectS s => (Ok (mkCursor (run_select s d) 0 0), d)
    | InsertS s => run_insert s params d
    | UpdateS s => run_update s d
    | DeleteS s => run_delete s d
    end;
  commit d := (Ok tt, d)
|}.

End Engine.

(** ** SQLAlchemy's reading of a join list

    [Select.join(target, ...)] joins what the statement selects from so
    far (the left operand) to [target] (the right operand). *)

Inductive from_tree : Type :=
| FromRel (r : relation)
| FromJoin (left_ right_ : from_tree) (on : expr) (isouter full : bool).

Definition from_of (base : relation) (joins : list join_clause) : from_tree :=
  fold_left (fun l j => FromJoin l (FromRel (j_target j)) (j_on j) (j_isouter j) (j_full j))
            joins (FromRel base).

(** The join clause that [apply_join] adds for one entry of [_joins]. *)
Definition compiled_join (j : join_entry) : join_clause :=
  let '(join_type, model, onclause) := j in
  if String.eqb join_type "right" then mkJoin model onclause true false
  else if String.eqb join_type "full" then mkJoin model onclause true true
  else mkJoin model onclause (String.eqb join_type "left") false.

(** ** Sample schema and builders *)

Module Sample.

Definition Users : relation :=
  mkRelation (Some "users") (Some "User") None ["id"; "name"; "active"; "x"].

Definition Posts : relation :=
  mkRelation (Some "posts") (Some "Post") None ["id"; "user_id"; "title"; "views"].

(** [User.__table__.alias("users")]: a Core alias, no class, that
    answers to the name [users]; its columns are under [c]. *)
Definition UsersAlias : relation :=
  mkRelation None None (Some "users") [].

(** [build_subquery().alias("stats")], the target of a
    [left_join_subquery]. *)
Definition Stats : relation :=
  mkRelation None None (Some "stats") [].

(** A model class without a [name] column. *)
Definition Tags : relation :=
  mkRelation (Some "tags") (Some "Tag") None ["id"; "post_id"; "label"].

(** A relation without an [id] attribute. *)
Definition Events : relation :=
  mkRelation (Some "events") (Some "Event") None ["uuid"; "kind"].

Definition A : relation :=
  mkRelation (Some "a") (Some "A") None ["id"; "x"; "y"; "z"].

Definition on_user_post : expr :=
  ColCmp OpEq (mkColumn Users "id") (mkColumn Posts "user_id").

(** End-to-end scenario 3 of the specification. *)
Definition scenario3 : res TableQuery :=
  q <- apply_filters (table new_TableQuery A)
         [("a.x__eq", PInt 1); ("a.y__gt", PInt 5)] false ;;
  apply_filters q [("a.z__like", PStr "foo")] true.

Definition x_eq_1 : expr := Cmp OpEq (mkColumn A "x") (PInt 1).
Definition y_gt_5 : expr := Cmp OpGt (mkColumn A "y") (PInt 5).
Definition z_like_foo : expr := ILikeWrapped (mkColumn A "z") (PStr "foo").

(** The builder scenario 3 leaves. *)
Definition scenario3_builder : TableQuery :=
  set_or_where (set_where (table new_TableQuery A) [And_ [x_eq_1; y_gt_5]])
               [Or_ [z_like_foo]].

(** A row with [x = 1], [y = 6] and a [z] without [foo] in it. *)
Definition row_xy : row :=
  [("id", PInt 1); ("x", PInt 1); ("y", PInt 6); ("z", PStr "bar")].

Definition active_users : TableQuery :=
  where_ (table new_TableQuery Users) [Cmp OpEq (mkColumn Users "active") (PBool true)].

Definition some_db : Engine.db :=
  Engine.mkDb true
    [[("id", PInt 1); ("name", PStr "ann"); ("active", PBool true)];
     [("id", PInt 2); ("name", PStr "bob"); ("active", PBool false)]] 3.

Definition db_without_returning : Engine.db := Engine.mkDb false [] 1.
Definition db_with_returning : Engine.db := Engine.mkDb true [] 1.

Definition two_rows : list pydict := [[("name", PStr "a")]; [("name", PStr "b")]].

End Sample.

(** ** Definitions used to state the properties *)

(** The AND predicate group and the OR predicate group as single
    predicates: a one-element group is its element. *)
Definition and_group (w : list expr) : expr :=
  match w with [x] => x | _ => And_ w end.

Definition or_group (o : list expr) : expr :=
  match o with [x] => x | _ => Or_ o end.

Definition is_empty {A} (l : list A) : bool :=
  match l with [] => true | _ => false end.

(** The WHERE clause the specification asks for when both groups are
    non-empty: the disjunction of the two groups. *)
Definition spec_where_both (w o : list expr) : list expr :=
  [Or_ [and_group w; or_group o]].

(** What [apply_where] adds to a SELECT statement. *)
Definition where_added (w o : list expr) : list expr :=
  match w, o with
  | [], [] => []
  | _, [] => [and_group w]
  | [], _ => [or_group o]
  | _, _ => [And_ [and_group w; or_group o]]
  end.

(** The statement [_build_query] assembles from a builder whose base
    relation is [base], clause by clause. *)
Definition compiled (q : TableQuery) (base : relation) : select_stmt :=
  mkSelect
    (match _select q with [] => [SelRel base] | cols => cols end)
    false
    []
    (map compiled_join (_joins q))
    (where_added (_where q) (_or_where q))
    (_group_by q)
    (match _having q with [] => [] | h => [And_ h] end)
    (_order q)
    (_limit q)
    (_offset q)
    (match _schema q with
     | Some n => if String.eqb n "" then None else Some n
     | None => None
     end).

(** The builder after a run. *)
Definition self_after {D A} (run : res A * (TableQuery * D)) : TableQuery :=
  fst (snd run).

(** A computation that never assigns to the builder it runs on. *)
Definition keeps_self {D A} (m : @M D A) : Prop :=
  forall w, self_after (m w) = fst w.

(** Whether a run returned. *)
Definition returned {A W} (run : res A * W) : bool :=
  match fst run with Ok _ => true | Raise _ => false end.

(** A computation that leaves the builder cleared whenever it
    returns. *)
Definition resets_on_return {D A} (m : @M D A) : Prop :=
  forall w, returned (m w) = true -> self_after (m w) = empty_state.

(** The count statement in closed form: one projection, the count of
    the distinct values of [count_col]; FROM the base relation; the
    builder's joins and predicate groups; nothing else. *)
Definition count_compiled (q : TableQuery) (base : relation) (count_col : sel_item)
  : select_stmt :=
  mkSelect [SelCountDistinct count_col] false [base]
           (map compiled_join (_joins q))
           (where_added (_where q) (_or_where q))
           [] [] [] None None None.

(** The first selected expression, or the literal 1 when the projection
    list is empty. *)
Definition first_selected (q : TableQuery) : sel_item :=
  match _select q with x :: _ => x | [] => SelLiteral "1" end.

Module SampleCount.

(** [users] grouped by name, with the name as its projection. *)
Definition users_by_name : TableQuery :=
  group_by (select_ (table new_TableQuery Sample.Users)
                    [SelCol (mkColumn Sample.Users "name")])
           [SelCol (mkColumn Sample.Users "name")].

(** [events], which has no [id], grouped by kind. *)
Definition events_by_kind : TableQuery :=
  group_by (select_ (table new_TableQuery Sample.Events)
                    [SelCol (mkColumn Sample.Events "kind")])
           [SelCol (mkColumn Sample.Events "kind")].

End SampleCount.

(** A session whose count queries report [T] and whose other queries
    find no rows. *)
Definition counting_session (T : Z) : Session unit := {|
  execute stmt params d :=
    match stmt with
    | SelectS s =>
        match s_columns s with
        | [SelCountDistinct _] => (Ok (mkCursor [[("count_1", PInt T)]] 0 0), d)
        | _ => (Ok (mkCursor [] 0 0), d)
        end
    | _ => (Ok (mkCursor [] 0 0), d)
    end;
  commit d := (Ok tt, d)
|}.

Module SampleRows.

Definition three_rows : list pydict :=
  [[("name", PStr "a")]; [("name", PStr "b")]; [("name", PStr "c")]].

Definition stored_as (id : Z) (name : string) : row :=
  [("id", PInt id); ("name", PStr name)].

End SampleRows.

Module SampleJoin.

(** [users] joined to a second relation that answers to [users]. *)
Definition self_join : list join_entry :=
  [("left", Sample.Posts, Sample.on_user_post);
   ("inner", Sample.UsersAlias,
    ColCmp OpEq (mkColumn Sample.Users "id") (mkColumn Sample.UsersAlias "manager_id"))].

(** [posts] joined to its author: [join(User, User.id == Post.user_id)]. *)
Definition author_join : list join_entry :=
  [("inner", Sample.Users, Sample.on_user_post)].

(** [posts] joined to its tags. *)
Definition tags_join : list join_entry :=
  [("inner", Sample.Tags,
    ColCmp OpEq (mkColumn Sample.Posts "id") (mkColumn Sample.Tags "post_id"))].

(** [left_join_subquery(stats, on, alias="stats")] *)
Definition stats_join : list join_entry :=
  [("left", Sample.Stats,
    ColCmp OpEq (mkColumn Sample.Users "id") (mkColumn Sample.Stats "user_id"))].

End SampleJoin.

(** An entry of a filter mapping whose value is not None. *)
Definition not_None (kv : string * pyvalue) : bool := negb (is_None (snd kv)).

(** ** More of [TableQuery]: chain methods *)

(** [self.new()] *)
Definition new (self : TableQuery) : TableQuery :=
  let fresh_query := new_TableQuery in
  set_schema fresh_query (_schema self).

Definition is_digit (c : ascii) : bool :=
  let n := nat_of_ascii c in andb (Nat.leb 48 n) (Nat.leb n 57).

Definition is_letter (c : ascii) : bool :=
  let n := nat_of_ascii c in
  orb (andb (Nat.leb 65 n) (Nat.leb n 90)) (andb (Nat.leb 97 n) (Nat.leb n 122)).

Fixpoint all_chars (p : ascii -> bool) (s : string) : bool :=
  match s with
  | EmptyString => true
  | String c r => andb (p c) (all_chars p r)
  end.

(** A string of ASCII characters only. *)
Definition is_ascii (s : string) : bool :=
  all_chars (fun c => Nat.ltb (nat_of_ascii c) 128) s.

(** [str.isalnum()], on ASCII strings: not empty, letters and digits
    only. *)
Definition isalnum (s : string) : bool :=
  match s with
  | EmptyString => false
  | _ => all_chars (fun c => orb (is_letter c) (is_digit c)) s
  end.

(** [s.replace("_", "")] *)
Fixpoint remove_underscores (s : string) : string :=
  match s with
  | EmptyString => EmptyString
  | String c r =>
      if Ascii.eqb c "_" then remove_underscores r
      else String c (remove_underscores r)
  end.

(** [self.schema(schema_name)], for a [str] argument. *)
Definition schema (self : TableQuery) (schema_name : string) : res TableQuery :=
  if negb (isalnum (remove_underscores schema_name)) then
    Raise (ValueError ("Invalid schema name: " ++ schema_name))
  else Ok (set_schema self (Some schema_name)).

(** [values] as [where_in] and [where_not_in] pass it on: a list or a
    tuple as it is, anything else as a one-element list. *)
Definition as_sequence (values : pyvalue) : list pyvalue :=
  match values with
  | PList l | PTuple l => l
  | v => [v]
  end.

Definition where_in (self : TableQuery) (column : column) (values : pyvalue)
  : TableQuery :=
  set_where self (_where self ++ [In_ column (as_sequence values)]).

Definition where_not_in (self : TableQuery) (column : column) (values : pyvalue)
  : TableQuery :=
  set_where self (_where self ++ [NotIn column (as_sequence values)]).

Definition where_null (self : TableQuery) (column : column) : TableQuery :=
  set_where self (_where self ++ [Is_ column PNone]).

Definition where_not_null (self : TableQuery) (column : column) : TableQuery :=
  set_where self (_where self ++ [IsNot column PNone]).

Definition where_between (self : TableQuery) (column : column) (values : pyvalue)
  : res TableQuery :=
  match DBQuerySetting.range_bounds values with
  | None => Raise (ValueError "between requires [min, max] values")
  | Some (lo, hi) => Ok (set_where self (_where self ++ [Between column lo hi]))
  end.

Definition where_not_between (self : TableQuery) (column : column) (values : pyvalue)
  : res TableQuery :=
  match DBQuerySetting.range_bounds values with
  | None => Raise (ValueError "not_between requires [min, max] values")
  | Some (lo, hi) => Ok (set_where self (_where self ++ [Not_ (Between column lo hi)]))
  end.

Definition where_like (self : TableQuery) (column : column) (pattern : pyvalue)
  : TableQuery :=
  set_where self (_where self ++ [ILikeWrapped column pattern]).

(** [take] and [skip] *)
Definition take (self : TableQuery) (value : Z) : res TableQuery := limit self value.
Definition skip (self : TableQuery) (value : Z) : res TableQuery := offset self value.

(** The operator tokens [build_filter_expression] has a branch for. *)
Definition supported_operators : list string :=
  ["eq"; "ne"; "neq"; "gt"; "gte"; "lt"; "lte"; "like"; "icontains"; "in";
   "notin"; "is"; "not"; "isnull"; "notnull"; "startswith"; "endswith";
   "contains"; "regexp"; "between"; "not_between"; "isnot"].

(** The two operators that take a range. *)
Definition is_range_operator (op : string) : bool :=
  orb (String.eqb op "between") (String.eqb op "not_between").

(** ["__" in s] *)
Fixpoint has_dunder (s : string) : bool :=
  match s with
  | EmptyString => false
  | String "_" (String "_" _) => true
  | String _ r => has_dunder r
  end.

(** The number of underscores [s] ends in. *)
Fixpoint trailing_underscores (s : string) : nat :=
  match s with
  | EmptyString => 0
  | String c r =>
      if andb (Ascii.eqb c "_") (Nat.eqb (trailing_underscores r) (String.length r))
      then S (String.length r)
      else trailing_underscores r
  end.

(** [s.endswith("_")] *)
Fixpoint ends_with_underscore (s : string) : bool :=
  match s with
  | EmptyString => false
  | String c EmptyString => Ascii.eqb c "_"
  | String _ r => ends_with_underscore r
  end.

(** The builders a program reaches through the chain methods, from a
    new builder on. *)
Inductive chained : TableQuery -> Prop :=
| chained_new : chained new_TableQuery
| chained_fresh q : chained q -> chained (new q)
| chained_table q m : chained q -> chained (table q m)
| chained_select q cols : chained q -> chained (select_ q cols)
| chained_where q cs : chained q -> chained (where_ q cs)
| chained_or_where q cs : chained q -> chained (or_where q cs)
| chained_where_in q c v : chained q -> chained (where_in q c v)
| chained_where_not_in q c v : chained q -> chained (where_not_in q c v)
| chained_where_null q c : chained q -> chained (where_null q c)
| chained_where_not_null q c : chained q -> chained (where_not_null q c)
| chained_where_between q c v q' :
    chained q -> where_between q c v = Ok q' -> chained q'
| chained_where_not_between q c v q' :
    chained q -> where_not_between q c v = Ok q' -> chained q'
| chained_where_like q c p : chained q -> chained (where_like q c p)
| chained_join q kind m on :
    chained q -> In kind ["inner"; "left"; "right"; "full"] ->
    chained (add_join q kind m on)
| chained_order_by q cols : chained q -> chained (order_by q cols)
| chained_group_by q cols : chained q -> chained (group_by q cols)
| chained_having q cs : chained q -> chained (having q cs)
| chained_limit q v q' : chained q -> limit q v = Ok q' -> chained q'
| chained_offset q v q' : chained q -> offset q v = Ok q' -> chained q'
| chained_take q v q' : chained q -> take q v = Ok q' -> chained q'
| chained_skip q v q' : chained q -> skip q v = Ok q' -> chained q'
| chained_union q qs : chained q -> chained (union q qs)
| chained_union_all q qs : chained q -> chained (union_all q qs)
| chained_schema q n q' : chained q -> schema q n = Ok q' -> chained q'
| chained_apply_filters q f use_or q' :
    chained q -> apply_filters q f use_or = Ok q' -> chained q'.

(** What the chain methods keep: a limit, when set, is at least 1; an
    offset, when set, is at least 0; every join kind is one of the four
    the join methods write. *)
Definition well_formed (q : TableQuery) : Prop :=
  (forall l, _limit q = Some l -> 1 <= l)
  /\ (forall o, _offset q = Some o -> 0 <= o)
  /\ (forall j, In j (_joins q) ->
        In (fst (fst j)) ["inner"; "left"; "right"; "full"]).

(** Two builders that select the same rows: every clause but the
    predicate groups is the same, and a row passes the combined predicate
    of one exactly when it passes that of the other. *)
Definition same_selection (q1 q2 : TableQuery) : Prop :=
  set_or_where (set_where q1 []) [] = set_or_where (set_where q2 []) []
  /\ forall r : row,
       Engine.matches (where_added (_where q1) (_or_where q1)) r
       = Engine.matches (where_added (_where q2) (_or_where q2)) r.

(** Two calls that fail together or leave builders that select the same
    rows. *)
Definition agree (a b : res TableQuery) : Prop :=
  match a, b with
  | Ok q1, Ok q2 => same_selection q1 q2
  | Raise _, Raise _ => True
  | _, _ => False
  end.

Definition is_tuple (v : pyvalue) : bool :=
  match v with PTuple _ => true | _ => false end.

(** A character of an identifier: a letter, a digit or an underscore. *)
Definition is_identifier_char (c : ascii) : bool :=
  orb (orb (is_letter c) (is_digit c)) (Ascii.eqb c "_").

Definition is_underscore (c : ascii) : bool := Ascii.eqb c "_".

(** ** More of [TableQuery]: terminals *)

(** [rows[-1]], when there is a row. *)
Definition last_row (rows : list row) : option row :=
  match rows with
  | [] => None
  | r :: rest => Some (last rest r)
  end.

(** [dict(rows[-1]) if rows else None] *)
Definition dict_of_last (rows : list row) : res (option pymap) :=
  match last_row rows with
  | None => Ok None
  | Some r => d <- dict_of_Row r ;; Ok (Some d)
  end.

(** [count > 0] on what [count] returns. *)
Definition gt_zero (v : pyvalue) : res bool :=
  match v with
  | PInt z => Ok (0 <? z)
  | PBool b => Ok b
  | _ => Raise (TypeError "'>' not supported between instances")
  end.

(** [row_dict.get(name)] *)
Definition dict_get (r : row) (name : string) : pyvalue :=
  match find (fun kv => String.eqb (fst kv) name) r with
  | Some (_, v) => v
  | None => PNone
  end.

(** The tuple [key] of lines 666-667 (and 694-695), for columns. *)
Definition row_key (columns : list column) (r : row) : list pyvalue :=
  map (fun c => dict_get r (col_name c)) columns.

(** Equality of two key tuples. *)
Fixpoint key_eqb (a b : list pyvalue) : bool :=
  match a, b with
  | [], [] => true
  | u :: us, v :: vs => andb (py_eqb u v) (key_eqb us vs)
  | _, _ => false
  end.

(** The loop of lines 664-671 (and 692-699) on rows that are dicts
    with string keys: [seen] holds the keys met so far; a row whose key
    is new is kept. *)
Fixpoint keep_first_per_key (columns : list column) (seen : list (list pyvalue))
         (rows : list row) : res (list row) :=
  match rows with
  | [] => Ok []
  | r :: rest =>
      let key := row_key columns r in
      if negb (forallb hashable key) then Raise (TypeError "unhashable type: 'list'")
      else if existsb (key_eqb key) seen then keep_first_per_key columns seen rest
      else
        kept <- keep_first_per_key columns (seen ++ [key]) rest ;;
        Ok (r :: kept)
  end.

(** A dict with string keys among the dicts with keys of any kind. *)
Definition as_map (d : pydict) : pymap :=
  map (fun kv => (PStr (fst kv), snd kv)) d.

(** The tuple [key] of lines 666-667 for the dict that [dict(row)]
    has built. *)
Definition map_key (columns : list column) (row_dict : pymap) : list pyvalue :=
  map (fun c => map_get row_dict (PStr (col_name c))) columns.

(** The loop of lines 664-671 (and 692-699) on the rows of
    [result.all()]: each row is converted with [dict(row)], then its key
    is looked up in [seen]. *)
Fixpoint first_per_key (columns : list column) (seen : list (list pyvalue))
         (rows : list row) : res (list pymap) :=
  match rows with
  | [] => Ok []
  | r :: rest =>
      row_dict <- dict_of_Row r ;;
      let key := map_key columns row_dict in
      if negb (forallb hashable key) then Raise (TypeError "unhashable type: 'list'")
      else if existsb (key_eqb key) seen then first_per_key columns seen rest
      else
        kept <- first_per_key columns (seen ++ [key]) rest ;;
        Ok (row_dict :: kept)
  end.

(** A session that also keeps the list of what it was asked to
    execute, in order. *)
Definition issued : Type := list (statement * list pydict).

Definition logged {D} (session : Session D) : Session (D * issued) := {|
  execute stmt params dl :=
    let '(r, d) := execute session stmt params (fst dl) in
    (r, (d, (snd dl ++ [(stmt, params)])%list));
  commit dl :=
    let '(r, d) := commit session (fst dl) in (r, (d, snd dl))
|}.

(** The statements a run on a logged session issued. *)
Definition log_of {D A} (run : res A * (TableQuery * (D * issued))) : issued :=
  snd (snd (snd run)).

Section MoreTerminals.

Context {D : Type} (session : Session D).

Notation "x <~ m ;; k" := (bind m (fun x => k))
  (at level 61, m at next level, right associativity).

(** [await self.get()] *)
Definition get : M (list row) := all session.

(** [await self.one_or_fail()] *)
Definition one_or_fail : M pymap :=
  self <~ get_self ;;
  let cloned := _clone self in
  stmt <~ lift (_build_query cloned) ;;
  result <~ exec session (SelectS stmt) [] ;;
  let rows := c_rows result in
  let cloned := _reset_state cloned in
  match rows with
  | [] =>
      self <~ get_self ;;
      match _base_table self with
      | None => raise (AttributeError "'NoneType' object has no attribute '__tablename__'")
      | Some b =>
          t <~ lift (tablename_of b) ;;
          raise (ValueError ("No record found in " ++ t))
      end
  | [r] => lift (dict_of_Row r)
  | _ =>
      raise (ValueError ("Expected exactly one record, got "
                         ++ str_of_nat (List.length rows)))
  end.

(** [await self.find(id)] *)
Definition find_ (id : pyvalue) : M (option pymap) :=
  self <~ get_self ;;
  base <~ require_base self ;;
  if negb (hasattr base "id") then raise (ValueError "Base table has no 'id' column")
  else
    let cloned := _clone self in
    stmt <~ lift (_build_query cloned) ;;
    let stmt := stmt_limit (stmt_where stmt (Cmp OpEq (mkColumn base "id") id)) 1 in
    result <~ exec session (SelectS stmt) [] ;;
    let row := first_row result in
    let cloned := _reset_state cloned in
    lift (dict_if_row row).

(** [await self.last()] *)
Definition last_ : M (option pymap) :=
  self <~ get_self ;;
  _ <~ require_base self ;;
  let cloned := _clone self in
  stmt <~ lift (_build_query cloned) ;;
  result <~ exec session (SelectS stmt) [] ;;
  let rows := c_rows result in
  let cloned := _reset_state cloned in
  lift (dict_of_last rows).

(** [await self.exists()] *)
Definition exists_ : M bool :=
  c <~ count session ;;
  lift (gt_zero c).

(** [await self.distinct_by(columns...)] *)
Definition distinct_by (distinct_columns : list column) : M (list pymap) :=
  self <~ get_self ;;
  _ <~ require_base self ;;
  let cloned := _clone self in
  stmt <~ lift (_build_query cloned) ;;
  result <~ exec session (SelectS stmt) [] ;;
  let rows := c_rows result in
  let cloned := _reset_state cloned in
  match rows with
  | [] => ret []
  | _ => lift (first_per_key distinct_columns [] rows)
  end.

(** [await self.group_and_deduplicate(columns...)] *)
Definition group_and_deduplicate (group_columns : list column) : M (list pymap) :=
  self <~ get_self ;;
  _ <~ require_base self ;;
  let cloned := _clone self in
  stmt <~ lift (_build_query cloned) ;;
  result <~ exec session (SelectS stmt) [] ;;
  let rows := c_rows result in
  let cloned := _reset_state cloned in
  match rows with
  | [] => ret []
  | _ => lift (first_per_key group_columns [] rows)
  end.

(** [await self.update_by_id(id, data)] *)
Definition update_by_id (id : pyvalue) (data : pydict) : M (option pymap) :=
  self <~ get_self ;;
  base <~ require_base self ;;
  if negb (hasattr base "id") then raise (ValueError "Base table has no 'id' column")
  else
    match data with
    | [] => raise (ValueError "Data cannot be empty")
    | _ =>
        _ <~ put_self (where_ self [Cmp OpEq (mkColumn base "id") id]) ;;
        updated <~ update session data ;;
        ret (hd_error updated)
    end.

(** [await self.delete_by_id(id)] *)
Definition delete_by_id (id : pyvalue) : M Z :=
  self <~ get_self ;;
  base <~ require_base self ;;
  if negb (hasattr base "id") then raise (ValueError "Base table has no 'id' column")
  else
    _ <~ put_self (where_ self [Cmp OpEq (mkColumn base "id") id]) ;;
    delete session.

End MoreTerminals.




Module SampleDedupe.

Definition by_name : list column := [mkColumn Sample.Users "name"].

Definition rows : list row :=
  [[("id", PInt 1); ("name", PStr "ann")];
   [("id", PInt 2); ("name", PStr "bob")];
   [("id", PInt 3); ("name", PStr "ann")]].

End SampleDedupe.

(** What [one_or_fail] makes of the rows, for a builder on [base]. *)
Definition exactly_one (base : option relation) (rows : list row) : res pymap :=
  match rows with
  | [] =>
      match base with
      | None => Raise (AttributeError "'NoneType' object has no attribute '__tablename__'")
      | Some b => t <- tablename_of b ;; Raise (ValueError ("No record found in " ++ t))
      end
  | [r] => dict_of_Row r
  | _ => Raise (ValueError ("Expected exactly one record, got "
                            ++ str_of_nat (List.length rows)))
  end.

(** An UPDATE or DELETE statement with a WHERE clause; any other
    statement. *)
Definition has_where_clause (st : statement) : Prop :=
  match st with
  | UpdateS u => u_where u <> []
  | DeleteS x => d_where x <> []
  | _ => True
  end.

(** An UPDATE or DELETE statement whose WHERE clause only rows with the
    id [id] pass; any other statement. *)
Definition only_rows_with_id (id : pyvalue) (st : statement) : Prop :=
  match st with
  | UpdateS u =>
      forall r, Engine.matches (u_where u) r = true ->
                Engine.value_eqb (Engine.field r "id") id = true
  | DeleteS x =>
      forall r, Engine.matches (d_where x) r = true ->
                Engine.value_eqb (Engine.field r "id") id = true
  | _ => True
  end.

(** The predicate [base.id == id]. *)
Definition id_is (base : relation) (id : pyvalue) : expr :=
  Cmp OpEq (mkColumn base "id") id.

(** The UPDATE and DELETE statements of a builder on [base]. *)
Definition update_statement (q : TableQuery) (base : relation) (data : pydict)
  : update_stmt :=
  mkUpdate base data (where_added (_where q) (_or_where q))
           (match _schema q with
            | Some n => if String.eqb n "" then None else Some n
            | None => None
            end).

Definition delete_statement (q : TableQuery) (base : relation) : delete_stmt :=
  mkDelete base (where_added (_where q) (_or_where q))
           (match _schema q with
            | Some n => if String.eqb n "" then None else Some n
            | None => None
            end).

(** [stmt.distinct()] *)
Definition stmt_distinct (s : select_stmt) : select_stmt :=
  mkSelect (s_columns s) true (s_from s) (s_joins s) (s_where s)
           (s_group_by s) (s_having s) (s_order_by s) (s_limit s) (s_offset s) (s_schema s).

Section Distinct.

Context {D : Type} (session : Session D).

Notation "x <~ m ;; k" := (bind m (fun x => k))
  (at level 61, m at next level, right associativity).

(** [await self.distinct(columns...)] *)
Definition distinct (columns : list sel_item) : M (list row) :=
  self <~ get_self ;;
  base <~ require_base self ;;
  let cloned := _clone self in
  let select_cols := match columns with [] => [SelRel base] | _ => columns end in
  let stmt := stmt_distinct (select select_cols) in
  let stmt := select_from stmt base in
  let stmt := match _schema cloned with
              | Some schema => if String.eqb schema "" then stmt else stmt_schema stmt schema
              | None => stmt
              end in
  let stmt := apply_joins stmt (_joins cloned) in
  let stmt := DBQuerySetting.apply_where stmt (_where cloned) (_or_where cloned) in
  let stmt := match _order cloned with [] => stmt | o => stmt_order_by stmt o end in
  let stmt := match _limit cloned with Some l => stmt_limit stmt l | None => stmt end in
  let stmt := match _offset cloned with Some o => stmt_offset stmt o | None => stmt end in
  result <~ exec session (SelectS stmt) [] ;;
  let cloned := _reset_state cloned in
  ret (c_rows result).

End Distinct.

(** The statement of [distinct] in closed form, from the statement
    [_build_query] compiles for the same builder: the projection replaced,
    DISTINCT set, the base relation named in FROM, GROUP BY and HAVING
    left out. *)
Definition distinct_compiled (q : TableQuery) (base : relation) (columns : list sel_item)
  : select_stmt :=
  let c := compiled q base in
  mkSelect (match columns with [] => [SelRel base] | _ => columns end)
           true [base] (s_joins c) (s_where c) [] [] (s_order_by c)
           (s_limit c) (s_offset c) (s_schema c).

(** * Properties *)

(** ** Compilation of joins and predicates *)

Lemma apply_joins_app (s : select_stmt) (js ks : list join_entry) :
  apply_joins s (js ++ ks) = apply_joins (apply_joins s js) ks.
Proof. unfold apply_joins. apply fold_left_app. Qed.

Lemma apply_join_fields (s : select_stmt) (j : join_entry) :
  let '(join_type, model, onclause) := j in
  DBQuerySetting.apply_join s join_type model onclause =
  mkSelect (s_columns s) (s_distinct s) (s_from s) (s_joins s ++ [compiled_join j])
           (s_where s) (s_group_by s) (s_having s) (s_order_by s)
           (s_limit s) (s_offset s) (s_schema s).
Proof.
  destruct j as [[join_type model] onclause].
  unfold DBQuerySetting.apply_join, compiled_join, stmt_join.
  destruct (String.eqb join_type "right"); [reflexivity|].
  destruct (String.eqb join_type "full"); reflexivity.
Qed.

Lemma apply_joins_fields (js : list join_entry) : forall s : select_stmt,
  apply_joins s js =
  mkSelect (s_columns s) (s_distinct s) (s_from s) (s_joins s ++ map compiled_join js)
           (s_where s) (s_group_by s) (s_having s) (s_order_by s)
           (s_limit s) (s_offset s) (s_schema s).
Proof.
  induction js as [|j js IH]; intros s.
  - simpl. rewrite app_nil_r. destruct s; reflexivity.
  - change (apply_joins s (j :: js)) with (apply_joins (apply_joins s [j]) js).
    rewrite IH. pose proof (apply_join_fields s j) as Hj.
    destruct j as [[join_type model] onclause].
    unfold apply_joins at 1 2 3 4 5 6 7 8 9 10 11. simpl fold_left.
    rewrite Hj. simpl. rewrite <- app_assoc. reflexivity.
Qed.

Lemma where_groups_cases (w o : list expr) :
  DBQuerySetting.where_groups w o =
  ((if is_empty w then [] else [and_group w]) ++
   (if is_empty o then [] else [or_group o]))%list.
Proof.
  unfold DBQuerySetting.where_groups, and_group, or_group.
  destruct w as [|w1 [|w2 w]]; destruct o as [|o1 [|o2 o]]; reflexivity.
Qed.

Lemma apply_where_select (s : select_stmt) (w o : list expr) :
  DBQuerySetting.apply_where s w o =
  mkSelect (s_columns s) (s_distinct s) (s_from s) (s_joins s)
           (s_where s ++ where_added w o)
           (s_group_by s) (s_having s) (s_order_by s)
           (s_limit s) (s_offset s) (s_schema s).
Proof.
  unfold DBQuerySetting.apply_where, where_added.
  rewrite where_groups_cases.
  destruct w as [|w1 w]; destruct o as [|o1 o]; simpl;
    try reflexivity.
  rewrite app_nil_r. destruct s; reflexivity.
Qed.

(** [_build_query] in closed form: with a base relation it returns, and
    the statement has each clause of the builder in its place. *)
Lemma build_query_compiled (q : TableQuery) (base : relation) :
  _base_table q = Some base -> _build_query q = Ok (compiled q base).
Proof.
  intros Hb. unfold _build_query, compiled. rewrite Hb. f_equal.
  rewrite apply_joins_fields, apply_where_select.
  destruct q as [sch bt js w o sel ord gb hv lim off uq ua lo orm]; simpl in *.
  destruct sch as [n|]; [destruct (String.eqb n "")|];
    destruct gb; destruct hv; destruct ord; destruct lim; destruct off;
    reflexivity.
Qed.

Lemma build_query_no_base (q : TableQuery) :
  _base_table q = None -> _build_query q = Raise (ValueError no_base_msg).
Proof. intros Hb. unfold _build_query. rewrite Hb. reflexivity. Qed.

Lemma build_query_inv (q : TableQuery) (stmt : select_stmt) :
  _build_query q = Ok stmt ->
  exists base, _base_table q = Some base /\ stmt = compiled q base.
Proof.
  intros H. destruct (_base_table q) as [base|] eqn:Hb.
  - exists base. split; [reflexivity|].
    rewrite (build_query_compiled q base Hb) in H. congruence.
  - rewrite (build_query_no_base q Hb) in H. discriminate.
Qed.

Lemma holds_and_group (r : row) (w : list expr) :
  Engine.holds r (and_group w) = forallb (Engine.holds r) w.
Proof.
  destruct w as [|x [|y w]]; simpl; try reflexivity.
  now rewrite andb_true_r.
Qed.

Lemma holds_or_group (r : row) (o : list expr) :
  Engine.holds r (or_group o) = existsb (Engine.holds r) o.
Proof.
  destruct o as [|x [|y o]]; simpl; try reflexivity.
  now rewrite orb_false_r.
Qed.

Lemma matches_where_added (r : row) (w o : list expr) :
  Engine.matches (where_added w o) r =
  andb (forallb (Engine.holds r) w)
       (orb (is_empty o) (existsb (Engine.holds r) o)).
Proof.
  unfold Engine.matches, where_added.
  destruct w as [|w1 w]; destruct o as [|o1 o];
    cbn [forallb is_empty orb andb]; try reflexivity.
  - rewrite holds_or_group. cbn [existsb]. now rewrite andb_true_r.
  - rewrite holds_and_group. cbn [forallb]. now rewrite !andb_true_r.
  - cbn [Engine.holds forallb]. rewrite holds_and_group, holds_or_group.
    cbn [forallb existsb]. now rewrite !andb_true_r.
Qed.

(** C1 (as amended).  When both predicate groups are non-empty the WHERE
    clause of the compiled statement is the conjunction
    (AND-group) AND (OR-group): a row passes when it satisfies every
    predicate of the AND group and some predicate of the OR group.  With
    one group empty the other stands alone, and with both empty the
    statement has no WHERE clause. *)
Theorem C1_where_combines_groups_with_and (q : TableQuery) (stmt : select_stmt) :
  _build_query q = Ok stmt ->
  s_where stmt =
    match _where q, _or_where q with
    | [], [] => []
    | w, [] => [and_group w]
    | [], o => [or_group o]
    | w, o => [And_ [and_group w; or_group o]]
    end
  /\ forall r : row,
       Engine.matches (s_where stmt) r =
       andb (forallb (Engine.holds r) (_where q))
            (orb (is_empty (_or_where q)) (existsb (Engine.holds r) (_or_where q))).
Proof.
  intros H. destruct (build_query_inv q stmt H) as [base [Hb ->]].
  split.
  - unfold compiled, where_added; simpl.
    destruct (_where q); destruct (_or_where q); reflexivity.
  - intros r. apply matches_where_added.
Qed.

(** Scenario 3 of the specification compiles, and its WHERE clause is
    the conjunction of its two groups. *)
Lemma C1_where_combines_groups_with_and_witness :
  _build_query Sample.scenario3_builder
  = Ok (compiled Sample.scenario3_builder Sample.A)
  /\ s_where (compiled Sample.scenario3_builder Sample.A)
     = [And_ [And_ [Sample.x_eq_1; Sample.y_gt_5]; Or_ [Sample.z_like_foo]]].
Proof.
  split; [reflexivity|].
  exact (proj1 (C1_where_combines_groups_with_and
                  Sample.scenario3_builder
                  (compiled Sample.scenario3_builder Sample.A) eq_refl)).
Defined.

(** C1 (as stated) fails on scenario 3 of the specification: the two
    [apply_filters] calls leave one predicate in each group, the compiled
    WHERE clause is their conjunction and not their disjunction, and a
    row with x = 1 and y = 6 whose z does not contain foo satisfies
    (x = 1 AND y > 5) OR (z LIKE '%foo%') and is not selected. *)
Lemma C1_counterexample :
  Sample.scenario3 = Ok Sample.scenario3_builder
  /\ _where Sample.scenario3_builder <> []
  /\ _or_where Sample.scenario3_builder <> []
  /\ exists stmt,
       _build_query Sample.scenario3_builder = Ok stmt
       /\ s_where stmt <>
          spec_where_both (_where Sample.scenario3_builder)
                          (_or_where Sample.scenario3_builder)
       /\ Engine.matches
            (spec_where_both (_where Sample.scenario3_builder)
                             (_or_where Sample.scenario3_builder))
            Sample.row_xy = true
       /\ Engine.matches (s_where stmt) Sample.row_xy = false.
Proof.
  split; [reflexivity|].
  split; [discriminate|].
  split; [discriminate|].
  eexists. split; [reflexivity|].
  split; [discriminate|].
  split; reflexivity.
Qed.

(** ** The builder after a terminal call *)

Section SelfAfter.

Context {D : Type} (session : Session D).

Lemma keeps_ret {A} (a : A) : keeps_self (@ret D A a).
Proof. intros w. reflexivity. Qed.

Lemma keeps_raise {A} (e : exn) : keeps_self (@raise D A e).
Proof. intros w. reflexivity. Qed.

Lemma keeps_lift {A} (r : res A) : keeps_self (@lift D A r).
Proof. intros w. reflexivity. Qed.

Lemma keeps_get_self : keeps_self (@get_self D).
Proof. intros w. reflexivity. Qed.

Lemma keeps_exec (stmt : statement) (params : list pydict) :
  keeps_self (exec session stmt params).
Proof.
  intros [q d]. unfold exec, self_after. simpl.
  destruct (execute session stmt params d); reflexivity.
Qed.

Lemma keeps_commit : keeps_self (do_commit session).
Proof.
  intros [q d]. unfold do_commit, self_after. simpl.
  destruct (commit session d); reflexivity.
Qed.

Lemma keeps_bind {A B} (m : @M D A) (k : A -> @M D B) :
  keeps_self m -> (forall a, keeps_self (k a)) -> keeps_self (bind m k).
Proof.
  intros Hm Hk w. unfold bind, self_after. specialize (Hm w).
  unfold self_after in Hm. destruct (m w) as [[a|e] w']; simpl in *.
  - rewrite <- Hm. apply Hk.
  - exact Hm.
Qed.

Lemma keeps_try {A} (body handler : @M D A) :
  keeps_self body -> keeps_self handler -> keeps_self (try_except body handler).
Proof.
  intros Hb Hh w. unfold try_except, self_after. specialize (Hb w).
  unfold self_after in Hb. destruct (body w) as [[a|e] w']; simpl in *.
  - exact Hb.
  - rewrite <- Hb. apply Hh.
Qed.

Lemma keeps_require_base (self : TableQuery) : keeps_self (@require_base D self).
Proof. unfold require_base. destruct (_base_table self); intros w; reflexivity. Qed.

Lemma resets_raise {A} (e : exn) : resets_on_return (@raise D A e).
Proof. intros [q d] H. discriminate H. Qed.

Lemma resets_lift_raise {A} (e : exn) : resets_on_return (@lift D A (Raise e)).
Proof. intros [q d] H. discriminate H. Qed.

(** After [self._reset_state()], what does not assign to the builder
    leaves it cleared. *)
Lemma resets_reset_then {A} (m : @M D A) :
  keeps_self m -> resets_on_return (bind (@reset_self D) (fun _ => m)).
Proof.
  intros Hm [q d] _. unfold bind, reset_self, get_self, put_self. cbn [fst snd].
  exact (Hm (_reset_state q, d)).
Qed.

Lemma resets_bind {A B} (m : @M D A) (k : A -> @M D B) :
  (forall a, resets_on_return (k a)) -> resets_on_return (bind m k).
Proof.
  intros Hk w. unfold bind.
  destruct (m w) as [[a|e] w'] eqn:E.
  - apply Hk.
  - intros H. discriminate H.
Qed.

Lemma resets_try {A} (body handler : @M D A) :
  resets_on_return body -> resets_on_return handler ->
  resets_on_return (try_except body handler).
Proof.
  intros Hb Hh w. unfold try_except. specialize (Hb w).
  destruct (body w) as [[a|e] w'] eqn:E.
  - exact Hb.
  - apply Hh.
Qed.

Ltac keeps :=
  repeat first
    [ apply keeps_ret | apply keeps_raise | apply keeps_lift | apply keeps_get_self
    | apply keeps_exec | apply keeps_commit | apply keeps_require_base
    | apply keeps_bind; [|intros]
    | apply keeps_try ].

Ltac resets :=
  repeat first
    [ apply resets_raise
    | apply resets_reset_then; solve [keeps]
    | apply resets_try
    | apply resets_bind; intros ].

Lemma all_keeps_self : keeps_self (all session).
Proof. unfold all. keeps. Qed.

Lemma first_keeps_self : keeps_self (first session).
Proof. unfold first. keeps. Qed.

Lemma count_keeps_self : keeps_self (count session).
Proof. unfold count. keeps. Qed.

Lemma paginate_resets (page per_page : Z) :
  resets_on_return (paginate session page per_page).
Proof. unfold paginate. resets. Qed.

Lemma create_resets (data : pydict) : resets_on_return (create session data).
Proof.
  unfold create. resets. destruct data; resets.
Qed.

Lemma create_many_resets (data_list : list pydict) (chunk_size : Z) :
  resets_on_return (create_many session data_list chunk_size).
Proof.
  unfold create_many. resets. destruct data_list; resets.
Qed.

Lemma update_resets (data : pydict) : resets_on_return (update session data).
Proof.
  unfold update. resets. destruct data; resets.
  destruct (no_predicate a); resets.
Qed.

Lemma delete_resets : resets_on_return (delete session).
Proof.
  unfold delete. resets. destruct (no_predicate a); resets.
Qed.

End SelfAfter.

(** C2 (as amended).  [paginate] and the mutation terminals [create],
    [create_many], [update] and [delete] leave the builder they are
    called on cleared whenever they return.  The read terminals [all],
    [first] and [count] compile from a clone, reset the clone, and leave
    the builder they are called on as it was, whatever the session
    answers. *)
Theorem C2_reset_by_paginate_and_mutations_only :
  forall (D : Type) (session : Session D) (q : TableQuery) (d : D),
    self_after (all session (q, d)) = q
    /\ self_after (first session (q, d)) = q
    /\ self_after (count session (q, d)) = q
    /\ (forall page per_page,
          returned (paginate session page per_page (q, d)) = true ->
          self_after (paginate session page per_page (q, d)) = empty_state)
    /\ (forall data,
          returned (create session data (q, d)) = true ->
          self_after (create session data (q, d)) = empty_state)
    /\ (forall data_list chunk_size,
          returned (create_many session data_list chunk_size (q, d)) = true ->
          self_after (create_many session data_list chunk_size (q, d)) = empty_state)
    /\ (forall data,
          returned (update session data (q, d)) = true ->
          self_after (update session data (q, d)) = empty_state)
    /\ (returned (delete session (q, d)) = true ->
        self_after (delete session (q, d)) = empty_state).
Proof.
  intros D session q d.
  repeat match goal with |- _ /\ _ => split end.
  - apply (all_keeps_self session (q, d)).
  - apply (first_keeps_self session (q, d)).
  - apply (count_keeps_self session (q, d)).
  - intros page per_page. apply (paginate_resets session page per_page (q, d)).
  - intros data. apply (create_resets session data (q, d)).
  - intros data_list chunk_size.
    apply (create_many_resets session data_list chunk_size (q, d)).
  - intros data. apply (update_resets session data (q, d)).
  - apply (delete_resets session (q, d)).
Qed.

(** The terminals of the second group do return: [paginate] and
    [delete] on the reference engine, [create], [create_many] and
    [update] on a session that answers without rows. *)
Lemma C2_reset_by_paginate_and_mutations_only_witness :
  let users := table new_TableQuery Sample.Users in
  (returned (paginate Engine.session 1 10 (users, Sample.some_db)) = true
   /\ self_after (paginate Engine.session 1 10 (users, Sample.some_db)) = empty_state)
  /\ (returned (delete Engine.session (Sample.active_users, Sample.some_db)) = true
      /\ self_after (delete Engine.session (Sample.active_users, Sample.some_db))
         = empty_state)
  /\ (returned (create (counting_session 0) [("name", PStr "a")] (users, tt)) = true
      /\ self_after (create (counting_session 0) [("name", PStr "a")] (users, tt))
         = empty_state)
  /\ (returned (create_many (counting_session 0) Sample.two_rows 1000 (users, tt)) = true
      /\ self_after (create_many (counting_session 0) Sample.two_rows 1000 (users, tt))
         = empty_state)
  /\ (returned (update (counting_session 0) [("name", PStr "zed")]
                 (Sample.active_users, tt)) = true
      /\ self_after (update (counting_session 0) [("name", PStr "zed")]
                       (Sample.active_users, tt)) = empty_state).
Proof.
  cbv zeta.
  pose proof (C2_reset_by_paginate_and_mutations_only Engine.db Engine.session
                (table new_TableQuery Sample.Users) Sample.some_db)
    as (_ & _ & _ & Hp & _).
  pose proof (C2_reset_by_paginate_and_mutations_only Engine.db Engine.session
                Sample.active_users Sample.some_db)
    as (_ & _ & _ & _ & _ & _ & _ & Hd).
  pose proof (C2_reset_by_paginate_and_mutations_only unit (counting_session 0)
                (table new_TableQuery Sample.Users) tt)
    as (_ & _ & _ & _ & Hc & Hm & _).
  pose proof (C2_reset_by_paginate_and_mutations_only unit (counting_session 0)
                Sample.active_users tt)
    as (_ & _ & _ & _ & _ & _ & Hu & _).
  repeat match goal with |- _ /\ _ => split end;
    first [ reflexivity
          | apply Hp; reflexivity | apply Hd; reflexivity | apply Hc; reflexivity
          | apply Hm; reflexivity | apply Hu; reflexivity ].
Defined.

(** C2 (as stated) fails for the read terminals: [all] on a builder
    that holds a base relation returns its rows and the builder still
    holds the base relation. *)
Lemma C2_counterexample :
  exists rows,
    all Engine.session (table new_TableQuery Sample.Users, Sample.some_db)
    = (Ok rows, (table new_TableQuery Sample.Users, Sample.some_db))
    /\ table new_TableQuery Sample.Users <> empty_state
    /\ _base_table (table new_TableQuery Sample.Users) = Some Sample.Users.
Proof.
  eexists. split; [vm_compute; reflexivity|].
  split; [discriminate|reflexivity].
Qed.

(** [create] and [update] reset the builder before they convert the
    rows they have read: on the reference engine, which answers with the
    stored rows, both raise and leave the builder cleared. *)
Example create_and_update_clear_then_raise :
  returned (create Engine.session [("name", PStr "a")]
              (table new_TableQuery Sample.Users, Sample.db_without_returning)) = false
  /\ self_after (create Engine.session [("name", PStr "a")]
                   (table new_TableQuery Sample.Users, Sample.db_without_returning))
     = empty_state
  /\ returned (update Engine.session [("name", PStr "zed")]
                 (Sample.active_users, Sample.some_db)) = false
  /\ self_after (update Engine.session [("name", PStr "zed")]
                   (Sample.active_users, Sample.some_db)) = empty_state.
Proof. repeat split; vm_compute; reflexivity. Qed.

(** On an engine with RETURNING the conversion of line 783 raises
    inside the [try]: the [except] branch inserts the row a second time
    and then meets the cleared builder, which has no base relation to
    read [id] from. *)
Example create_inserts_twice_with_returning :
  create Engine.session [("name", PStr "a")]
         (table new_TableQuery Sample.Users, Sample.db_with_returning)
  = (Raise (AttributeError "'NoneType' object has no attribute 'id'"),
     (empty_state,
      Engine.mkDb true [SampleRows.stored_as 1 "a"; SampleRows.stored_as 2 "a"] 3)).
Proof. vm_compute. reflexivity. Qed.

(** [first_or_fail] reads the base relation of the builder after
    [first] has run on it: with no row found it names the table. *)
Example first_or_fail_names_the_table :
  fst (first_or_fail Engine.session
         (table new_TableQuery Sample.Users, Sample.db_with_returning))
  = Raise (ValueError "No record found in users").
Proof. vm_compute. reflexivity. Qed.

(** ** Unions *)

Lemma build_query_ignores_union (q : TableQuery) (qs : list TableQuery) (all_ : bool) :
  _build_query (set_union q qs all_) = _build_query q.
Proof. reflexivity. Qed.

(** The part of C3 that the code does: a later [union] or [union_all]
    call replaces the member list and the mode of an earlier one. *)
Lemma union_replaces (q : TableQuery) (qs qs' : list TableQuery) :
  union (union q qs) qs' = union q qs'
  /\ union (union_all q qs) qs' = union q qs'
  /\ union_all (union q qs) qs' = union_all q qs'
  /\ union_all (union_all q qs) qs' = union_all q qs'
  /\ _union_queries (union q qs) = qs /\ _union_all (union q qs) = false
  /\ _union_queries (union_all q qs) = qs /\ _union_all (union_all q qs) = true.
Proof. repeat split; reflexivity. Qed.

(** C3 (the code at the failing input).  A builder on [users] that is
    given the builder on [posts] as a union member records the member,
    and compiles to the statement it compiles to without it: a plain
    SELECT of [users].  The member statement is not compiled and no UNION
    is formed; the same holds for [union_all]. *)
Theorem C3_union_members_are_not_compiled :
  let users := table new_TableQuery Sample.Users in
  let posts := table new_TableQuery Sample.Posts in
  _union_queries (union users [posts]) = [posts]
  /\ _build_query (union users [posts]) = Ok (select [SelRel Sample.Users])
  /\ _build_query (union users [posts]) = _build_query users
  /\ _build_query (union_all users [posts]) = _build_query users.
Proof. repeat split; reflexivity. Qed.

(** ** Joins *)

(** The parts of C4 that the code does: joins are compiled in insertion
    order, [inner] to an inner join, [left] to a left outer join and
    [full] to a full outer join. *)
Lemma joins_compiled_in_order (q : TableQuery) (stmt : select_stmt) :
  _build_query q = Ok stmt -> s_joins stmt = map compiled_join (_joins q).
Proof.
  intros H. destruct (build_query_inv q stmt H) as [base [_ ->]]. reflexivity.
Qed.

Lemma compiled_join_kinds (model : relation) (on : expr) :
  compiled_join ("inner", model, on) = mkJoin model on false false
  /\ compiled_join ("left", model, on) = mkJoin model on true false
  /\ compiled_join ("full", model, on) = mkJoin model on true true
  /\ compiled_join ("right", model, on) = mkJoin model on true false.
Proof. repeat split; reflexivity. Qed.

Lemma apply_join_right_is_left (stmt : select_stmt) (model : relation) (on : expr) :
  DBQuerySetting.apply_join stmt "right" model on
  = DBQuerySetting.apply_join stmt "left" model on.
Proof. reflexivity. Qed.

(** C4 (the code at the failing input).  [users] right-joined to
    [posts] compiles to the statement of [users] left-joined to [posts]:
    the join clause has the outer flag, [users] stays the left operand
    and [posts] the right one.  The operands are not swapped. *)
Theorem C4_right_join_compiles_as_left_join :
  let users := table new_TableQuery Sample.Users in
  _build_query (right_join users Sample.Posts Sample.on_user_post)
  = _build_query (left_join users Sample.Posts Sample.on_user_post)
  /\ exists stmt,
       _build_query (right_join users Sample.Posts Sample.on_user_post) = Ok stmt
       /\ s_joins stmt = [mkJoin Sample.Posts Sample.on_user_post true false]
       /\ from_of Sample.Users (s_joins stmt)
          = FromJoin (FromRel Sample.Users) (FromRel Sample.Posts)
                     Sample.on_user_post true false
       /\ from_of Sample.Users (s_joins stmt)
          <> FromJoin (FromRel Sample.Posts) (FromRel Sample.Users)
                      Sample.on_user_post true false.
Proof.
  split; [reflexivity|].
  eexists. split; [reflexivity|].
  split; [reflexivity|]. split; [reflexivity|]. discriminate.
Qed.

(** ** The filter DSL: keys *)

Lemma has_dot_count (s : string) : has_dot s = false <-> count_dots s = 0%nat.
Proof.
  induction s as [|c s IH]; simpl.
  - tauto.
  - destruct (Ascii.eqb c "."); simpl.
    + split; discriminate.
    + exact IH.
Qed.

(** [split(".", 1)] cuts at the first dot: the table name has no dot,
    the column name keeps every later one. *)
Lemma split_dot1_first_dot (s : string) :
  has_dot s = true ->
  exists t c, split_dot1 s = (t, Some c)
              /\ s = t ++ "." ++ c
              /\ has_dot t = false
              /\ count_dots s = S (count_dots c).
Proof.
  induction s as [|a s IH]; simpl; [discriminate|].
  destruct (Ascii.eqb a ".") eqn:E; intros H.
  - apply Ascii.eqb_eq in E. subst a.
    exists "", s. repeat split; reflexivity.
  - destruct (IH H) as (t & c & Hs & Heq & Ht & Hc).
    exists (String a t), c. rewrite Hs. simpl. rewrite E.
    repeat split; try assumption. now rewrite Heq.
Qed.

Lemma filter_expressions_app (q : TableQuery) (pre post : pydict) (es : list expr) :
  filter_expressions q pre = Ok es ->
  filter_expressions q (pre ++ post)%list =
  (es' <- filter_expressions q post ;; Ok (es ++ es')%list).
Proof.
  revert es. induction pre as [|[k v] pre IH]; intros es H; simpl in *.
  - injection H as <-. destruct (filter_expressions q post); reflexivity.
  - destruct (is_None v).
    + apply IH, H.
    + destruct (filter_entry q k v) as [e|x]; simpl in *; [|discriminate].
      destruct (filter_expressions q pre) as [es0|x] eqn:E; simpl in *; [|discriminate].
      injection H as <-. rewrite (IH es0 eq_refl).
      destruct (filter_expressions q post); reflexivity.
Qed.

(** What the resolver raises before it has a relation: the
    [TypeError] of a clause element in a condition, or the
    [AttributeError] of a column attribute asked for [lower]. *)
Lemma tested_error (x : option relation) (e : exn) :
  DBQuerySetting.tested x = Raise e ->
  e = TypeError DBQuerySetting.no_truth_value_msg.
Proof.
  unfold DBQuerySetting.tested. destruct x as [m|]; [|discriminate].
  destruct (is_class m); [discriminate|]. now intros [= <-].
Qed.

Lemma scan_joins_error (joins : list join_entry) (t : string) (e : exn) :
  DBQuerySetting.scan_joins joins t = Raise e ->
  exists m, In m (map (fun j : join_entry => snd (fst j)) joins)
            /\ getattr_name m = NameColumn
            /\ e = AttributeError (DBQuerySetting.no_lower_msg m).
Proof.
  induction joins as [|[[k m] on] joins IH]; cbn; [discriminate|].
  unfold DBQuerySetting.join_matches, DBQuerySetting.alias_name_of.
  destruct (getattr_name m) eqn:E; cbn [rbind].
  - match goal with |- context [if ?b then _ else _] => destruct b end;
      [discriminate|].
    intros H. destruct (IH H) as (m' & Hin & Hm'). exists m'. split; [now right|exact Hm'].
  - match goal with |- context [if ?b then _ else _] => destruct b end;
      [discriminate|].
    intros H. destruct (IH H) as (m' & Hin & Hm'). exists m'. split; [now right|exact Hm'].
  - intros [= <-]. exists m. split; [now left|]. split; [exact E|reflexivity].
Qed.

Lemma find_model_error (base : option relation) (joins : list join_entry)
      (t : string) (e : exn) :
  DBQuerySetting.find_model base joins t = Raise e ->
  (exists msg, e = TypeError msg) \/ (exists msg, e = AttributeError msg).
Proof.
  unfold DBQuerySetting.find_model.
  destruct (DBQuerySetting.tested base) as [b|e'] eqn:Eb; cbn [rbind].
  - destruct b as [b|]; [destruct (DBQuerySetting.base_matches b t); [discriminate|]|];
      intros H; destruct (scan_joins_error joins t e H) as (m & _ & _ & ->);
      right; eexists; reflexivity.
  - intros [= <-]. apply tested_error in Eb. left. eexists. exact Eb.
Qed.

(** The errors of the resolver and of the operator table are not the
    malformed-key error. *)
Lemma resolution_error_not_malformed (q : TableQuery) (t c op s : string) (v : pyvalue) :
  (column <- DBQuerySetting.get_column_from_model (_base_table q) (_joins q) t c ;;
   DBQuerySetting.build_filter_expression column op v)
  <> Raise (ValueError (malformed_msg s)).
Proof.
  unfold DBQuerySetting.get_column_from_model.
  destruct (DBQuerySetting.find_model _ _ _) as [found|e] eqn:Ef; cbn [rbind];
    [|destruct (find_model_error _ _ _ _ Ef) as [[msg ->]|[msg ->]]; discriminate].
  destruct (DBQuerySetting.tested found) as [[m|]|e] eqn:Et; cbn [rbind];
    [| |rewrite (tested_error _ _ Et); discriminate].
  - destruct (hasattr m c); simpl.
    + unfold DBQuerySetting.build_filter_expression.
      repeat match goal with
             | |- context [if ?b then _ else _] => destruct b
             | |- context [match DBQuerySetting.range_bounds ?x with _ => _ end] =>
                 destruct (DBQuerySetting.range_bounds x) as [[? ?]|]
             end; discriminate.
    + discriminate.
  - unfold DBQuerySetting.get_available_tables.
    destruct (DBQuerySetting.tested (_base_table q)) as [b|e] eqn:Eb; cbn [rbind];
      [discriminate|rewrite (tested_error _ _ Eb); discriminate].
Qed.

Lemma filter_entry_no_dot (q : TableQuery) (key : string) (value : pyvalue) :
  count_dots (fst (parse_key key)) = 0%nat ->
  filter_entry q key value = Raise (ValueError (malformed_msg (fst (parse_key key)))).
Proof.
  intros H. apply has_dot_count in H. unfold filter_entry.
  destruct (parse_key key) as [col_name op]; simpl in *. now rewrite H.
Qed.

Lemma filter_entry_with_dot (q : TableQuery) (key : string) (value : pyvalue) :
  count_dots (fst (parse_key key)) <> 0%nat ->
  exists table_name column_name,
    fst (parse_key key) = table_name ++ "." ++ column_name
    /\ count_dots table_name = 0%nat
    /\ count_dots column_name = pred (count_dots (fst (parse_key key)))
    /\ filter_entry q key value =
       (column <- DBQuerySetting.get_column_from_model
                    (_base_table q) (_joins q) table_name column_name ;;
        DBQuerySetting.build_filter_expression column (snd (parse_key key)) value).
Proof.
  intros H. unfold filter_entry.
  destruct (parse_key key) as [col_name op]; simpl in *.
  destruct (has_dot col_name) eqn:Hd.
  - destruct (split_dot1_first_dot col_name Hd) as (t & c & Hs & Heq & Ht & Hc).
    exists t, c. rewrite Hs. simpl. repeat split.
    + exact Heq.
    + now apply has_dot_count.
    + now rewrite Hc.
  - apply has_dot_count in Hd. contradiction.
Qed.

(** C5 (as amended).  In a filter mapping whose earlier entries raise
    nothing, an entry with a value other than None and a column path (the
    key without its operator suffix) that has no dot makes
    [apply_filters] fail with the ValueError of lines 366-369, which names
    the column path and shows usage examples.  A column path with one or
    more dots passes that check: it is cut at its first dot, the text
    before it is the table name and everything after it, later dots
    included, is the column name handed to the resolver, and whatever the
    entry raises then is not the malformed-key error. *)
Theorem C5_only_dotless_paths_are_malformed
        (q : TableQuery) (pre post : pydict) (es : list expr)
        (key : string) (value : pyvalue) (use_or : bool) :
  filter_expressions q pre = Ok es ->
  is_None value = false ->
  let col_name := fst (parse_key key) in
  let op := snd (parse_key key) in
  (count_dots col_name = 0%nat ->
   apply_filters q (pre ++ (key, value) :: post)%list use_or
   = Raise (ValueError (malformed_msg col_name)))
  /\
  (count_dots col_name <> 0%nat ->
   exists table_name column_name,
     col_name = table_name ++ "." ++ column_name
     /\ count_dots table_name = 0%nat
     /\ count_dots column_name = pred (count_dots col_name)
     /\ filter_entry q key value =
        (column <- DBQuerySetting.get_column_from_model
                     (_base_table q) (_joins q) table_name column_name ;;
         DBQuerySetting.build_filter_expression column op value)
     /\ forall s, filter_entry q key value <> Raise (ValueError (malformed_msg s))).
Proof.
  intros Hpre Hv col_name op. split.
  - intros H0. unfold apply_filters.
    rewrite (filter_expressions_app q pre _ es Hpre). simpl. rewrite Hv.
    rewrite (filter_entry_no_dot q key value H0). reflexivity.
  - intros Hn.
    destruct (filter_entry_with_dot q key value Hn) as (t & c & H1 & H2 & H3 & H4).
    exists t, c. repeat split; try assumption.
    intros s. rewrite H4. apply resolution_error_not_malformed.
Qed.

(** A key without a dot after two well-formed entries, and a key with
    two dots. *)
Lemma C5_only_dotless_paths_are_malformed_witness :
  apply_filters (table new_TableQuery Sample.A)
                [("a.x__eq", PInt 1); ("a.y__gt", PNone); ("name__eq", PStr "n")] false
  = Raise (ValueError (malformed_msg "name"))
  /\ exists table_name column_name,
       "a.b.c" = table_name ++ "." ++ column_name
       /\ count_dots table_name = 0%nat
       /\ count_dots column_name = 1%nat
       /\ forall s, filter_entry (table new_TableQuery Sample.A) "a.b.c__eq" (PInt 1)
                    <> Raise (ValueError (malformed_msg s)).
Proof.
  split.
  - exact (proj1 (C5_only_dotless_paths_are_malformed
                    (table new_TableQuery Sample.A)
                    [("a.x__eq", PInt 1); ("a.y__gt", PNone)] []
                    [Sample.x_eq_1] "name__eq" (PStr "n") false
                    eq_refl eq_refl) eq_refl).
  - destruct (proj2 (C5_only_dotless_paths_are_malformed
                       (table new_TableQuery Sample.A) [] [] []
                       "a.b.c__eq" (PInt 1) false eq_refl eq_refl))
      as (t & c & H1 & H2 & H3 & _ & H5).
    + discriminate.
    + exists t, c. repeat split; assumption.
Defined.

(** C5 (as stated) fails for a column path with two dots: the entry
    ["a.b.c__eq"] is not rejected as malformed; it is resolved as column
    [b.c] of table [a], and the call fails with the resolver's
    unknown-column error instead. *)
Lemma C5_counterexample :
  count_dots (fst (parse_key "a.b.c__eq")) = 2%nat
  /\ apply_filters (table new_TableQuery Sample.A) [("a.b.c__eq", PInt 1)] false
     = Raise (ValueError "Column 'b.c' not found in 'a'.")
  /\ apply_filters (table new_TableQuery Sample.A) [("a.b.c__eq", PInt 1)] false
     <> Raise (ValueError (malformed_msg "a.b.c"))
  /\ apply_filters (table new_TableQuery Sample.A) [("a.b.c__eq", PInt 1)] false
     <> Raise (ValueError (malformed_msg "a.b.c__eq")).
Proof.
  split; [reflexivity|]. split; [reflexivity|]. split; discriminate.
Qed.

(** ** The count statement *)

Lemma count_statement_with_id (q : TableQuery) (base : relation) :
  _base_table q = Some base -> hasattr base "id" = true ->
  count_statement q = Ok (count_compiled q base (SelCol (mkColumn base "id"))).
Proof.
  intros Hb Hid. unfold count_statement, getattr_col. rewrite Hb, Hid.
  destruct (_group_by q); simpl;
    rewrite apply_joins_fields, apply_where_select; reflexivity.
Qed.

Lemma count_statement_without_id (q : TableQuery) (base : relation) :
  _base_table q = Some base -> hasattr base "id" = false -> _group_by q <> [] ->
  count_statement q = Ok (count_compiled q base (first_selected q)).
Proof.
  intros Hb Hid Hg. unfold count_statement, first_selected. rewrite Hb, Hid.
  destruct (_group_by q) as [|g gs]; [contradiction|]. simpl.
  rewrite apply_joins_fields, apply_where_select.
  destruct (_select q); reflexivity.
Qed.

(** [count] and [paginate] hand the session the count statement and no
    other statement before it. *)
Lemma count_runs_count_statement {D} (session : Session D)
      (q : TableQuery) (base : relation) (stmt : select_stmt) (d : D) :
  _base_table q = Some base -> count_statement q = Ok stmt ->
  count session (q, d) =
  (let '(r, d') := execute session (SelectS stmt) [] d in
   (c <- r ;; v <- scalar_one c ;; Ok (or_zero v), (q, d'))).
Proof.
  intros Hb Hs. unfold count, bind, get_self, require_base, lift, exec, ret. simpl.
  rewrite Hb. simpl.
  replace (_clone q) with q by (destruct q; reflexivity).
  rewrite Hs. destruct (execute session (SelectS stmt) [] d) as [[c|e] d']; simpl;
    [|reflexivity].
  destruct (scalar_one c); reflexivity.
Qed.

(** C6 (as amended).  For a builder with a base relation, the count
    statement projects the count of the distinct values of the base
    relation's [id] whenever the base relation has an [id], with or
    without GROUP BY columns; only when the base relation has no [id]
    and a GROUP BY column is present does it count the distinct values of
    the first selected expression (of the literal 1 when nothing is
    selected).  In each case the statement takes from the builder the
    base relation as its FROM, the joins and the combined predicate, and
    has no projection list of the builder, no GROUP BY, HAVING, ORDER BY,
    LIMIT or OFFSET. *)
Theorem C6_count_statement_counts_id_first
        (q : TableQuery) (base : relation) :
  _base_table q = Some base ->
  (hasattr base "id" = true ->
   count_statement q = Ok (count_compiled q base (SelCol (mkColumn base "id"))))
  /\ (hasattr base "id" = false -> _group_by q <> [] ->
      count_statement q = Ok (count_compiled q base (first_selected q)))
  /\ (forall c,
        let stmt := count_compiled q base c in
        s_columns stmt = [SelCountDistinct c]
        /\ s_from stmt = [base]
        /\ s_joins stmt = map compiled_join (_joins q)
        /\ s_where stmt = s_where (compiled q base)
        /\ s_group_by stmt = [] /\ s_having stmt = [] /\ s_order_by stmt = []
        /\ s_limit stmt = None /\ s_offset stmt = None).
Proof.
  intros Hb. split; [|split].
  - apply count_statement_with_id, Hb.
  - apply count_statement_without_id, Hb.
  - intros c. repeat split.
Qed.

(** A grouped query on a relation with an [id] and one on a relation
    without. *)
Lemma C6_count_statement_counts_id_first_witness :
  count_statement SampleCount.users_by_name
  = Ok (count_compiled SampleCount.users_by_name Sample.Users
          (SelCol (mkColumn Sample.Users "id")))
  /\ count_statement SampleCount.events_by_kind
     = Ok (count_compiled SampleCount.events_by_kind Sample.Events
             (SelCol (mkColumn Sample.Events "kind"))).
Proof.
  split.
  - exact (proj1 (C6_count_statement_counts_id_first
                    SampleCount.users_by_name Sample.Users eq_refl) eq_refl).
  - refine (proj1 (proj2 (C6_count_statement_counts_id_first
                            SampleCount.events_by_kind Sample.Events eq_refl))
                  eq_refl _).
    discriminate.
Defined.

(** C6 (as stated) fails when a GROUP BY column is present and the base
    relation has an [id]: [users] grouped by name with the name selected
    is counted by the distinct values of [users.id], not by those of the
    first selected expression [users.name]. *)
Lemma C6_counterexample :
  _group_by SampleCount.users_by_name <> []
  /\ _select SampleCount.users_by_name = [SelCol (mkColumn Sample.Users "name")]
  /\ exists stmt,
       count_statement SampleCount.users_by_name = Ok stmt
       /\ s_columns stmt = [SelCountDistinct (SelCol (mkColumn Sample.Users "id"))]
       /\ s_columns stmt <> [SelCountDistinct (first_selected SampleCount.users_by_name)].
Proof.
  split; [discriminate|]. split; [reflexivity|].
  eexists. split; [reflexivity|]. split; [reflexivity|]. discriminate.
Qed.

(** ** Pagination *)

Lemma ceil_div_spec (a b : Z) : 0 < b -> (ceil_div a b - 1) * b < a <= ceil_div a b * b.
Proof.
  intros Hb. unfold ceil_div.
  pose proof (Z.div_mod (- a) b ltac:(lia)) as H.
  pose proof (Z.mod_pos_bound (- a) b Hb) as Hr.
  nia.
Qed.

Lemma ceil_div_unique (a b c : Z) : 0 < b -> (c - 1) * b < a <= c * b -> ceil_div a b = c.
Proof.
  intros Hb H. pose proof (ceil_div_spec a b Hb) as Hs. nia.
Qed.

Lemma round_half_even_near (N d : Z) :
  0 < d -> 2 * N - d <= 2 * round_half_even N d * d <= 2 * N + d.
Proof.
  intros Hd. unfold round_half_even.
  pose proof (Z.div_mod N d ltac:(lia)) as H.
  pose proof (Z.mod_pos_bound N d Hd) as Hr.
  destruct (2 * (N mod d) <? d) eqn:E1; [apply Z.ltb_lt in E1; nia|].
  apply Z.ltb_ge in E1.
  destruct (d <? 2 * (N mod d)) eqn:E2; [apply Z.ltb_lt in E2; nia|].
  apply Z.ltb_ge in E2.
  destruct (Z.even (N / d)); nia.
Qed.

Lemma log2_ratio_bounds (n d : Z) :
  0 < n < 2 ^ 53 -> 0 < d < 2 ^ 53 ->
  -53 <= log2_ratio n d <= 52 /\ d * 2 ^ (log2_ratio n d + 53) <= n * 2 ^ 53.
Proof.
  intros Hn Hd.
  assert (Hln : 0 <= Z.log2 n < 53).
  { split; [apply Z.log2_nonneg|]. apply Z.log2_lt_pow2; lia. }
  assert (Hld : 0 <= Z.log2 d < 53).
  { split; [apply Z.log2_nonneg|]. apply Z.log2_lt_pow2; lia. }
  pose proof (Z.log2_spec n ltac:(lia)) as Sn.
  pose proof (Z.log2_spec d ltac:(lia)) as Sd.
  unfold log2_ratio, ratio_ge_pow2.
  set (k := Z.log2 n - Z.log2 d) in *.
  destruct (0 <=? k) eqn:Ek.
  - apply Z.leb_le in Ek.
    destruct (d * 2 ^ k <=? n) eqn:E.
    + apply Z.leb_le in E. split; [lia|].
      rewrite Z.pow_add_r by lia. nia.
    + split; [lia|].
      replace (k - 1 + 53) with (k + 52) by lia.
      assert (H1 : 2 ^ Z.succ (Z.log2 d) * 2 ^ (k + 52) = 2 ^ Z.log2 n * 2 ^ 53).
      { rewrite <- !Z.pow_add_r by lia. f_equal. lia. }
      assert (0 < 2 ^ (k + 52)) by (apply Z.pow_pos_nonneg; lia).
      nia.
  - apply Z.leb_gt in Ek.
    destruct (d <=? n * 2 ^ (- k)) eqn:E.
    + apply Z.leb_le in E. split; [lia|].
      assert (H1 : 2 ^ (- k) * 2 ^ (k + 53) = 2 ^ 53).
      { rewrite <- Z.pow_add_r by lia. f_equal. lia. }
      assert (0 < 2 ^ (k + 53)) by (apply Z.pow_pos_nonneg; lia).
      nia.
    + split; [lia|].
      replace (k - 1 + 53) with (k + 52) by lia.
      assert (H1 : 2 ^ Z.succ (Z.log2 d) * 2 ^ (k + 52) = 2 ^ Z.log2 n * 2 ^ 53).
      { rewrite <- !Z.pow_add_r by lia. f_equal. lia. }
      assert (0 < 2 ^ (k + 52)) by (apply Z.pow_pos_nonneg; lia).
      nia.
Qed.

Lemma scaled_round_ceil (n d s : Z) :
  0 < n < 2 ^ 53 -> 0 < d -> 0 < s -> 2 ^ 52 * d <= n * s ->
  ceil_div (round_half_even (n * s) d) s = ceil_div n d.
Proof.
  intros Hn Hd Hs Hlow.
  pose proof (round_half_even_near (n * s) d Hd) as Hm.
  pose proof (ceil_div_spec n d Hd) as Hc.
  set (m := round_half_even (n * s) d) in *.
  set (c := ceil_div n d) in *.
  assert (H2s : d < 2 * s).
  { assert (n * s <= (2 ^ 53 - 1) * s) by nia.
    change (2 ^ 53) with (2 * 2 ^ 52) in *. nia. }
  apply ceil_div_unique; [exact Hs|]. split.
  - assert (2 * ((c - 1) * d + 1) * s - d <= 2 * m * d) by nia.
    assert ((c - 1) * s * d < m * d) by nia.
    nia.
  - assert (2 * m * d <= 2 * (c * d) * s + d) by nia.
    assert (m * d < (c * s + 1) * d) by nia.
    nia.
Qed.

Lemma truediv_pos_exact (n d : Z) :
  0 < n < 2 ^ 53 -> 0 < d < 2 ^ 53 ->
  exists f, truediv_pos n d = Ok f /\ math_ceil f = ceil_div n d.
Proof.
  intros Hn Hd.
  destruct (log2_ratio_bounds n d Hn Hd) as [HL Hscale].
  unfold truediv_pos.
  set (L := log2_ratio n d) in *.
  rewrite Z.max_l by lia.
  set (s := 2 ^ (52 - L)).
  assert (Hs : 0 < s) by (apply Z.pow_pos_nonneg; lia).
  assert (Hlow : 2 ^ 52 * d <= n * s).
  { assert (HA : 0 < 2 ^ (L + 53)) by (apply Z.pow_pos_nonneg; lia).
    assert (HE : s * 2 ^ (L + 53) = 2 ^ 52 * 2 ^ 53).
    { unfold s. rewrite <- !Z.pow_add_r by lia. f_equal. lia. }
    apply (Zorder.Zmult_le_reg_r _ _ (2 ^ (L + 53))); [lia|].
    nia. }
  pose proof (scaled_round_ceil n d s Hn ltac:(lia) Hs Hlow) as Hceil.
  destruct (0 <=? L - 52) eqn:E.
  - apply Z.leb_le in E. assert (L = 52) by lia.
    assert (s = 1) by (unfold s; replace (52 - L) with 0 by lia; reflexivity).
    replace (L - 52) with 0 by lia.
    change (2 ^ 0) with 1. rewrite !Z.mul_1_r.
    rewrite H0, !Z.mul_1_r in Hceil.
    assert (Hm : round_half_even n d = ceil_div n d).
    { rewrite <- Hceil. unfold ceil_div. rewrite Z.div_1_r. lia. }
    pose proof (ceil_div_spec n d ltac:(lia)) as Hc.
    assert (ceil_div n d <= n) by nia.
    assert (Hov : (2 ^ 1024 <=? round_half_even n d) = false).
    { apply Z.leb_gt. rewrite Hm.
      assert (2 ^ 53 < 2 ^ 1024) by (apply Z.pow_lt_mono_r; lia). lia. }
    rewrite Hov. simpl. eexists. split; [reflexivity|].
    unfold math_ceil. simpl. rewrite Z.mul_1_r. exact Hm.
  - apply Z.leb_gt in E. simpl.
    replace (- (L - 52)) with (52 - L) by lia. fold s.
    eexists. split; [reflexivity|].
    unfold math_ceil. simpl f_exp. simpl f_man.
    assert (E' : (0 <=? L - 52) = false) by (apply Z.leb_gt; lia).
    rewrite E'. replace (- (L - 52)) with (52 - L) by lia. fold s.
    exact Hceil.
Qed.

Lemma compute_total_pages_exact (T P : Z) :
  0 <= T < 2 ^ 53 -> 0 < P < 2 ^ 53 ->
  compute_total_pages T P = Ok (if T =? 0 then 1 else ceil_div T P).
Proof.
  intros HT HP. unfold compute_total_pages.
  destruct (T =? 0) eqn:E; [reflexivity|].
  apply Z.eqb_neq in E. simpl. unfold truediv.
  assert (E1 : (P =? 0) = false) by (apply Z.eqb_neq; lia).
  assert (E2 : (T =? 0) = false) by (apply Z.eqb_neq; lia).
  rewrite E1, E2. rewrite (Z.abs_eq T), (Z.abs_eq P) by lia.
  destruct (truediv_pos_exact T P ltac:(lia) HP) as [f [Hf Hc]].
  rewrite Hf. simpl.
  rewrite (Z.sgn_pos T), (Z.sgn_pos P) by lia.
  rewrite <- Hc. destruct f as [m e]. cbn [f_man f_exp].
  replace (1 * 1 * m) with m by lia. reflexivity.
Qed.

(** For a count below 2^53 (and a page size below 2^53) the metadata
    is what the specification states. *)
Lemma pagination_of_exact (page per_page T : Z) :
  0 <= T < 2 ^ 53 -> per_page < 2 ^ 53 ->
  exists meta,
    pagination_of page per_page T = Ok meta
    /\ total_records meta = T
    /\ total_pages meta = (if T =? 0 then 1 else ceil_div T (clamp_per_page per_page))
    /\ pg_limit meta = clamp_per_page per_page
    /\ current_page meta = clamp_page page
    /\ pg_offset meta = (clamp_page page - 1) * clamp_per_page per_page
    /\ has_more meta = (clamp_page page <? total_pages meta)
    /\ (next_page meta = None <-> has_more meta = false)
    /\ (previous_page meta = None <-> clamp_page page = 1)
    /\ last_page meta = total_pages meta.
Proof.
  intros HT HP. unfold pagination_of.
  assert (Hpp : 0 < clamp_per_page per_page < 2 ^ 53).
  { unfold clamp_per_page. destruct (per_page <? 1) eqn:E.
    - split; [lia|reflexivity].
    - apply Z.ltb_ge in E. lia. }
  assert (Hpg : 1 <= clamp_page page).
  { unfold clamp_page. destruct (page <? 1) eqn:E; [lia|].
    apply Z.ltb_ge in E. lia. }
  rewrite (compute_total_pages_exact T _ HT Hpp). simpl.
  eexists. split; [reflexivity|]. simpl.
  repeat split; try reflexivity.
  - destruct (clamp_page page <? _); [discriminate|reflexivity].
  - intros H. rewrite H. reflexivity.
  - destruct (1 <? clamp_page page) eqn:E; [discriminate|].
    apply Z.ltb_ge in E. lia.
  - intros H. rewrite H. reflexivity.
Qed.

Lemma clamp_defaults (page per_page : Z) :
  (page < 1 -> clamp_page page = 1) /\ (1 <= page -> clamp_page page = page)
  /\ (per_page < 1 -> clamp_per_page per_page = 10)
  /\ (1 <= per_page -> clamp_per_page per_page = per_page).
Proof.
  unfold clamp_page, clamp_per_page.
  destruct (page <? 1) eqn:E1; destruct (per_page <? 1) eqn:E2;
    try apply Z.ltb_lt in E1; try apply Z.ltb_ge in E1;
    try apply Z.ltb_lt in E2; try apply Z.ltb_ge in E2;
    repeat split; intros; lia.
Qed.

(** What [paginate] returns is the metadata of the count the session
    reported for the count statement. *)
Lemma paginate_metadata {D} (session : Session D) (page per_page : Z)
      (q : TableQuery) (d : D) (items : list row) (meta : pagination)
      (w : TableQuery * D) :
  paginate session page per_page (q, d) = (Ok (items, meta), w) ->
  exists count_stmt c d1 T,
    count_statement q = Ok count_stmt
    /\ execute session (SelectS count_stmt) [] d = (Ok c, d1)
    /\ (v <- scalar_one c ;; int_of_value (or_zero v)) = Ok T
    /\ pagination_of page per_page T = Ok meta.
Proof.
  unfold paginate, bind, get_self, lift, exec, ret, reset_self, put_self. simpl.
  replace (_clone q) with q by (destruct q; reflexivity).
  destruct (count_statement q) as [count_stmt|e]; [|discriminate].
  destruct (execute session (SelectS count_stmt) [] d) as [[c|e] d1] eqn:Ex;
    [|discriminate].
  destruct (scalar_one c) as [v|e] eqn:Esc; [|discriminate].
  destruct (int_of_value (or_zero v)) as [T|e] eqn:ET; [|discriminate].
  destruct (compute_total_pages T (clamp_per_page per_page)) as [tp|e] eqn:Etp;
    [|discriminate].
  destruct (_build_query q) as [stmt|e]; [|discriminate].
  cbn [fst snd].
  match goal with
  | |- context [execute session ?s [] d1] =>
      destruct (execute session s [] d1) as [[c2|e] d2]; [|discriminate]
  end.
  intros H. injection H as _ Hmeta _.
  exists count_stmt, c, d1, T. repeat split; try reflexivity.
  - exact Ex.
  - rewrite Esc. simpl. exact ET.
  - unfold pagination_of. rewrite Etp. simpl. now rewrite Hmeta.
Qed.

(** C7 (the code at the failing input).  When the count query reports
    2^53 + 1 records and the page size is 1, [paginate] returns
    [total_pages = 2^53]: the quotient is rounded to a float before the
    ceiling is taken.  The ceiling of the exact quotient is 2^53 + 1, so
    on page 2^53 [has_more] is false and [next_page] is None although
    one more page exists. *)
Theorem C7_total_pages_rounded_for_large_counts :
  let T := 9007199254740993 in
  let users := table new_TableQuery Sample.Users in
  ceil_div T 1 = 9007199254740993
  /\ (exists items meta,
        paginate (counting_session T) 1 1 (users, tt)
        = (Ok (items, meta), (empty_state, tt))
        /\ total_records meta = T
        /\ total_pages meta = 9007199254740992)
  /\ (exists items meta,
        paginate (counting_session T) 9007199254740992 1 (users, tt)
        = (Ok (items, meta), (empty_state, tt))
        /\ has_more meta = false /\ next_page meta = None).
Proof.
  split; [reflexivity|].
  split; eexists; eexists; (split; [vm_compute; reflexivity|]);
    split; reflexivity.
Qed.

(** ** Batch insertion *)

Lemma range_len_bounds (n size : nat) :
  (0 < size)%nat -> (0 < n)%nat ->
  ((range_len n size - 1) * size < n <= range_len n size * size)%nat.
Proof.
  intros Hs Hn. unfold range_len.
  pose proof (Nat.div_mod (n + size - 1) size ltac:(lia)) as H.
  pose proof (Nat.mod_upper_bound (n + size - 1) size ltac:(lia)) as Hr.
  nia.
Qed.

Lemma chunk_from_concat {A} (size : nat) (fuel : nat) :
  forall data : list A,
    (List.length data <= fuel * size)%nat ->
    List.concat (chunk_from fuel data size) = data.
Proof.
  induction fuel as [|fuel IH]; intros data H; simpl in *.
  - destruct data; [reflexivity|simpl in H; lia].
  - rewrite IH; [apply firstn_skipn|].
    rewrite length_skipn. lia.
Qed.

(** Every batch but the last is full, the last one holds what is left,
    at least one row and at most [size]. *)
Lemma chunk_from_sizes {A} (size : nat) (fuel : nat) :
  forall data : list A,
    (fuel * size < List.length data + size)%nat ->
    (List.length data <= fuel * size)%nat ->
    (0 < size)%nat ->
    map (@List.length A) (chunk_from fuel data size)
    = (repeat size (fuel - 1)
       ++ match fuel with
          | O => []
          | S f => [List.length data - f * size]%nat
          end)%list.
Proof.
  induction fuel as [|fuel IH]; intros data Hlo Hhi Hs; [reflexivity|].
  cbn [chunk_from map]. rewrite length_firstn.
  destruct fuel as [|fuel].
  - simpl in *. f_equal. lia.
  - rewrite IH; [|rewrite length_skipn; lia|rewrite length_skipn; lia|exact Hs].
    rewrite length_skipn.
    replace (S (S fuel) - 1)%nat with (S (S fuel - 1)) by lia.
    cbn [repeat app]. f_equal; [simpl in *; lia|].
    f_equal. f_equal. nia.
Qed.

(** The parts of C8 on batching: for a positive [chunk_size], [_chunk]
    cuts the list, in order, into [ceil(len / chunk_size)] consecutive
    batches, all of size [chunk_size] but the last, which has between 1
    and [chunk_size] rows. *)
Lemma chunk_partitions {A} (data : list A) (chunk_size : Z) :
  0 < chunk_size -> data <> [] ->
  exists chunks,
    _chunk data chunk_size = Ok chunks
    /\ List.concat chunks = data
    /\ let size := Z.to_nat chunk_size in
       let n := range_len (List.length data) size in
       List.length chunks = n
       /\ map (@List.length A) chunks
          = (repeat size (n - 1) ++ [List.length data - (n - 1) * size]%nat)%list
       /\ (0 < List.length data - (n - 1) * size <= size)%nat.
Proof.
  intros Hs Hd. unfold _chunk.
  assert (E1 : (chunk_size =? 0) = false) by (apply Z.eqb_neq; lia).
  assert (E2 : (chunk_size <? 0) = false) by (apply Z.ltb_ge; lia).
  rewrite E1, E2.
  set (size := Z.to_nat chunk_size). set (n := range_len (List.length data) size).
  assert (Hsize : (0 < size)%nat) by (unfold size; lia).
  assert (Hlen : (0 < List.length data)%nat) by (destruct data; [contradiction|simpl; lia]).
  pose proof (range_len_bounds (List.length data) size Hsize Hlen) as Hb. fold n in Hb.
  eexists. split; [reflexivity|]. split; [apply chunk_from_concat; lia|].
  cbv zeta. split; [|split].
  - rewrite <- (length_map (@List.length A)).
    rewrite (chunk_from_sizes size n data); [|nia|lia|exact Hsize].
    rewrite length_app, repeat_length. destruct n; [lia|]. simpl. lia.
  - rewrite (chunk_from_sizes size n data); [|nia|lia|exact Hsize].
    destruct n; [lia|]. replace (S n - 1)%nat with n by lia. reflexivity.
  - nia.
Qed.

(** 2500 rows in batches of 1000: three batches, of 1000, 1000 and 500
    rows. *)
Lemma chunk_2500_by_1000 {A} (data : list A) :
  List.length data = 2500%nat ->
  exists chunks,
    _chunk data 1000 = Ok chunks
    /\ List.concat chunks = data
    /\ map (@List.length A) chunks = [1000; 1000; 500]%nat.
Proof.
  intros H.
  destruct (chunk_partitions data 1000 ltac:(lia)) as (chunks & Hc & Hcat & _ & Hsz & _).
  { destruct data; [discriminate|discriminate]. }
  exists chunks. split; [exact Hc|]. split; [exact Hcat|].
  rewrite Hsz, H. reflexivity.
Qed.

(** The part of C8 on validation: an unknown key anywhere in the batch
    makes [create_many] raise before the session is used; builder and
    database are as they were. *)
Lemma create_many_validates_first {D} (session : Session D)
      (q : TableQuery) (base : relation) (data_list : list pydict)
      (chunk_size : Z) (d : D) (e : exn) :
  _base_table q = Some base -> data_list <> [] ->
  validate_rows base data_list = Raise e ->
  create_many session data_list chunk_size (q, d) = (Raise e, (q, d)).
Proof.
  intros Hb Hd Hv. unfold create_many, bind, get_self, require_base, lift. simpl.
  rewrite Hb. simpl. destruct data_list; [contradiction|].
  rewrite Hv. reflexivity.
Qed.

(** What the validation raises for a key that is no attribute of the
    base relation: the error that names the key and the table, or, for a
    relation without [__tablename__], the error of reading it. *)
Definition unknown_key_error (base : relation) (key : string) : exn :=
  match rel_tablename base with
  | Some t => ValueError (no_column_msg key t)
  | None => AttributeError "type object has no attribute '__tablename__'"
  end.

Lemma validate_keys_first_unknown (base : relation) (ks : list string)
      (key : string) (ks' : list string) :
  forallb (hasattr base) ks = true ->
  hasattr base key = false ->
  validate_keys base (ks ++ key :: ks')%list = Raise (unknown_key_error base key).
Proof.
  intros Hks Hkey. induction ks as [|k ks IH]; cbn in *.
  - rewrite Hkey. cbn. unfold tablename_of, unknown_key_error.
    destruct (rel_tablename base); reflexivity.
  - apply andb_prop in Hks. destruct Hks as [H1 H2]. rewrite H1. cbn. exact (IH H2).
Qed.

Lemma validate_rows_unknown_key (base : relation) (good : list pydict)
      (bad : pydict) (rest : list pydict) (e : exn) :
  validate_rows base good = Ok tt ->
  validate_keys base (keys bad) = Raise e ->
  validate_rows base (good ++ bad :: rest)%list = Raise e.
Proof.
  intros Hg Hb. induction good as [|g good IH]; cbn in *.
  - rewrite Hb. reflexivity.
  - destruct (validate_keys base (keys g)) as [[]|x]; cbn in *; [|discriminate].
    apply IH, Hg.
Qed.

(** The first unknown key, rows in order and keys in order within a
    row, is the one reported. *)
Lemma validate_rows_first_unknown (base : relation) (t : string)
      (good : list pydict) (bad : pydict) (rest : list pydict)
      (ks : list string) (key : string) (ks' : list string) :
  rel_tablename base = Some t ->
  validate_rows base good = Ok tt ->
  keys bad = (ks ++ key :: ks')%list ->
  forallb (hasattr base) ks = true ->
  hasattr base key = false ->
  validate_rows base (good ++ bad :: rest)%list
  = Raise (ValueError (no_column_msg key t)).
Proof.
  intros Ht Hg Hk Hks Hkey.
  induction good as [|g good IH]; simpl in *.
  - rewrite Hk. clear Hk.
    induction ks as [|k ks IHk]; simpl in *.
    + rewrite Hkey. simpl. unfold tablename_of. rewrite Ht. reflexivity.
    + apply andb_prop in Hks. destruct Hks as [H1 H2]. rewrite H1. simpl.
      rewrite (IHk H2). reflexivity.
  - destruct (validate_keys base (keys g)) as [[]|x]; simpl in *; [|discriminate].
    apply IH, Hg.
Qed.

(** [dict(row)] raises on a row whose first value is no sequence: a
    number, a boolean, [None]. *)
Lemma dict_of_Row_first_value (r : row) :
  r <> [] -> items_of (row0 r) = None ->
  dict_of_Row r = Raise (TypeError (not_a_sequence_msg 0)).
Proof.
  destruct r as [|[k v] r]; [contradiction|]. intros _ H. cbn in H.
  unfold dict_of_Row. cbn [map snd dict_update]. now rewrite H.
Qed.

Lemma dicts_of_Rows_first_value (r : row) (rows : list row) :
  r <> [] -> items_of (row0 r) = None ->
  dicts_of_Rows (r :: rows) = Raise (TypeError (not_a_sequence_msg 0)).
Proof. intros Hr H. cbn. now rewrite (dict_of_Row_first_value r Hr H). Qed.

(** C8 (the code at the failing input).  Three rows a, b, c in batches
    of two: the rows are validated and cut into the batches [a, b] and
    [c], and the first batch is inserted.  The rows read back are [Row]
    objects, [dict(row)] raises on the first of them, and the call ends
    there with [TypeError]: nothing is returned, c is never inserted, the
    builder is not reset.  On an engine with RETURNING the error of line
    827 is caught by the [except] of line 828, which inserts the first
    batch a second time before line 835 raises. *)
Theorem C8_create_many_raises_on_the_first_batch :
  let users := table new_TableQuery Sample.Users in
  validate_rows Sample.Users SampleRows.three_rows = Ok tt
  /\ _chunk SampleRows.three_rows 2
     = Ok [[[("name", PStr "a")]; [("name", PStr "b")]]; [[("name", PStr "c")]]]
  /\ create_many Engine.session SampleRows.three_rows 2
                 (users, Sample.db_without_returning)
     = (Raise (TypeError "cannot convert dictionary update sequence element #0 to a sequence"),
        (users,
         Engine.mkDb false
           [SampleRows.stored_as 1 "a"; SampleRows.stored_as 2 "b"] 3))
  /\ create_many Engine.session SampleRows.three_rows 2
                 (users, Sample.db_with_returning)
     = (Raise (TypeError "cannot convert dictionary update sequence element #0 to a sequence"),
        (users,
         Engine.mkDb true
           [SampleRows.stored_as 1 "a"; SampleRows.stored_as 2 "b";
            SampleRows.stored_as 3 "a"; SampleRows.stored_as 4 "b"] 5)).
Proof. repeat split; vm_compute; reflexivity. Qed.

(** ** The column resolver *)

(** The base relation is asked first: a base class that answers to the
    token owns the column, whatever is joined. *)
Lemma resolver_base_first (b : relation) (joins : list join_entry) (t c : string) :
  is_class b = true ->
  DBQuerySetting.base_matches b t = true ->
  DBQuerySetting.get_column_from_model (Some b) joins t c
  = if hasattr b c then Ok (mkColumn b c)
    else Raise (ValueError (DBQuerySetting.unknown_column_msg c t)).
Proof.
  intros Hc Hb.
  unfold DBQuerySetting.get_column_from_model, DBQuerySetting.find_model,
    DBQuerySetting.tested.
  rewrite Hc. cbn [rbind]. rewrite Hb. cbn [rbind]. rewrite Hc. cbn [rbind].
  destruct (hasattr b c); reflexivity.
Qed.

(** When the base relation does not answer to the token, the scan of
    the joins stops with [AttributeError] at the first joined class that
    has a column [name], whether or not it answers to the token: line 119
    asks the column attribute for [lower]. *)
Lemma resolver_stops_at_name_column (b : relation) (pre : list join_entry)
      (k : string) (m : relation) (on : expr) (post : list join_entry)
      (t c : string) :
  is_class b = true ->
  DBQuerySetting.base_matches b t = false ->
  Forall (fun j : join_entry =>
            DBQuerySetting.join_matches (snd (fst j)) t = Ok false) pre ->
  getattr_name m = NameColumn ->
  DBQuerySetting.get_column_from_model (Some b) (pre ++ (k, m, on) :: post)%list t c
  = Raise (AttributeError (DBQuerySetting.no_lower_msg m)).
Proof.
  intros Hc Hb Hpre Hm.
  unfold DBQuerySetting.get_column_from_model, DBQuerySetting.find_model,
    DBQuerySetting.tested.
  rewrite Hc. cbn [rbind]. rewrite Hb.
  assert (Hs : DBQuerySetting.scan_joins (pre ++ (k, m, on) :: post)%list t
               = Raise (AttributeError (DBQuerySetting.no_lower_msg m))).
  { induction Hpre as [|[[k' m'] on'] pre Hj _ IH]; cbn.
    - unfold DBQuerySetting.join_matches, DBQuerySetting.alias_name_of.
      rewrite Hm. reflexivity.
    - cbn in Hj. rewrite Hj. cbn [rbind]. exact IH. }
  rewrite Hs. reflexivity.
Qed.

(** A joined relation that is no class (an alias, a subquery) and
    answers to the token by its [name] is found by the scan and refused
    by the test of line 127. *)
Lemma resolver_refuses_alias (b : relation) (pre : list join_entry)
      (k : string) (m : relation) (on : expr) (post : list join_entry)
      (t c : string) :
  is_class b = true ->
  DBQuerySetting.base_matches b t = false ->
  Forall (fun j : join_entry =>
            DBQuerySetting.join_matches (snd (fst j)) t = Ok false) pre ->
  is_class m = false ->
  DBQuerySetting.join_matches m t = Ok true ->
  DBQuerySetting.get_column_from_model (Some b) (pre ++ (k, m, on) :: post)%list t c
  = Raise (TypeError DBQuerySetting.no_truth_value_msg).
Proof.
  intros Hc Hb Hpre Hm Hj.
  unfold DBQuerySetting.get_column_from_model, DBQuerySetting.find_model,
    DBQuerySetting.tested.
  rewrite Hc. cbn [rbind]. rewrite Hb.
  assert (Hs : DBQuerySetting.scan_joins (pre ++ (k, m, on) :: post)%list t
               = Ok (Some m)).
  { induction Hpre as [|[[k' m'] on'] pre Hj' _ IH]; cbn.
    - rewrite Hj. reflexivity.
    - cbn in Hj'. rewrite Hj'. cbn [rbind]. exact IH. }
  rewrite Hs. cbn [rbind]. rewrite Hm. reflexivity.
Qed.

(** C9 (the code at the failing inputs).  The base relation is asked
    first, so on the self-join the token [USERS] gives the column of the
    base relation; a joined class without a column [name] is found by
    its table name, and a token that names nothing gets the list of the
    tables.  The scan does not get past a joined class that has a column
    [name]: [posts] joined to [users], token [users], raises
    [AttributeError] where the claim has the column of [users].  And a
    join found by its alias is refused: [users] joined to the subquery
    [stats], token [stats], raises [TypeError]. *)
Theorem C9_joined_relations_are_not_resolved :
  DBQuerySetting.get_column_from_model
    (Some Sample.Users) SampleJoin.self_join "USERS" "x"
  = Ok (mkColumn Sample.Users "x")
  /\ DBQuerySetting.get_column_from_model
       (Some Sample.Posts) SampleJoin.tags_join "Tags" "label"
     = Ok (mkColumn Sample.Tags "label")
  /\ DBQuerySetting.get_column_from_model
       (Some Sample.Posts) SampleJoin.tags_join "orders" "x"
     = Raise (ValueError "Unknown table/model 'orders'. Available: Post(posts), Tag(tags)")
  /\ DBQuerySetting.get_column_from_model
       (Some Sample.Posts) SampleJoin.author_join "users" "id"
     = Raise (AttributeError
                "Neither 'InstrumentedAttribute' object nor 'Comparator' object associated with User.name has an attribute 'lower'")
  /\ DBQuerySetting.get_column_from_model
       (Some Sample.Posts) SampleJoin.author_join "orders" "id"
     = Raise (AttributeError
                "Neither 'InstrumentedAttribute' object nor 'Comparator' object associated with User.name has an attribute 'lower'")
  /\ DBQuerySetting.get_column_from_model
       (Some Sample.Users) SampleJoin.stats_join "stats" "views"
     = Raise (TypeError "Boolean value of this clause is not defined")
  /\ DBQuerySetting.get_column_from_model
       (Some Sample.Posts) SampleJoin.self_join "users" "x"
     = Raise (TypeError "Boolean value of this clause is not defined").
Proof. repeat split; reflexivity. Qed.

(** The resolver on the self-join through the filter DSL: a filter on
    [users.x] is a predicate on the base relation's column. *)
Example self_join_filter_resolves_to_base :
  apply_filters (set_joins (table new_TableQuery Sample.Users) SampleJoin.self_join)
                [("users.x__eq", PInt 1)] false
  = Ok (where_ (set_joins (table new_TableQuery Sample.Users) SampleJoin.self_join)
               [And_ [Cmp OpEq (mkColumn Sample.Users "x") (PInt 1)]]).
Proof. reflexivity. Qed.

(** The errors of the resolver that are no [ValueError] pass through
    [apply_filters] as they are. *)
Example joined_filter_raises :
  apply_filters (set_joins (table new_TableQuery Sample.Posts) SampleJoin.author_join)
                [("users.id__eq", PInt 1)] false
  = Raise (AttributeError (DBQuerySetting.no_lower_msg Sample.Users)).
Proof. reflexivity. Qed.

(** ** The filter DSL: None values *)

Lemma filter_expressions_skips_None (q : TableQuery) (filters : pydict) :
  filter_expressions q filters = filter_expressions q (filter not_None filters).
Proof.
  induction filters as [|[k v] filters IH]; simpl; [reflexivity|].
  unfold not_None at 1. simpl. destruct (is_None v) eqn:E; simpl.
  - exact IH.
  - rewrite E, IH. reflexivity.
Qed.

Lemma filter_expressions_all_None (q : TableQuery) (ks : list string) :
  filter_expressions q (map (fun k => (k, PNone)) ks) = Ok [].
Proof. induction ks as [|k ks IH]; simpl; [reflexivity|exact IH]. Qed.

(** C10.  [apply_filters] skips every entry whose value is None before
    it looks at the key: the call is the call on the mapping without
    those entries, whatever their keys (malformed ones included).  When
    every value is None the call returns the builder unchanged, both
    predicate groups as they were.  The operators [isnull] and [notnull]
    ignore their value, so they are reached only through an entry whose
    value is not None; with None the entry yields no predicate. *)
Theorem C10_None_entries_are_skipped
        (q : TableQuery) (filters : pydict) (ks : list string) (use_or : bool) :
  apply_filters q filters use_or = apply_filters q (filter not_None filters) use_or
  /\ apply_filters q (map (fun k => (k, PNone)) ks) use_or = Ok q
  /\ apply_filters q [("t.c__isnull", PNone)] use_or = Ok q
  /\ apply_filters q [("t.c__notnull", PNone)] use_or = Ok q
  /\ (forall col v,
        DBQuerySetting.build_filter_expression col "isnull" v = Ok (Is_ col PNone)
        /\ DBQuerySetting.build_filter_expression col "notnull" v = Ok (IsNot col PNone)).
Proof.
  split; [|split; [|split; [|split]]].
  - unfold apply_filters. now rewrite filter_expressions_skips_None.
  - unfold apply_filters. now rewrite filter_expressions_all_None.
  - reflexivity.
  - reflexivity.
  - intros col v. split; reflexivity.
Qed.

(** With a value that is not None the same keys do yield predicates. *)
Example isnull_with_a_value :
  apply_filters (table new_TableQuery Sample.Users) [("user.name__isnull", PBool true)] false
  = Ok (where_ (table new_TableQuery Sample.Users)
               [And_ [Is_ (mkColumn Sample.Users "name") PNone]])
  /\ apply_filters (table new_TableQuery Sample.Users)
                   [("nodot", PNone); ("user.name__notnull", PInt 0)] true
     = Ok (or_where (table new_TableQuery Sample.Users)
                    [Or_ [IsNot (mkColumn Sample.Users "name") PNone]]).
Proof. split; reflexivity. Qed.

(** ** Properties of the rest of the builder *)

(** ** Filter keys: splitting and joining *)

Lemma split_dunder_nonempty (s : string) : split_dunder s <> [].
Proof.
  destruct s as [|c s]; simpl; [discriminate|].
  destruct c as [[] [] [] [] [] [] [] []]; try (destruct (split_dunder s); discriminate).
  destruct s as [|c' s']; [discriminate|].
  destruct c' as [[] [] [] [] [] [] [] []];
    try (destruct (split_dunder (String _ s')); discriminate).
  discriminate.
Qed.

(** Induction along [split_dunder]: the empty string, a string that
    starts with two underscores, and any other string by its tail. *)
Lemma dunder_ind (P : string -> Prop) :
  P "" ->
  (forall r, P r -> P (String "_" (String "_" r))) ->
  (forall c r, (c <> "_"%char \/ forall r', r <> String "_" r') -> P r -> P (String c r)) ->
  forall s, P s.
Proof.
  intros H0 H2 H1.
  assert (H : forall s, P s /\ forall c, P (String c s)).
  { induction s as [|a s [IHs IHc]].
    - split; [exact H0|]. intros c. apply H1; [|exact H0].
      right. intros r'. discriminate.
    - split; [apply IHc|]. intros c.
      destruct (Ascii.eqb c "_") eqn:Ec.
      + apply Ascii.eqb_eq in Ec. subst c.
        destruct (Ascii.eqb a "_") eqn:Ea.
        * apply Ascii.eqb_eq in Ea. subst a. apply H2, IHs.
        * apply Ascii.eqb_neq in Ea. apply H1; [|apply IHc].
          right. intros r' E. injection E as E _. contradiction.
      + apply Ascii.eqb_neq in Ec. apply H1; [now left|apply IHc]. }
  intros s. apply H.
Qed.

Lemma split_dunder_other (c : ascii) (r : string) :
  (c <> "_"%char \/ forall r', r <> String "_" r') ->
  split_dunder (String c r) =
  match split_dunder r with
  | [] => [String c EmptyString]
  | p :: ps => String c p :: ps
  end.
Proof.
  intros H. destruct (Ascii.eqb c "_") eqn:Ec.
  - apply Ascii.eqb_eq in Ec. subst c.
    destruct H as [H|H]; [contradiction|].
    destruct r as [|a r']; [reflexivity|].
    destruct (Ascii.eqb a "_") eqn:Ea.
    + apply Ascii.eqb_eq in Ea. subst a. exfalso. apply (H r'). reflexivity.
    + apply Ascii.eqb_neq in Ea.
      destruct a as [[] [] [] [] [] [] [] []]; try reflexivity.
      contradiction Ea. reflexivity.
  - apply Ascii.eqb_neq in Ec.
    destruct c as [[] [] [] [] [] [] [] []]; try reflexivity.
    contradiction Ec. reflexivity.
Qed.

Lemma has_dunder_other (c : ascii) (r : string) :
  (c <> "_"%char \/ forall r', r <> String "_" r') ->
  has_dunder (String c r) = has_dunder r.
Proof.
  intros H. destruct (Ascii.eqb c "_") eqn:Ec.
  - apply Ascii.eqb_eq in Ec. subst c.
    destruct H as [H|H]; [contradiction|].
    destruct r as [|a r']; [reflexivity|].
    destruct (Ascii.eqb a "_") eqn:Ea.
    + apply Ascii.eqb_eq in Ea. subst a. exfalso. apply (H r'). reflexivity.
    + apply Ascii.eqb_neq in Ea.
      destruct a as [[] [] [] [] [] [] [] []]; try reflexivity.
      contradiction Ea. reflexivity.
  - apply Ascii.eqb_neq in Ec.
    destruct c as [[] [] [] [] [] [] [] []]; try reflexivity.
    contradiction Ec. reflexivity.
Qed.

Lemma string_app_assoc (a b c : string) : (a ++ b) ++ c = a ++ (b ++ c).
Proof. induction a as [|x a IH]; simpl; [reflexivity|now rewrite IH]. Qed.

Lemma join_cons (sep p : string) (ps : list string) :
  ps <> [] -> join sep (p :: ps) = p ++ sep ++ join sep ps.
Proof. destruct ps; [contradiction|reflexivity]. Qed.

(** Joining the pieces of a key with two underscores gives the key
    back. *)
Lemma join_split_dunder (s : string) : join "__" (split_dunder s) = s.
Proof.
  induction s as [|r IH|c r Hc IH] using dunder_ind.
  - reflexivity.
  - change (split_dunder (String "_" (String "_" r))) with ("" :: split_dunder r).
    rewrite join_cons by apply split_dunder_nonempty. rewrite IH. reflexivity.
  - rewrite (split_dunder_other c r Hc).
    pose proof (split_dunder_nonempty r) as Hne.
    destruct (split_dunder r) as [|p ps]; [contradiction|].
    destruct ps as [|p' ps].
    + simpl in *. now rewrite IH.
    + rewrite join_cons by discriminate. rewrite join_cons in IH by discriminate.
      rewrite <- IH. reflexivity.
Qed.

Lemma split_dunder_pieces (s : string) :
  Forall (fun p => has_dunder p = false) (split_dunder s).
Proof.
  induction s as [|r IH|c r Hc IH] using dunder_ind.
  - repeat constructor.
  - change (split_dunder (String "_" (String "_" r))) with ("" :: split_dunder r).
    constructor; [reflexivity|exact IH].
  - rewrite (split_dunder_other c r Hc).
    pose proof (split_dunder_nonempty r) as Hne.
    destruct (split_dunder r) as [|p ps] eqn:E; [contradiction|].
    inversion IH as [|? ? Hp Hps]; subst. constructor; [|exact Hps].
    (* the piece [String c p] *)
    destruct (Ascii.eqb c "_") eqn:Ec.
    + apply Ascii.eqb_eq in Ec. subst c.
      destruct Hc as [Hc|Hc]; [contradiction|].
      rewrite has_dunder_other; [exact Hp|]. right. intros p' ->.
      (* [p] starts with an underscore, so [r] does *)
      destruct r as [|a r']; [simpl in E; congruence|].
      destruct (Ascii.eqb a "_") eqn:Ea.
      * apply Ascii.eqb_eq in Ea. subst a. apply (Hc r'). reflexivity.
      * apply Ascii.eqb_neq in Ea.
        assert (Hr : a <> "_"%char \/ forall r'0, r' <> String "_" r'0) by now left.
        rewrite (split_dunder_other a r' Hr) in E.
        destruct (split_dunder r'); congruence.
    + apply Ascii.eqb_neq in Ec. rewrite has_dunder_other; [exact Hp|now left].
Qed.

Lemma split_dunder_length (s : string) :
  Nat.ltb 1 (List.length (split_dunder s)) = has_dunder s.
Proof.
  induction s as [|r IH|c r Hc IH] using dunder_ind.
  - reflexivity.
  - change (split_dunder (String "_" (String "_" r))) with ("" :: split_dunder r).
    pose proof (split_dunder_nonempty r). destruct (split_dunder r); [contradiction|].
    reflexivity.
  - rewrite (split_dunder_other c r Hc), (has_dunder_other c r Hc), <- IH.
    pose proof (split_dunder_nonempty r). destruct (split_dunder r); [contradiction|].
    reflexivity.
Qed.

Lemma join_init_last (parts : list string) :
  (1 < List.length parts)%nat ->
  join "__" parts = join "__" (removelast parts) ++ "__" ++ last parts "".
Proof.
  induction parts as [|p ps IH]; intros H; [simpl in H; lia|].
  destruct ps as [|p' ps]; [simpl in H; lia|].
  destruct ps as [|p'' ps].
  - reflexivity.
  - rewrite join_cons by discriminate.
    rewrite IH by (simpl; lia).
    change (removelast (p :: p' :: p'' :: ps)) with (p :: removelast (p' :: p'' :: ps)).
    rewrite join_cons.
    + change (last (p :: p' :: p'' :: ps) "") with (last (p' :: p'' :: ps) "").
      rewrite !string_app_assoc. reflexivity.
    + destruct ps; discriminate.
Qed.

Lemma split_dunder_single (s : string) :
  has_dunder s = false -> split_dunder s = [s].
Proof.
  intros H. pose proof (split_dunder_length s) as HL. rewrite H in HL.
  pose proof (join_split_dunder s) as HJ.
  pose proof (split_dunder_nonempty s) as HN.
  destruct (split_dunder s) as [|p [|p' ps]]; [contradiction| |discriminate].
  simpl in HJ. now subst.
Qed.

Lemma trailing_underscores_le (s : string) :
  (trailing_underscores s <= String.length s)%nat.
Proof.
  induction s as [|c r IH]; cbn; [lia|].
  destruct (andb _ _); lia.
Qed.

Lemma trailing_underscores_other (c : ascii) (r : string) :
  c <> "_"%char -> trailing_underscores (String c r) = trailing_underscores r.
Proof. intros H. cbn. apply Ascii.eqb_neq in H. now rewrite H. Qed.

(** A string that starts with another character does not consist of
    underscores. *)
Lemma trailing_underscores_lt (a : ascii) (r : string) :
  a <> "_"%char ->
  Nat.eqb (trailing_underscores (String a r)) (String.length (String a r)) = false.
Proof.
  intros H. rewrite (trailing_underscores_other a r H). apply Nat.eqb_neq.
  pose proof (trailing_underscores_le r). cbn. lia.
Qed.

Lemma trailing_underscores_dunder (r : string) :
  Nat.even (trailing_underscores (String "_" (String "_" r)))
  = Nat.even (trailing_underscores r).
Proof.
  pose proof (trailing_underscores_le r) as Hle.
  cbn [trailing_underscores String.length]. 
  change (Ascii.eqb "_" "_") with true. cbn [andb].
  destruct (Nat.eqb (trailing_underscores r) (String.length r)) eqn:E.
  - rewrite Nat.eqb_refl. apply Nat.eqb_eq in E. rewrite E.
    apply Nat.even_succ_succ.
  - apply Nat.eqb_neq in E.
    assert (E' : Nat.eqb (trailing_underscores r) (S (String.length r)) = false)
      by (apply Nat.eqb_neq; lia).
    now rewrite E'.
Qed.

(** An underscore before a string that starts with another character. *)
Lemma trailing_underscores_single (c a : ascii) (r : string) :
  a <> "_"%char ->
  trailing_underscores (String c (String a r)) = trailing_underscores (String a r).
Proof.
  intros H.
  change (trailing_underscores (String c (String a r)))
    with (if andb (Ascii.eqb c "_")
                  (Nat.eqb (trailing_underscores (String a r))
                           (String.length (String a r)))
          then S (String.length (String a r))
          else trailing_underscores (String a r)).
  rewrite (trailing_underscores_lt a r H), andb_false_r. reflexivity.
Qed.

Lemma split_dunder_append_even (col op : string) :
  Nat.even (trailing_underscores col) = true -> has_dunder op = false ->
  split_dunder (col ++ "__" ++ op) = (split_dunder col ++ [op])%list.
Proof.
  intros Hc Hop. revert Hc.
  induction col as [|r IH|c r Hcase IH] using dunder_ind; intros Hc.
  - change ("" ++ "__" ++ op) with (String "_" (String "_" op)).
    change (split_dunder (String "_" (String "_" op))) with ("" :: split_dunder op).
    now rewrite (split_dunder_single op Hop).
  - change (String "_" (String "_" r) ++ "__" ++ op)
      with (String "_" (String "_" (r ++ "__" ++ op))).
    change (split_dunder (String "_" (String "_" (r ++ "__" ++ op))))
      with ("" :: split_dunder (r ++ "__" ++ op)).
    change (split_dunder (String "_" (String "_" r))) with ("" :: split_dunder r).
    rewrite trailing_underscores_dunder in Hc. rewrite (IH Hc). reflexivity.
  - change (String c r ++ "__" ++ op) with (String c (r ++ "__" ++ op)).
    destruct r as [|a r].
    + (* one character: no underscore *)
      assert (Hne : c <> "_"%char).
      { intros ->. discriminate Hc. }
      rewrite (split_dunder_other c _ (or_introl Hne)).
      change ("" ++ "__" ++ op) with (String "_" (String "_" op)).
      change (split_dunder (String "_" (String "_" op))) with ("" :: split_dunder op).
      rewrite (split_dunder_single op Hop).
      rewrite (split_dunder_other c "" (or_introl Hne)). reflexivity.
    + assert (Hcase' : c <> "_"%char
                       \/ forall r', String a r ++ "__" ++ op <> String "_" r').
      { destruct Hcase as [H|H]; [now left|]. right. intros r' E'.
        cbn in E'. injection E' as -> _. apply (H r). reflexivity. }
      assert (Hr : Nat.even (trailing_underscores (String a r)) = true).
      { destruct (Ascii.eqb c "_") eqn:Ec.
        - apply Ascii.eqb_eq in Ec. subst c.
          destruct Hcase as [H|H]; [contradiction|].
          assert (Ha : a <> "_"%char) by (intros ->; apply (H r); reflexivity).
          now rewrite (trailing_underscores_single "_" a r Ha) in Hc.
        - apply Ascii.eqb_neq in Ec.
          now rewrite (trailing_underscores_other c _ Ec) in Hc. }
      rewrite (split_dunder_other c _ Hcase'), (split_dunder_other c _ Hcase).
      rewrite (IH Hr).
      pose proof (split_dunder_nonempty (String a r)) as HN.
      destruct (split_dunder (String a r)); [contradiction|reflexivity].
Qed.

(** The path of a key ends in an even number of underscores. *)
Lemma path_trailing_underscores (s : string) :
  has_dunder s = true ->
  Nat.even (trailing_underscores (join "__" (removelast (split_dunder s)))) = true.
Proof.
  induction s as [|r IH|c r Hcase IH] using dunder_ind; intros H.
  - discriminate H.
  - change (split_dunder (String "_" (String "_" r))) with ("" :: split_dunder r).
    pose proof (split_dunder_nonempty r) as HN.
    pose proof (split_dunder_length r) as HL.
    destruct (split_dunder r) as [|p [|p' ps]] eqn:E; [contradiction|reflexivity|].
    cbn [List.length] in HL. change (Nat.ltb 1 (S (S (List.length ps)))) with true in HL.
    specialize (IH (eq_sym HL)).
    change (removelast ("" :: p :: p' :: ps)) with ("" :: removelast (p :: p' :: ps)).
    rewrite join_cons by (destruct ps; discriminate).
    change ("" ++ "__" ++ join "__" (removelast (p :: p' :: ps)))
      with (String "_" (String "_" (join "__" (removelast (p :: p' :: ps))))).
    rewrite trailing_underscores_dunder. exact IH.
  - rewrite (has_dunder_other c r Hcase) in H. specialize (IH H).
    rewrite (split_dunder_other c r Hcase).
    pose proof (split_dunder_nonempty r) as HN.
    pose proof (split_dunder_length r) as HL. rewrite H in HL.
    pose proof (join_split_dunder r) as HJ.
    destruct (split_dunder r) as [|p [|p' ps]] eqn:E; [contradiction|discriminate HL|].
    rewrite (join_init_last (p :: p' :: ps)) in HJ by (cbn; lia).
    set (J := join "__" (removelast (p :: p' :: ps))) in *.
    assert (EJ : join "__" (removelast (String c p :: p' :: ps)) = String c J).
    { unfold J. change (removelast (String c p :: p' :: ps))
        with (String c p :: removelast (p' :: ps)).
      change (removelast (p :: p' :: ps)) with (p :: removelast (p' :: ps)).
      destruct (removelast (p' :: ps)); reflexivity. }
    rewrite EJ.
    destruct (Ascii.eqb c "_") eqn:Ec.
    + apply Ascii.eqb_eq in Ec. subst c.
      destruct Hcase as [Hc|Hc]; [contradiction|].
      destruct J as [|a J'].
      * exfalso. cbn in HJ. apply (Hc (String "_" (last (p :: p' :: ps) ""))).
        now rewrite <- HJ.
      * assert (Ha : a <> "_"%char).
        { intros ->. cbn in HJ. apply (Hc (J' ++ "__" ++ last (p :: p' :: ps) "")).
          now rewrite <- HJ. }
        now rewrite (trailing_underscores_single "_" a J' Ha).
    + apply Ascii.eqb_neq in Ec. now rewrite (trailing_underscores_other c J Ec).
Qed.

(** X1.  [apply_filters] cuts a key where [str.split] finds the last
    separator.  For a key that has two underscores in a row, the column
    path, two underscores and the operator put the key back together, the
    operator has no two underscores in a row, and the path ends in an
    even number of underscores; no other cut of the key is like that.  A
    key without two underscores in a row is the column path, with
    operator [eq]. *)
Theorem X1_parse_key_cuts_at_the_last_separator (key : string) :
  (has_dunder key = true ->
   key = fst (parse_key key) ++ "__" ++ snd (parse_key key)
   /\ has_dunder (snd (parse_key key)) = false
   /\ Nat.even (trailing_underscores (fst (parse_key key))) = true)
  /\ (has_dunder key = false -> parse_key key = (key, "eq"))
  /\ (forall path op,
        key = path ++ "__" ++ op ->
        has_dunder op = false ->
        Nat.even (trailing_underscores path) = true ->
        parse_key key = (path, op)).
Proof.
  split; [|split].
  - intros H. unfold parse_key. rewrite split_dunder_length, H. cbn [fst snd].
    split; [|split].
    + unfold init_parts, last_part. rewrite <- join_init_last.
      * symmetry. apply join_split_dunder.
      * pose proof (split_dunder_length key) as HL. rewrite H in HL.
        apply Nat.ltb_lt in HL. exact HL.
    + unfold last_part.
      pose proof (split_dunder_pieces key) as HF.
      pose proof (split_dunder_nonempty key) as HN.
      rewrite Forall_forall in HF. apply HF.
      destruct (split_dunder key) as [|p ps]; [contradiction|].
      apply (@exists_last _ (p :: ps)) in HN. destruct HN as (l & a & E).
      rewrite E, last_last. apply in_or_app. right. now left.
    + apply path_trailing_underscores, H.
  - intros H. unfold parse_key. rewrite split_dunder_length, H.
    rewrite (split_dunder_single key H). reflexivity.
  - intros path op -> Hop Hpath. unfold parse_key.
    rewrite (split_dunder_append_even path op Hpath Hop).
    pose proof (split_dunder_nonempty path) as HN.
    assert (HL : Nat.ltb 1 (List.length (split_dunder path ++ [op])) = true).
    { apply Nat.ltb_lt. rewrite length_app. simpl.
      destruct (split_dunder path); [contradiction|simpl; lia]. }
    rewrite HL. unfold init_parts, last_part.
    rewrite removelast_last, last_last, join_split_dunder. reflexivity.
Qed.

(** The key [a.x___eq]: three underscores, cut after the second. *)
Lemma X1_parse_key_cuts_at_the_last_separator_witness :
  has_dunder "a.x___eq" = true
  /\ parse_key "a.x___eq" = ("a.x", "_eq")
  /\ "a.x___eq" = "a.x" ++ "__" ++ "_eq"
  /\ "a.x___eq" = "a.x_" ++ "__" ++ "eq"
  /\ Nat.even (trailing_underscores "a.x") = true
  /\ Nat.even (trailing_underscores "a.x_") = false.
Proof.
  split; [reflexivity|]. split.
  - exact (proj2 (proj2 (X1_parse_key_cuts_at_the_last_separator "a.x___eq"))
             "a.x" "_eq" eq_refl eq_refl eq_refl).
  - repeat split; reflexivity.
Defined.

Lemma ends_with_underscore_cons (c : ascii) (r : string) :
  ends_with_underscore (String c r) = false ->
  (r = "" /\ c <> "_"%char) \/ (r <> "" /\ ends_with_underscore r = false).
Proof.
  destruct r as [|a r]; simpl; intros H.
  - left. split; [reflexivity|]. now apply Ascii.eqb_neq.
  - right. split; [discriminate|exact H].
Qed.

Lemma split_dunder_append (col op : string) :
  ends_with_underscore col = false -> has_dunder op = false ->
  split_dunder (col ++ "__" ++ op) = (split_dunder col ++ [op])%list.
Proof.
  intros Hc Hop. revert Hc.
  induction col as [|r IH|c r Hcase IH] using dunder_ind; intros Hc.
  - change ("" ++ "__" ++ op) with (String "_" (String "_" op)).
    change (split_dunder (String "_" (String "_" op))) with ("" :: split_dunder op).
    now rewrite (split_dunder_single op Hop).
  - change (String "_" (String "_" r) ++ "__" ++ op)
      with (String "_" (String "_" (r ++ "__" ++ op))).
    change (split_dunder (String "_" (String "_" (r ++ "__" ++ op))))
      with ("" :: split_dunder (r ++ "__" ++ op)).
    change (split_dunder (String "_" (String "_" r))) with ("" :: split_dunder r).
    destruct (ends_with_underscore_cons _ _ Hc) as [[E _]|[_ E]]; [discriminate|].
    destruct (ends_with_underscore_cons _ _ E) as [[_ E']|[_ E']];
      [contradiction E'; reflexivity|].
    rewrite (IH E'). reflexivity.
  - change (String c r ++ "__" ++ op) with (String c (r ++ "__" ++ op)).
    destruct (ends_with_underscore_cons _ _ Hc) as [[-> Hne]|[Hr E]].
    + rewrite (split_dunder_other c _ (or_introl Hne)).
      change ("" ++ "__" ++ op) with (String "_" (String "_" op)).
      change (split_dunder (String "_" (String "_" op))) with ("" :: split_dunder op).
      rewrite (split_dunder_single op Hop).
      rewrite (split_dunder_other c "" (or_introl Hne)). reflexivity.
    + assert (Hcase' : c <> "_"%char \/ forall r', r ++ "__" ++ op <> String "_" r').
      { destruct Hcase as [H|H]; [now left|]. right. intros r' E'.
        destruct r as [|a r0]; [contradiction|].
        simpl in E'. injection E' as -> _. apply (H r0). reflexivity. }
      rewrite (split_dunder_other c _ Hcase'), (split_dunder_other c r Hcase).
      rewrite (IH E).
      pose proof (split_dunder_nonempty r) as HN.
      destruct (split_dunder r); [contradiction|reflexivity].
Qed.

(** X2.  A column path that does not end in an underscore and an operator
    without two underscores in a row, put together with two underscores,
    parse back into that path and that operator. *)
Theorem X2_parse_key_of_path_and_operator (col op : string) :
  ends_with_underscore col = false -> has_dunder op = false ->
  parse_key (col ++ "__" ++ op) = (col, op).
Proof.
  intros Hc Hop. unfold parse_key. rewrite (split_dunder_append col op Hc Hop).
  pose proof (split_dunder_nonempty col) as HN.
  assert (HL : Nat.ltb 1 (List.length (split_dunder col ++ [op])) = true).
  { apply Nat.ltb_lt. rewrite length_app. simpl.
    destruct (split_dunder col); [contradiction|simpl; lia]. }
  rewrite HL. unfold init_parts, last_part.
  rewrite removelast_last, last_last, join_split_dunder. reflexivity.
Qed.

(** The path [user.email] with [like], and a path that ends in an
    underscore, for which the operator comes out wrong. *)
Lemma X2_parse_key_of_path_and_operator_witness :
  parse_key ("user.email" ++ "__" ++ "like") = ("user.email", "like")
  /\ parse_key ("t.class_" ++ "__" ++ "eq") = ("t.class", "_eq").
Proof.
  split.
  - exact (X2_parse_key_of_path_and_operator "user.email" "like" eq_refl eq_refl).
  - reflexivity.
Defined.

(** ** The operator table *)

(** X3.  [build_filter_expression] builds an expression exactly for the
    operators of its table, given, for [between] and [not_between], a
    list or tuple of two values.  For another token it raises the
    unsupported-operator error that names the token, and for a range
    operator with any other value the error that asks for [min, max]. *)
Theorem X3_operator_table (column : column) (op : string) (value : pyvalue) :
  ((exists e, DBQuerySetting.build_filter_expression column op value = Ok e)
   <-> DBQuerySetting.op_in op supported_operators = true
       /\ (is_range_operator op = true -> DBQuerySetting.range_bounds value <> None))
  /\ (DBQuerySetting.op_in op supported_operators = false ->
      DBQuerySetting.build_filter_expression column op value
      = Raise (ValueError ("Unsupported operator: '" ++ op ++ "'")))
  /\ (is_range_operator op = true -> DBQuerySetting.range_bounds value = None ->
      DBQuerySetting.build_filter_expression column op value
      = Raise (ValueError ("'" ++ op ++ "' requires [min, max] values"))).
Proof.
  unfold DBQuerySetting.build_filter_expression, DBQuerySetting.op_in,
    supported_operators, is_range_operator.
  cbn [existsb].
  repeat match goal with
         | |- context [String.eqb op ?k] =>
             let E := fresh "E" in
             destruct (String.eqb op k) eqn:E;
             [apply String.eqb_eq in E; subst op | ]
         end;
    cbn;
    try (destruct (DBQuerySetting.range_bounds value) as [[lo hi]|]);
    (split; [split|split]);
    try solve [ intros; discriminate
              | intros; reflexivity
              | intros; eexists; reflexivity
              | intros [e He]; discriminate
              | intros; split; [reflexivity|discriminate]
              | intros; split; [reflexivity|intros; discriminate]
              | intros [_ H]; exfalso; apply H; reflexivity
              | intros [H _]; discriminate
              | intros _ H; discriminate ].
Qed.

(** [gte] with a number; two values for [between]; a token that is no
    operator; one value for [between]. *)
Lemma X3_operator_table_witness :
  DBQuerySetting.build_filter_expression (mkColumn Sample.Users "id") "colour" (PInt 1)
  = Raise (ValueError "Unsupported operator: 'colour'")
  /\ DBQuerySetting.build_filter_expression (mkColumn Sample.Users "id") "between" (PInt 1)
     = Raise (ValueError "'between' requires [min, max] values")
  /\ exists e, DBQuerySetting.build_filter_expression
                 (mkColumn Sample.Users "id") "not_between" (PList [PInt 1; PInt 9]) = Ok e.
Proof.
  split; [|split].
  - exact (proj1 (proj2 (X3_operator_table (mkColumn Sample.Users "id") "colour" (PInt 1)))
                 eq_refl).
  - exact (proj2 (proj2 (X3_operator_table (mkColumn Sample.Users "id") "between" (PInt 1)))
                 eq_refl eq_refl).
  - apply (proj1 (X3_operator_table (mkColumn Sample.Users "id") "not_between"
                                    (PList [PInt 1; PInt 9]))).
    split; [reflexivity|]. intros _. discriminate.
Defined.

(** ** Filters and the [where_] helpers *)

Lemma split_dot1_append (t c : string) :
  has_dot t = false -> split_dot1 (t ++ "." ++ c) = (t, Some c).
Proof.
  induction t as [|a t IH]; simpl; intros H; [reflexivity|].
  simpl in IH. destruct (Ascii.eqb a "."); [discriminate|]. now rewrite (IH H).
Qed.

Lemma has_dot_append (t c : string) : has_dot (t ++ "." ++ c) = true.
Proof.
  induction t as [|a t IH]; simpl; [reflexivity|].
  destruct (Ascii.eqb a "."); [reflexivity|exact IH].
Qed.

(** An entry whose key parses into table [t], column [c] and operator
    [op], and whose column resolves, is the operator table's expression. *)
Lemma filter_entry_resolved (q : TableQuery) (key t c op : string)
      (col : column) (v : pyvalue) :
  parse_key key = (t ++ "." ++ c, op) -> has_dot t = false ->
  DBQuerySetting.get_column_from_model (_base_table q) (_joins q) t c = Ok col ->
  filter_entry q key v = DBQuerySetting.build_filter_expression col op v.
Proof.
  intros Hk Ht Hcol. unfold filter_entry. rewrite Hk.
  rewrite has_dot_append. cbn [negb]. rewrite (split_dot1_append t c Ht).
  rewrite Hcol. reflexivity.
Qed.

Lemma apply_filters_single (q : TableQuery) (key t c op : string)
      (col : column) (v : pyvalue) :
  parse_key key = (t ++ "." ++ c, op) -> has_dot t = false ->
  DBQuerySetting.get_column_from_model (_base_table q) (_joins q) t c = Ok col ->
  is_None v = false ->
  apply_filters q [(key, v)] false =
  (e <- DBQuerySetting.build_filter_expression col op v ;;
   Ok (set_where q (_where q ++ [And_ [e]]))).
Proof.
  intros Hk Ht Hcol Hv. unfold apply_filters. cbn [filter_expressions].
  rewrite Hv, (filter_entry_resolved q key t c op col v Hk Ht Hcol).
  destruct (DBQuerySetting.build_filter_expression col op v); reflexivity.
Qed.

Lemma same_selection_wrapped (q : TableQuery) (e : expr) :
  same_selection (set_where q (_where q ++ [And_ [e]]))
                 (set_where q (_where q ++ [e])).
Proof.
  split; [reflexivity|]. intros r. rewrite !matches_where_added.
  cbn [_where _or_where set_where]. rewrite !forallb_app.
  cbn [forallb Engine.holds]. now rewrite !andb_true_r.
Qed.

(** X4.  A filter entry with operator [between], [not_between], [isnull],
    [notnull], [like], [in] or [notin] does what the helper method of the
    same name does on the resolved column: the two fail together ([between]
    and [not_between], on a value that is no pair) or leave builders that
    select the same rows.  For [in] and [notin] this holds for every value
    but a tuple: the helper takes a tuple as the sequence of values, the
    filter takes it as one value. *)
Theorem X4_filter_operators_are_the_where_helpers
        (q : TableQuery) (key t c : string) (col : column) (v : pyvalue) :
  fst (parse_key key) = t ++ "." ++ c -> has_dot t = false ->
  DBQuerySetting.get_column_from_model (_base_table q) (_joins q) t c = Ok col ->
  is_None v = false ->
  let op := snd (parse_key key) in
  (op = "between" -> agree (apply_filters q [(key, v)] false) (where_between q col v))
  /\ (op = "not_between" ->
      agree (apply_filters q [(key, v)] false) (where_not_between q col v))
  /\ (op = "isnull" -> agree (apply_filters q [(key, v)] false) (Ok (where_null q col)))
  /\ (op = "notnull" ->
      agree (apply_filters q [(key, v)] false) (Ok (where_not_null q col)))
  /\ (op = "like" -> agree (apply_filters q [(key, v)] false) (Ok (where_like q col v)))
  /\ (op = "in" -> is_tuple v = false ->
      agree (apply_filters q [(key, v)] false) (Ok (where_in q col v)))
  /\ (op = "notin" -> is_tuple v = false ->
      agree (apply_filters q [(key, v)] false) (Ok (where_not_in q col v)))
  /\ (op = "in" -> forall l, v = PTuple l ->
      apply_filters q [(key, v)] false
      = Ok (set_where q (_where q ++ [And_ [In_ col [PTuple l]]]))
      /\ where_in q col v = set_where q (_where q ++ [In_ col l])).
Proof.
  intros Hk Ht Hcol Hv op.
  assert (Hp : parse_key key = (t ++ "." ++ c, op)).
  { unfold op. rewrite <- Hk. destruct (parse_key key); reflexivity. }
  pose proof (apply_filters_single q key t c op col v Hp Ht Hcol Hv) as HA.
  repeat match goal with |- _ /\ _ => split end;
    intros Hop; rewrite Hop in HA; rewrite HA; clear HA.
  - unfold where_between. cbn.
    destruct (DBQuerySetting.range_bounds v) as [[lo hi]|]; cbn;
      [apply same_selection_wrapped|exact I].
  - unfold where_not_between. cbn.
    destruct (DBQuerySetting.range_bounds v) as [[lo hi]|]; cbn;
      [apply same_selection_wrapped|exact I].
  - cbn. apply same_selection_wrapped.
  - cbn. apply same_selection_wrapped.
  - cbn. apply same_selection_wrapped.
  - intros Htu. cbn. unfold where_in.
    replace (as_sequence v) with (DBQuerySetting.as_list v)
      by (destruct v; try reflexivity; discriminate).
    apply same_selection_wrapped.
  - intros Htu. cbn. unfold where_not_in.
    replace (as_sequence v) with (DBQuerySetting.as_list v)
      by (destruct v; try reflexivity; discriminate).
    apply same_selection_wrapped.
  - intros l ->. split; reflexivity.
Qed.

Lemma X4_filter_operators_are_the_where_helpers_witness :
  agree (apply_filters (table new_TableQuery Sample.Users)
                       [("users.id__between", PList [PInt 1; PInt 9])] false)
        (where_between (table new_TableQuery Sample.Users)
                       (mkColumn Sample.Users "id") (PList [PInt 1; PInt 9]))
  /\ agree (apply_filters (table new_TableQuery Sample.Users)
                          [("users.id__between", PInt 1)] false)
           (where_between (table new_TableQuery Sample.Users)
                          (mkColumn Sample.Users "id") (PInt 1)).
Proof.
  split.
  - exact (proj1 (X4_filter_operators_are_the_where_helpers
                    (table new_TableQuery Sample.Users) "users.id__between"
                    "users" "id" (mkColumn Sample.Users "id")
                    (PList [PInt 1; PInt 9]) eq_refl eq_refl eq_refl eq_refl) eq_refl).
  - exact (proj1 (X4_filter_operators_are_the_where_helpers
                    (table new_TableQuery Sample.Users) "users.id__between"
                    "users" "id" (mkColumn Sample.Users "id")
                    (PInt 1) eq_refl eq_refl eq_refl eq_refl) eq_refl).
Defined.

(** ** Filters compose *)

Lemma filter_entry_frame (q q' : TableQuery) (key : string) (v : pyvalue) :
  _base_table q' = _base_table q -> _joins q' = _joins q ->
  filter_entry q' key v = filter_entry q key v.
Proof. intros Hb Hj. unfold filter_entry. now rewrite Hb, Hj. Qed.

Lemma filter_expressions_frame (q q' : TableQuery) (f : pydict) :
  _base_table q' = _base_table q -> _joins q' = _joins q ->
  filter_expressions q' f = filter_expressions q f.
Proof.
  intros Hb Hj. induction f as [|[k v] f IH]; simpl; [reflexivity|].
  rewrite IH, (filter_entry_frame q q' k v Hb Hj). reflexivity.
Qed.

Lemma apply_filters_inv (q q1 : TableQuery) (f : pydict) (use_or : bool) :
  apply_filters q f use_or = Ok q1 ->
  exists es,
    filter_expressions q f = Ok es
    /\ q1 = match es with
            | [] => q
            | _ => if use_or then set_or_where q (_or_where q ++ [Or_ es])
                   else set_where q (_where q ++ [And_ es])
            end.
Proof.
  unfold apply_filters. destruct (filter_expressions q f) as [es|e]; simpl;
    [|discriminate].
  intros H. exists es. split; [reflexivity|].
  destruct es; [congruence|]. destruct use_or; congruence.
Qed.

Lemma apply_filters_keeps_relations (q q1 : TableQuery) (f : pydict) (use_or : bool) :
  apply_filters q f use_or = Ok q1 ->
  _base_table q1 = _base_table q /\ _joins q1 = _joins q
  /\ set_or_where (set_where q1 []) [] = set_or_where (set_where q []) [].
Proof.
  intros H. destruct (apply_filters_inv q q1 f use_or H) as (es & _ & ->).
  destruct es; [repeat split|]. destruct use_or; repeat split.
Qed.

(** X5.  Two [apply_filters] calls in a row, both with [use_or] or both
    without, select the rows that one call with the two mappings put
    together selects, and change no clause but the predicate groups. *)
Theorem X5_apply_filters_calls_compose
        (q q1 q2 : TableQuery) (f1 f2 : pydict) (use_or : bool) :
  apply_filters q f1 use_or = Ok q1 ->
  apply_filters q1 f2 use_or = Ok q2 ->
  exists q3,
    apply_filters q (f1 ++ f2)%list use_or = Ok q3
    /\ same_selection q3 q2
    /\ set_or_where (set_where q2 []) [] = set_or_where (set_where q []) [].
Proof.
  intros H1 H2.
  destruct (apply_filters_keeps_relations q q1 f1 use_or H1) as (Hb & Hj & Hf1).
  destruct (apply_filters_keeps_relations q1 q2 f2 use_or H2) as (_ & _ & Hf2).
  destruct (apply_filters_inv q q1 f1 use_or H1) as (es1 & E1 & Hq1).
  destruct (apply_filters_inv q1 q2 f2 use_or H2) as (es2 & E2 & Hq2).
  rewrite (filter_expressions_frame q q1 f2 Hb Hj) in E2.
  unfold apply_filters. rewrite (filter_expressions_app q f1 f2 es1 E1), E2.
  cbn [rbind].
  assert (Hfr : set_or_where (set_where q2 []) [] = set_or_where (set_where q []) [])
    by now rewrite Hf2, Hf1.
  clear Hf1 Hf2 H1 H2 Hb Hj E1 E2. subst q2 q1.
  destruct es1 as [|a es1];
    [destruct es2 as [|b es2]; destruct use_or; cbn [app];
     (eexists; split; [reflexivity|split; [split; reflexivity|exact Hfr]])|].
  destruct use_or; destruct es2 as [|b es2]; cbn [app]; rewrite ?app_nil_r;
    (eexists; split; [reflexivity|]; split; [|exact Hfr]);
    (split; [reflexivity|]); intros r; rewrite !matches_where_added;
    cbn [_where _or_where set_where set_or_where];
    rewrite ?forallb_app, ?existsb_app; cbn [forallb existsb Engine.holds];
    rewrite ?forallb_app, ?existsb_app, ?andb_true_r, ?orb_false_r;
    try reflexivity;
    repeat match goal with
           | |- context [is_empty (?l ++ [?x])] =>
               replace (is_empty (l ++ [x])%list) with false by (destruct l; reflexivity)
           end;
    cbn [orb forallb existsb]; rewrite <- ?andb_assoc, <- ?orb_assoc; reflexivity.
Qed.

(** Two AND calls on the sample relation. *)
Lemma X5_apply_filters_calls_compose_witness :
  exists q3,
    apply_filters (table new_TableQuery Sample.A)
                  ([("a.x__eq", PInt 1)] ++ [("a.y__gt", PInt 5)])%list false = Ok q3
    /\ same_selection q3
         (set_where (table new_TableQuery Sample.A)
                    [And_ [Sample.x_eq_1]; And_ [Sample.y_gt_5]]).
Proof.
  destruct (X5_apply_filters_calls_compose
              (table new_TableQuery Sample.A)
              (set_where (table new_TableQuery Sample.A) [And_ [Sample.x_eq_1]])
              (set_where (table new_TableQuery Sample.A)
                         [And_ [Sample.x_eq_1]; And_ [Sample.y_gt_5]])
              [("a.x__eq", PInt 1)] [("a.y__gt", PInt 5)] false eq_refl eq_refl)
    as (q3 & H3 & Hs & _).
  exists q3. split; assumption.
Defined.

(** ** What the chain methods keep *)

Lemma chained_well_formed (q : TableQuery) : chained q -> well_formed q.
Proof.
  unfold well_formed.
  induction 1 as
    [ | q Hq IH | q m Hq IH | q cols Hq IH | q cs Hq IH | q cs Hq IH
    | q c v Hq IH | q c v Hq IH | q c Hq IH | q c Hq IH
    | q c v q' Hq IH E | q c v q' Hq IH E | q c p Hq IH
    | q kind m on Hq IH Hk
    | q cols Hq IH | q cols Hq IH | q cs Hq IH
    | q v q' Hq IH E | q v q' Hq IH E | q v q' Hq IH E | q v q' Hq IH E
    | q qs Hq IH | q qs Hq IH | q n q' Hq IH E | q f use_or q' Hq IH E ];
    try exact IH;
    try (destruct IH as (Hl & Ho & Hj)).
  - repeat split; intros; try discriminate; contradiction.
  - repeat split; intros; try discriminate; contradiction.
  - unfold where_between in E. destruct (DBQuerySetting.range_bounds v) as [[lo hi]|];
      [injection E as <-|discriminate]. repeat split; assumption.
  - unfold where_not_between in E.
    destruct (DBQuerySetting.range_bounds v) as [[lo hi]|];
      [injection E as <-|discriminate]. repeat split; assumption.
  - repeat split; try assumption. intros j Hin. cbn in Hin.
    apply in_app_or in Hin. destruct Hin as [Hin|[<-|[]]]; [now apply Hj|exact Hk].
  - unfold limit in E. destruct (v <? 1) eqn:Ev; [discriminate|].
    injection E as <-. apply Z.ltb_ge in Ev. repeat split; try assumption.
    intros l Hlim. cbn in Hlim. injection Hlim as <-. exact Ev.
  - unfold offset in E. destruct (v <? 0) eqn:Ev; [discriminate|].
    injection E as <-. apply Z.ltb_ge in Ev. repeat split; try assumption.
    intros o Hoff. cbn in Hoff. injection Hoff as <-. exact Ev.
  - unfold take, limit in E. destruct (v <? 1) eqn:Ev; [discriminate|].
    injection E as <-. apply Z.ltb_ge in Ev. repeat split; try assumption.
    intros l Hlim. cbn in Hlim. injection Hlim as <-. exact Ev.
  - unfold skip, offset in E. destruct (v <? 0) eqn:Ev; [discriminate|].
    injection E as <-. apply Z.ltb_ge in Ev. repeat split; try assumption.
    intros o Hoff. cbn in Hoff. injection Hoff as <-. exact Ev.
  - unfold schema in E. destruct (negb _); [discriminate|].
    injection E as <-. repeat split; assumption.
  - destruct (apply_filters_inv q q' f use_or E) as (es & _ & ->).
    destruct es; [repeat split; assumption|].
    destruct use_or; repeat split; assumption.
Qed.

(** X6.  Whatever chain of builder calls led to it, a statement that
    [_build_query] returns has a LIMIT of at least 1 when it has one, an
    OFFSET of at least 0 when it has one, and as many joins as were
    added, each of kind inner, left, right or full. *)
Theorem X6_built_statements_have_valid_limit_and_offset
        (q : TableQuery) (stmt : select_stmt) :
  chained q -> _build_query q = Ok stmt ->
  (forall l, s_limit stmt = Some l -> 1 <= l)
  /\ (forall o, s_offset stmt = Some o -> 0 <= o)
  /\ List.length (s_joins stmt) = List.length (_joins q)
  /\ Forall (fun j : join_entry =>
               In (fst (fst j)) ["inner"; "left"; "right"; "full"]) (_joins q).
Proof.
  intros Hc Hb. destruct (chained_well_formed q Hc) as (Hl & Ho & Hj).
  destruct (build_query_inv q stmt Hb) as (base & _ & ->).
  repeat split.
  - exact Hl.
  - exact Ho.
  - cbn. apply length_map.
  - apply Forall_forall. exact Hj.
Qed.

Lemma X6_built_statements_have_valid_limit_and_offset_witness :
  chained (set_limit (table new_TableQuery Sample.Users) (Some 10))
  /\ _build_query (set_limit (table new_TableQuery Sample.Users) (Some 10))
     = Ok (compiled (set_limit (table new_TableQuery Sample.Users) (Some 10))
                    Sample.Users)
  /\ (forall l,
        s_limit (compiled (set_limit (table new_TableQuery Sample.Users) (Some 10))
                          Sample.Users) = Some l -> 1 <= l).
Proof.
  assert (H : chained (set_limit (table new_TableQuery Sample.Users) (Some 10))).
  { apply (chained_limit (table new_TableQuery Sample.Users) 10).
    - apply chained_table, chained_new.
    - reflexivity. }
  split; [exact H|]. split; [reflexivity|].
  exact (proj1 (X6_built_statements_have_valid_limit_and_offset
                  (set_limit (table new_TableQuery Sample.Users) (Some 10))
                  (compiled (set_limit (table new_TableQuery Sample.Users) (Some 10))
                            Sample.Users)
                  H eq_refl)).
Defined.

(** ** Schema names *)

Lemma alnum_not_underscore (c : ascii) :
  Ascii.eqb c "_" = true -> orb (is_letter c) (is_digit c) = false.
Proof. intros H. apply Ascii.eqb_eq in H. subst c. reflexivity. Qed.

Lemma all_chars_remove_underscores (s : string) :
  all_chars (fun c => orb (is_letter c) (is_digit c)) (remove_underscores s)
  = all_chars is_identifier_char s.
Proof.
  induction s as [|c s IH]; [reflexivity|]. cbn [remove_underscores all_chars].
  unfold is_identifier_char at 1. destruct (Ascii.eqb c "_") eqn:E.
  - rewrite IH, (alnum_not_underscore c E). reflexivity.
  - cbn [all_chars]. rewrite IH, orb_false_r. reflexivity.
Qed.

Lemma remove_underscores_empty (s : string) :
  String.eqb (remove_underscores s) "" = all_chars is_underscore s.
Proof.
  induction s as [|c s IH]; [reflexivity|]. cbn [remove_underscores all_chars].
  unfold is_underscore at 1. destruct (Ascii.eqb c "_"); [exact IH|reflexivity].
Qed.

(** X7.  [schema] takes a name exactly when it is made of letters, digits
    and underscores and is not made of underscores alone (the empty name
    included); it then records the name, which the compiled statement
    carries, and changes nothing else.  Any other name is refused with the
    error that quotes it, and [new] hands the recorded name on to a
    builder that has nothing else. *)
Theorem X7_schema_names (q : TableQuery) (name : string) :
  is_ascii name = true ->
  schema q name =
  (if andb (all_chars is_identifier_char name) (negb (all_chars is_underscore name))
   then Ok (set_schema q (Some name))
   else Raise (ValueError ("Invalid schema name: " ++ name)))
  /\ (forall q' base stmt,
        schema q name = Ok q' -> _base_table q = Some base ->
        _build_query q' = Ok stmt ->
        s_schema stmt = Some name
        /\ stmt = stmt_schema (compiled (set_schema q None) base) name)
  /\ (forall q', schema q name = Ok q' -> new q' = set_schema empty_state (Some name)).
Proof.
  intros _.
  assert (Hs : schema q name =
               (if andb (all_chars is_identifier_char name)
                        (negb (all_chars is_underscore name))
                then Ok (set_schema q (Some name))
                else Raise (ValueError ("Invalid schema name: " ++ name)))).
  { unfold schema, isalnum. rewrite <- remove_underscores_empty.
    rewrite <- all_chars_remove_underscores.
    destruct (remove_underscores name) as [|c r] eqn:E; cbn [String.eqb negb].
    - rewrite andb_false_r. reflexivity.
    - rewrite andb_true_r.
      destruct (all_chars _ (String c r)); reflexivity. }
  split; [exact Hs|]. split.
  - intros q' base stmt Hq Hb Hbuild. rewrite Hs in Hq.
    destruct (andb _ _) eqn:Hok; [|discriminate]. injection Hq as <-.
    assert (Hne : String.eqb name "" = false).
    { destruct name; [discriminate Hok|reflexivity]. }
    rewrite (build_query_compiled _ base) in Hbuild by exact Hb.
    injection Hbuild as <-. unfold compiled, stmt_schema. cbn.
    rewrite Hne. split; reflexivity.
  - intros q' Hq. rewrite Hs in Hq. destruct (andb _ _); [|discriminate].
    injection Hq as <-. reflexivity.
Qed.

Lemma X7_schema_names_witness :
  schema new_TableQuery "tenant_42" = Ok (set_schema new_TableQuery (Some "tenant_42"))
  /\ schema new_TableQuery "a; drop" = Raise (ValueError "Invalid schema name: a; drop")
  /\ schema new_TableQuery "__" = Raise (ValueError "Invalid schema name: __").
Proof.
  split; [|split].
  - exact (proj1 (X7_schema_names new_TableQuery "tenant_42" eq_refl)).
  - exact (proj1 (X7_schema_names new_TableQuery "a; drop" eq_refl)).
  - exact (proj1 (X7_schema_names new_TableQuery "__" eq_refl)).
Defined.

(** ** Rows without repeated keys *)






Example distinct_by_name_on_sample :
  keep_first_per_key SampleDedupe.by_name [] SampleDedupe.rows
  = Ok [[("id", PInt 1); ("name", PStr "ann")]; [("id", PInt 2); ("name", PStr "bob")]].
Proof. reflexivity. Qed.

(** Rows whose values are pairs convert, and only the first row of
    each key is kept. *)
Example first_per_key_of_pairs :
  first_per_key SampleDedupe.by_name []
    [[("a", PTuple [PStr "name"; PStr "ann"]); ("b", PStr "k1")];
     [("a", PTuple [PStr "name"; PStr "ann"]); ("b", PStr "k2")]]
  = Ok [[(PStr "name", PStr "ann"); (PStr "k", PStr "1")]].
Proof. reflexivity. Qed.

Lemma map_get_as_map (d : pydict) (name : string) :
  map_get (as_map d) (PStr name) = dict_get d name.
Proof.
  unfold map_get, dict_get, as_map.
  induction d as [|[k v] d IH]; [reflexivity|]. cbn.
  destruct (String.eqb k name); [reflexivity|exact IH].
Qed.

(** On rows that [dict(row)] converts to dicts with string keys, the
    loop of the terminals is the loop above on those dicts. *)
Lemma first_per_key_on_dicts (columns : list column) (rows : list row)
      (dicts : list pydict) :
  Forall2 (fun r d => dict_of_Row r = Ok (as_map d)) rows dicts ->
  forall seen,
    first_per_key columns seen rows
    = (kept <- keep_first_per_key columns seen dicts ;; Ok (map as_map kept)).
Proof.
  induction 1 as [|r d rows dicts Hr _ IH]; intros seen; [reflexivity|].
  cbn [first_per_key keep_first_per_key]. rewrite Hr. cbn [rbind].
  assert (Hk : map_key columns (as_map d) = row_key columns d).
  { unfold map_key, row_key. apply map_ext. intros c. apply map_get_as_map. }
  rewrite Hk.
  destruct (forallb hashable (row_key columns d)); cbn [negb]; [|reflexivity].
  destruct (existsb (key_eqb (row_key columns d)) seen); [apply IH|].
  rewrite IH. destruct (keep_first_per_key columns _ dicts); reflexivity.
Qed.

(** ** The read terminals run one query *)

Section ReadTerminals.

Context {D : Type} (session : Session D).

Lemma clone_is_copy (q : TableQuery) : _clone q = q.
Proof. destruct q; reflexivity. Qed.

(** X9.  [first], [last], [get], [one_or_fail], [distinct_by] and
    [group_and_deduplicate] hand the session the statement [all] hands it,
    on the same database, and leave builder and database as [all] leaves
    them.  [get] is [all].  The others do not read the rows as [all]
    does: they convert with [dict(row)] the first row, the last row, the
    one row when there is exactly one, each row in turn.  So when the
    first row that [all] returns begins with a value that is no sequence,
    [first], [distinct_by] and [group_and_deduplicate] raise [TypeError],
    and so do [last] and [one_or_fail] when it is the only row. *)
Theorem X9_read_terminals_convert_the_rows_of_all
        (q : TableQuery) (d : D) (columns : list column) :
  let run := all session (q, d) in
  get session (q, d) = run
  /\ first session (q, d) = (rows <- fst run ;; dict_if_row (hd_error rows), snd run)
  /\ last_ session (q, d) = (rows <- fst run ;; dict_of_last rows, snd run)
  /\ one_or_fail session (q, d)
     = (rows <- fst run ;; exactly_one (_base_table q) rows, snd run)
  /\ distinct_by session columns (q, d)
     = (rows <- fst run ;; first_per_key columns [] rows, snd run)
  /\ group_and_deduplicate session columns (q, d)
     = distinct_by session columns (q, d)
  /\ snd run = (q, snd (snd run))
  /\ (forall r rows,
        fst run = Ok (r :: rows) -> r <> [] -> items_of (row0 r) = None ->
        fst (first session (q, d)) = Raise (TypeError (not_a_sequence_msg 0))
        /\ fst (distinct_by session columns (q, d))
           = Raise (TypeError (not_a_sequence_msg 0))
        /\ fst (group_and_deduplicate session columns (q, d))
           = Raise (TypeError (not_a_sequence_msg 0))
        /\ (rows = [] ->
            fst (last_ session (q, d)) = Raise (TypeError (not_a_sequence_msg 0))
            /\ fst (one_or_fail session (q, d))
               = Raise (TypeError (not_a_sequence_msg 0)))).
Proof.
  unfold all, first, last_, get, one_or_fail, distinct_by, group_and_deduplicate, all,
    bind, get_self, require_base, lift, exec, ret, raise, exactly_one, first_row.
  cbn [fst snd]. rewrite clone_is_copy.
  destruct (_base_table q) as [base|] eqn:Hb.
  - rewrite (build_query_compiled q base Hb). cbn [fst snd].
    destruct (execute session (SelectS (compiled q base)) [] d) as [[c|e] d'];
      cbn [fst snd rbind];
      [|repeat match goal with |- _ /\ _ => split end; try reflexivity;
        intros; discriminate].
    destruct (c_rows c) as [|r [|r' rows]]; cbn [fst snd hd_error];
      rewrite ?Hb; repeat match goal with |- _ /\ _ => split end;
      try reflexivity;
      try (destruct (tablename_of base); reflexivity);
      try (intros; discriminate).
    + intros r0 rows0 [= <- <-] Hr Hi.
      pose proof (dict_of_Row_first_value r Hr Hi) as E.
      destruct r as [|kv r]; [contradiction|].
      cbn [dict_if_row dict_of_last last_row last first_per_key rbind fst snd].
      rewrite E. cbn [rbind]. repeat split; reflexivity.
    + intros r0 rows0 [= <- <-] Hr Hi.
      pose proof (dict_of_Row_first_value r Hr Hi) as E.
      destruct r as [|kv r]; [contradiction|].
      cbn [dict_if_row first_per_key rbind fst snd].
      rewrite E. cbn [rbind]. repeat split; try reflexivity; intros; discriminate.
  - rewrite (build_query_no_base q Hb). cbn [fst snd rbind].
    repeat match goal with |- _ /\ _ => split end; try reflexivity.
    intros; discriminate.
Qed.

End ReadTerminals.

(** [users] with its two stored rows: [all] returns them, the others
    raise on the first. *)
Lemma X9_read_terminals_convert_the_rows_of_all_witness :
  let users := table new_TableQuery Sample.Users in
  fst (all Engine.session (users, Sample.some_db)) = Ok (Engine.stored Sample.some_db)
  /\ fst (first Engine.session (users, Sample.some_db))
     = Raise (TypeError (not_a_sequence_msg 0))
  /\ fst (distinct_by Engine.session SampleDedupe.by_name (users, Sample.some_db))
     = Raise (TypeError (not_a_sequence_msg 0))
  /\ fst (group_and_deduplicate Engine.session SampleDedupe.by_name
            (users, Sample.some_db))
     = Raise (TypeError (not_a_sequence_msg 0)).
Proof.
  cbv zeta. split; [reflexivity|].
  destruct (X9_read_terminals_convert_the_rows_of_all Engine.session
              (table new_TableQuery Sample.Users) Sample.some_db SampleDedupe.by_name)
    as (_ & _ & _ & _ & _ & _ & _ & H).
  destruct (H _ _ eq_refl ltac:(discriminate) eq_refl) as (Hf & Hd & Hg & _).
  split; [exact Hf|]. split; [exact Hd|exact Hg].
Defined.

(** ** The statements the mutation terminals issue *)

Lemma apply_where_update (b : relation) (data : pydict) (sch : option string)
      (w o : list expr) :
  DBQuerySetting.apply_where (mkUpdate b data [] sch) w o
  = mkUpdate b data (where_added w o) sch.
Proof.
  unfold DBQuerySetting.apply_where, where_added. rewrite where_groups_cases.
  destruct w as [|w1 w]; destruct o as [|o1 o]; reflexivity.
Qed.

Lemma apply_where_delete (b : relation) (sch : option string) (w o : list expr) :
  DBQuerySetting.apply_where (mkDelete b [] sch) w o
  = mkDelete b (where_added w o) sch.
Proof.
  unfold DBQuerySetting.apply_where, where_added. rewrite where_groups_cases.
  destruct w as [|w1 w]; destruct o as [|o1 o]; reflexivity.
Qed.

Lemma update_statement_eq (q : TableQuery) (base : relation) (data : pydict) :
  with_schema_update (_schema q)
    (DBQuerySetting.apply_where (mkUpdate base data [] None) (_where q) (_or_where q))
  = update_statement q base data.
Proof.
  rewrite apply_where_update. unfold with_schema_update, update_statement.
  destruct (_schema q) as [n|]; [destruct (String.eqb n "")|]; reflexivity.
Qed.

Lemma delete_statement_eq (q : TableQuery) (base : relation) :
  with_schema_delete (_schema q)
    (DBQuerySetting.apply_where (mkDelete base [] None) (_where q) (_or_where q))
  = delete_statement q base.
Proof.
  rewrite apply_where_delete. unfold with_schema_delete, delete_statement.
  destruct (_schema q) as [n|]; [destruct (String.eqb n "")|]; reflexivity.
Qed.

Lemma where_added_nonempty (q : TableQuery) :
  no_predicate q = false -> where_added (_where q) (_or_where q) <> [].
Proof.
  unfold no_predicate, where_added.
  destruct (_where q); destruct (_or_where q); intros H; discriminate.
Qed.

Section Issued.

Context {D : Type} (session : Session D).

Ltac run_session :=
  repeat match goal with
         | |- context [execute session ?s ?p ?d] =>
             let c := fresh "c" in
             let e := fresh "e" in
             let d' := fresh "d" in
             destruct (execute session s p d) as [[c|e] d']; cbn [fst snd]
         | |- context [commit session ?d] =>
             let u := fresh "u" in
             let e := fresh "e" in
             let d' := fresh "d" in
             destruct (commit session d) as [[u|e] d']; cbn [fst snd]
         end.

(** The statements [update] issues: SELECTs and the UPDATE of the
    builder. *)
Lemma update_issues (P : statement -> Prop) (q : TableQuery) (d : D) (l : issued)
      (data : pydict) :
  (forall s, P (SelectS s)) ->
  (forall base, _base_table q = Some base -> no_predicate q = false ->
                P (UpdateS (update_statement q base data))) ->
  Forall (fun e => P (fst e)) l ->
  Forall (fun e => P (fst e)) (log_of (update (logged session) data (q, (d, l)))).
Proof.
  intros Hsel Hupd Hl.
  unfold update, log_of, bind, get_self, require_base, lift, exec, do_commit, ret, raise,
    reset_self, put_self.
  cbn [fst snd]. destruct (_base_table q) as [base|] eqn:Hb; cbn [fst snd]; [|exact Hl].
  destruct data as [|kv data]; [exact Hl|].
  destruct (no_predicate q) eqn:Hn; [exact Hl|].
  destruct (validate_keys base (keys (kv :: data))); cbn [fst snd]; [|exact Hl].
  destruct (getattr_col base "id") as [id|]; cbn [fst snd]; [|exact Hl].
  rewrite update_statement_eq.
  cbn [execute commit logged fst snd].
  run_session;
    repeat (apply Forall_app; split);
    try exact Hl;
    repeat constructor; cbn [fst]; try apply Hsel; apply (Hupd base eq_refl eq_refl).
Qed.

Lemma delete_issues (P : statement -> Prop) (q : TableQuery) (d : D) (l : issued) :
  (forall base, _base_table q = Some base -> no_predicate q = false ->
                P (DeleteS (delete_statement q base))) ->
  Forall (fun e => P (fst e)) l ->
  Forall (fun e => P (fst e)) (log_of (delete (logged session) (q, (d, l)))).
Proof.
  intros Hdel Hl.
  unfold delete, log_of, bind, get_self, require_base, lift, exec, do_commit, ret, raise,
    reset_self, put_self.
  cbn [fst snd]. destruct (_base_table q) as [base|] eqn:Hb; cbn [fst snd]; [|exact Hl].
  destruct (no_predicate q) eqn:Hn; [exact Hl|].
  rewrite delete_statement_eq.
  cbn [execute commit logged fst snd].
  run_session;
    repeat (apply Forall_app; split);
    try exact Hl;
    repeat constructor; cbn [fst]; apply (Hdel base eq_refl eq_refl).
Qed.

Lemma update_by_id_run (s : Session (D * issued)) (q : TableQuery) (w : D * issued)
      (id : pyvalue) (data : pydict) (base : relation) :
  _base_table q = Some base -> hasattr base "id" = true -> data <> [] ->
  update_by_id s id data (q, w)
  = (let '(r, w') := update s data (where_ q [id_is base id], w) in
     (rows <- r ;; Ok (hd_error rows), w')).
Proof.
  intros Hb Hid Hd. unfold update_by_id, bind, get_self, require_base, put_self, ret.
  cbn [fst snd]. rewrite Hb. cbn [fst snd]. rewrite Hid. cbn [negb].
  destruct data as [|kv data]; [contradiction|]. cbn [fst snd]. fold (id_is base id).
  destruct (update s (kv :: data) (where_ q [id_is base id], w)) as [[rows|e] w'];
    reflexivity.
Qed.

Lemma delete_by_id_run (s : Session (D * issued)) (q : TableQuery) (w : D * issued)
      (id : pyvalue) (base : relation) :
  _base_table q = Some base -> hasattr base "id" = true ->
  delete_by_id s id (q, w) = delete s (where_ q [id_is base id], w).
Proof.
  intros Hb Hid. unfold delete_by_id, bind, get_self, require_base, put_self, ret.
  cbn [fst snd]. rewrite Hb. cbn [fst snd]. rewrite Hid. reflexivity.
Qed.

Lemma by_id_guard (s : Session (D * issued)) (q : TableQuery) (w : D * issued)
      (id : pyvalue) (data : pydict) :
  (forall base, _base_table q = Some base -> hasattr base "id" = true -> data = []) ->
  log_of (update_by_id s id data (q, w)) = snd w.
Proof.
  intros H. unfold update_by_id, log_of, bind, get_self, require_base, raise, ret.
  cbn [fst snd]. destruct (_base_table q) as [base|]; cbn [fst snd]; [|reflexivity].
  destruct (hasattr base "id") eqn:Hid; cbn [negb]; [|reflexivity].
  rewrite (H base eq_refl Hid). reflexivity.
Qed.

(** X10.  No UPDATE and no DELETE without a WHERE clause reaches the
    session, whatever the builder holds and whatever the session answers:
    not from [update] or [delete], not from [update_by_id] or
    [delete_by_id].  With no predicate in the builder, [update] and
    [delete] issue nothing at all. *)
Theorem X10_no_update_or_delete_without_where
        (q : TableQuery) (d : D) (data : pydict) (id : pyvalue) :
  Forall (fun e => has_where_clause (fst e))
         (log_of (update (logged session) data (q, (d, []))))
  /\ Forall (fun e => has_where_clause (fst e))
            (log_of (delete (logged session) (q, (d, []))))
  /\ Forall (fun e => has_where_clause (fst e))
            (log_of (update_by_id (logged session) id data (q, (d, []))))
  /\ Forall (fun e => has_where_clause (fst e))
            (log_of (delete_by_id (logged session) id (q, (d, []))))
  /\ (no_predicate q = true ->
      log_of (update (logged session) data (q, (d, []))) = []
      /\ log_of (delete (logged session) (q, (d, []))) = []
      /\ returned (update (logged session) data (q, (d, []))) = false
      /\ returned (delete (logged session) (q, (d, []))) = false).
Proof.
  assert (HU : forall q', Forall (fun e => has_where_clause (fst e))
                            (log_of (update (logged session) data (q', (d, []))))).
  { intros q'. apply update_issues; [intros; exact I| |constructor].
    intros base _ Hn. cbn. now apply where_added_nonempty. }
  assert (HD : forall q', Forall (fun e => has_where_clause (fst e))
                            (log_of (delete (logged session) (q', (d, []))))).
  { intros q'. apply delete_issues; [|constructor].
    intros base _ Hn. cbn. now apply where_added_nonempty. }
  split; [apply HU|]. split; [apply HD|]. split; [|split].
  - destruct (_base_table q) as [base|] eqn:Hb.
    + destruct (hasattr base "id") eqn:Hid.
      * destruct data as [|kv data].
        -- rewrite by_id_guard; [constructor|intros; reflexivity].
        -- rewrite (update_by_id_run _ q (d, []) id (kv :: data) base Hb Hid)
             by discriminate.
           specialize (HU (where_ q [id_is base id])). unfold log_of in *.
           destruct (update (logged session) (kv :: data) _) as [r w']. exact HU.
      * rewrite by_id_guard; [constructor|]. intros b Hb' Hid'. congruence.
    + rewrite by_id_guard; [constructor|]. intros b Hb'. congruence.
  - destruct (_base_table q) as [base|] eqn:Hb.
    + destruct (hasattr base "id") eqn:Hid.
      * rewrite (delete_by_id_run _ q (d, []) id base Hb Hid). apply HD.
      * unfold delete_by_id, log_of, bind, get_self, require_base, raise, ret.
        cbn [fst snd]. rewrite Hb. cbn [fst snd]. rewrite Hid. constructor.
    + unfold delete_by_id, log_of, bind, get_self, require_base, raise, ret.
      cbn [fst snd]. rewrite Hb. constructor.
  - intros Hn.
    unfold update, delete, log_of, returned, bind, get_self, require_base, raise, ret.
    cbn [fst snd]. destruct (_base_table q); cbn [fst snd]; rewrite ?Hn;
      destruct data; repeat split; reflexivity.
Qed.

End Issued.

Lemma matches_with_id (w o : list expr) (base : relation) (id : pyvalue) (r : row) :
  Engine.matches (where_added (w ++ [id_is base id]) o) r = true ->
  Engine.value_eqb (Engine.field r "id") id = true.
Proof.
  rewrite matches_where_added, forallb_app. cbn [forallb Engine.holds id_is col_name].
  unfold Engine.cmp_values. intros H.
  apply andb_prop in H. destruct H as [H _].
  apply andb_prop in H. destruct H as [_ H].
  apply andb_prop in H. destruct H as [H _]. exact H.
Qed.

Section StatementsIssued.

Context {D : Type} (session : Session D).

(** X14.  [update_by_id] and [delete_by_id] add [id == value] to the
    predicates the builder holds before they run [update] and [delete]:
    every UPDATE or DELETE they issue has a WHERE clause that only rows
    with that id pass.  A base relation without [id] is refused before
    anything is issued.  When [update] then refuses the data for an
    unknown column, the builder is left with the added predicate. *)
Theorem X14_by_id_touches_only_that_id
        (q : TableQuery) (base : relation) (d : D) (id : pyvalue) (data : pydict) :
  _base_table q = Some base ->
  (hasattr base "id" = true ->
   Forall (fun e => only_rows_with_id id (fst e))
          (log_of (update_by_id (logged session) id data (q, (d, []))))
   /\ Forall (fun e => only_rows_with_id id (fst e))
             (log_of (delete_by_id (logged session) id (q, (d, []))))
   /\ (forall e, data <> [] -> validate_keys base (keys data) = Raise e ->
         update_by_id session id data (q, d)
         = (Raise e, (where_ q [id_is base id], d))))
  /\ (hasattr base "id" = false ->
      update_by_id session id data (q, d)
      = (Raise (ValueError "Base table has no 'id' column"), (q, d))
      /\ delete_by_id session id (q, d)
         = (Raise (ValueError "Base table has no 'id' column"), (q, d))).
Proof.
  intros Hb. split.
  - intros Hid. split; [|split].
    + destruct data as [|kv data].
      * rewrite by_id_guard; [constructor|intros; reflexivity].
      * rewrite (update_by_id_run _ q (d, []) id (kv :: data) base Hb Hid)
          by discriminate.
        pose proof (update_issues session (only_rows_with_id id)
                      (where_ q [id_is base id]) d [] (kv :: data)) as HU.
        unfold log_of in *.
        destruct (update (logged session) (kv :: data) _) as [r w'].
        apply HU; [intros; exact I| |constructor].
        intros b Hb' _. cbn [only_rows_with_id update_statement u_where].
        intros r0. cbn [_where _or_where where_ set_where]. apply matches_with_id.
    + rewrite (delete_by_id_run _ q (d, []) id base Hb Hid).
      apply delete_issues; [|constructor].
      intros b Hb' _. cbn [only_rows_with_id delete_statement d_where].
      intros r0. cbn [_where _or_where where_ set_where]. apply matches_with_id.
    + intros e Hd Hv.
      unfold update_by_id, update, bind, get_self, require_base, put_self, ret, raise, lift.
      cbn [fst snd]. rewrite Hb. cbn [fst snd]. rewrite Hid. cbn [negb].
      destruct data as [|kv data]; [contradiction|]. cbn [fst snd].
      cbn [_base_table where_ set_where]. rewrite Hb. cbn [fst snd].
      assert (Hn : forall x, no_predicate (where_ q [x]) = false).
      { intros x. unfold no_predicate, where_. cbn. destruct (_where q); reflexivity. }
      rewrite Hn, Hv. reflexivity.
  - intros Hid.
    unfold update_by_id, delete_by_id, bind, get_self, require_base, ret, raise.
    cbn [fst snd]. rewrite Hb. cbn [fst snd]. rewrite Hid. split; reflexivity.
Qed.

(** X11.  The mutation terminals check before they use the session, in this
    order: a missing base relation, empty data, (for [update] and
    [delete]) a builder without predicates, in every row a key that is no
    attribute of the base relation.  The first check that fails raises
    its error: each a [ValueError] with its own message, the last one
    naming the first unknown key and the table.  Builder and database are
    left as they were. *)
Theorem X11_mutations_validate_before_they_execute
        (q : TableQuery) (d : D) (data : pydict) (data_list : list pydict)
        (chunk_size : Z) :
  (_base_table q = None ->
   create session data (q, d) = (Raise (ValueError no_base_msg), (q, d))
   /\ create_many session data_list chunk_size (q, d)
      = (Raise (ValueError no_base_msg), (q, d))
   /\ update session data (q, d) = (Raise (ValueError no_base_msg), (q, d))
   /\ delete session (q, d) = (Raise (ValueError no_base_msg), (q, d)))
  /\ (forall base, _base_table q = Some base ->
        create session [] (q, d) = (Raise (ValueError "Data cannot be empty"), (q, d))
        /\ update session [] (q, d) = (Raise (ValueError "Data cannot be empty"), (q, d))
        /\ create_many session [] chunk_size (q, d)
           = (Raise (ValueError "Data list cannot be empty"), (q, d)))
  /\ (forall base, _base_table q = Some base -> no_predicate q = true ->
        (data <> [] ->
         update session data (q, d)
         = (Raise (ValueError "WHERE clause required for UPDATE. Use .where() first."),
            (q, d)))
        /\ delete session (q, d)
           = (Raise (ValueError "WHERE clause required for DELETE. Use .where() first."),
              (q, d)))
  /\ (forall base t ks key ks',
        _base_table q = Some base ->
        rel_tablename base = Some t ->
        keys data = (ks ++ key :: ks')%list ->
        forallb (hasattr base) ks = true ->
        hasattr base key = false ->
        let e := ValueError ("Column '" ++ key ++ "' does not exist on table '"
                             ++ t ++ "'") in
        create session data (q, d) = (Raise e, (q, d))
        /\ (no_predicate q = false -> update session data (q, d) = (Raise e, (q, d)))
        /\ (forall good rest,
              validate_rows base good = Ok tt ->
              create_many session (good ++ data :: rest)%list chunk_size (q, d)
              = (Raise e, (q, d)))).
Proof.
  unfold create, create_many, update, delete, bind, get_self, require_base, raise, lift, ret.
  cbn [fst snd]. repeat match goal with |- _ /\ _ => split end.
  - intros ->. repeat split; reflexivity.
  - intros base ->. repeat split; reflexivity.
  - intros base -> Hn. cbn [fst snd]. rewrite Hn. split; [|reflexivity].
    intros Hd. destruct data; [contradiction|reflexivity].
  - intros base t ks key ks' -> Ht Hk Hks Hkey. cbn [fst snd].
    set (e := ValueError ("Column '" ++ key ++ "' does not exist on table '"
                          ++ t ++ "'")).
    assert (Hv : validate_keys base (keys data) = Raise e).
    { rewrite Hk, (validate_keys_first_unknown base ks key ks' Hks Hkey).
      unfold unknown_key_error, e, no_column_msg. rewrite Ht. reflexivity. }
    assert (Hd : data <> []) by (intros ->; destruct ks; discriminate Hk).
    repeat match goal with |- _ /\ _ => split end.
    + destruct data as [|kv data]; [contradiction|]. rewrite Hv. reflexivity.
    + intros ->. destruct data as [|kv data]; [contradiction|]. rewrite Hv. reflexivity.
    + intros good rest Hg.
      rewrite (validate_rows_unknown_key base good data rest e Hg Hv).
      destruct good; reflexivity.
Qed.

(** X15.  With a negative [chunk_size], [create_many] checks the rows, issues
    nothing, returns no row and clears the builder; with [chunk_size] 0 it
    checks the rows and raises, the builder kept. *)
Theorem X15_create_many_without_a_positive_chunk_size
        (q : TableQuery) (base : relation) (d : D) (data_list : list pydict)
        (chunk_size : Z) :
  _base_table q = Some base -> data_list <> [] ->
  validate_rows base data_list = Ok tt ->
  (chunk_size < 0 ->
   create_many session data_list chunk_size (q, d) = (Ok [], (empty_state, d)))
  /\ (chunk_size = 0 ->
      create_many session data_list chunk_size (q, d)
      = (Raise (ValueError "range() arg 3 must not be zero"), (q, d))).
Proof.
  intros Hb Hd Hv.
  unfold create_many, bind, get_self, require_base, raise, lift, ret, reset_self, put_self,
    _chunk.
  cbn [fst snd]. rewrite Hb. cbn [fst snd].
  destruct data_list as [|x xs]; [contradiction|]. rewrite Hv.
  split.
  - intros H. assert (E1 : (chunk_size =? 0) = false) by (apply Z.eqb_neq; lia).
    assert (E2 : (chunk_size <? 0) = true) by (apply Z.ltb_lt; lia).
    rewrite E1, E2. reflexivity.
  - intros ->. reflexivity.
Qed.

(** X13.  [find] asks for the builder's query narrowed to the given id and
    cut to one row: one SELECT, its WHERE clause the builder's predicates
    and [id == value], its LIMIT 1 whatever limit the builder holds.  The
    builder is left as it was.  Without a row it returns [None]; a row is
    converted with [dict(row)], so [find] raises [TypeError] when the row
    found begins with a value that is no sequence. *)
Theorem X13_find_issues_one_select
        (q : TableQuery) (base : relation) (d : D) (id : pyvalue) :
  _base_table q = Some base ->
  (hasattr base "id" = true ->
   let stmt := stmt_limit (stmt_where (compiled q base) (id_is base id)) 1 in
   find_ (logged session) id (q, (d, []))
   = (let '(r, d') := execute session (SelectS stmt) [] d in
      (c <- r ;; dict_if_row (first_row c), (q, (d', [(SelectS stmt, [])]))))
   /\ s_limit stmt = Some 1
   /\ s_where stmt = (s_where (compiled q base) ++ [id_is base id])%list
   /\ (forall r, Engine.matches (s_where stmt) r = true ->
                 Engine.value_eqb (Engine.field r "id") id = true)
   /\ (forall c d',
         execute session (SelectS stmt) [] d = (Ok c, d') ->
         (c_rows c = [] ->
          fst (find_ (logged session) id (q, (d, []))) = Ok None)
         /\ (forall r rows,
               c_rows c = r :: rows -> r <> [] -> items_of (row0 r) = None ->
               fst (find_ (logged session) id (q, (d, [])))
               = Raise (TypeError (not_a_sequence_msg 0)))))
  /\ (hasattr base "id" = false ->
      find_ (logged session) id (q, (d, []))
      = (Raise (ValueError "Base table has no 'id' column"), (q, (d, [])))).
Proof.
  intros Hb. split.
  - intros Hid stmt.
    assert (Hrun : find_ (logged session) id (q, (d, []))
                   = (let '(r, d') := execute session (SelectS stmt) [] d in
                      (c <- r ;; dict_if_row (first_row c),
                       (q, (d', [(SelectS stmt, [])]))))).
    { unfold find_, bind, get_self, require_base, raise, lift, ret, exec.
      cbn [fst snd]. rewrite Hb. cbn [fst snd]. rewrite Hid. cbn [negb].
      rewrite (clone_is_copy q), (build_query_compiled q base Hb). cbn [fst snd].
      cbn [execute logged fst snd]. fold (id_is base id). fold stmt.
      destruct (execute session (SelectS stmt) [] d) as [[c|e] d']; reflexivity. }
    split; [exact Hrun|]. split; [reflexivity|]. split; [reflexivity|]. split.
    + intros r. unfold stmt. cbn [s_where stmt_limit stmt_where Whereable_select].
      unfold Engine.matches. rewrite forallb_app.
      cbn [forallb Engine.holds id_is col_name]. unfold Engine.cmp_values.
      intros H. apply andb_prop in H. destruct H as [_ H].
      apply andb_prop in H. destruct H as [H _]. exact H.
    + intros c d' Hex. rewrite Hrun, Hex. cbn [fst rbind]. unfold first_row. split.
      * intros ->. reflexivity.
      * intros r rows -> Hr Hi. cbn [hd_error].
        destruct r as [|kv r]; [contradiction|]. cbn [dict_if_row].
        rewrite (dict_of_Row_first_value (kv :: r) Hr Hi). reflexivity.
  - intros Hid. unfold find_, bind, get_self, require_base, raise, ret.
    cbn [fst snd]. rewrite Hb. cbn [fst snd]. rewrite Hid. reflexivity.
Qed.

(** X12.  Whatever page and page size it is given and whatever limit and
    offset the builder holds, [paginate], when it returns, has issued two
    statements: the count statement and the builder's query with LIMIT the
    page size in use, at least 1, and OFFSET (page - 1) times it, at least
    0; the metadata reports that limit and that offset. *)
Theorem X12_paginate_issues_count_then_page
        (q : TableQuery) (d : D) (page per_page : Z)
        (items : list row) (meta : pagination) (w : TableQuery * (D * issued)) :
  paginate (logged session) page per_page (q, (d, [])) = (Ok (items, meta), w) ->
  exists base count_stmt,
    _base_table q = Some base
    /\ count_statement q = Ok count_stmt
    /\ let L := clamp_per_page per_page in
       let O := (clamp_page page - 1) * L in
       let page_stmt := stmt_offset (stmt_limit (compiled q base) L) O in
       snd (snd w) = [(SelectS count_stmt, []); (SelectS page_stmt, [])]
       /\ s_limit page_stmt = Some L /\ s_offset page_stmt = Some O
       /\ 1 <= L /\ 0 <= O
       /\ pg_limit meta = L /\ pg_offset meta = O
       /\ fst w = empty_state.
Proof.
  unfold paginate, bind, get_self, lift, exec, ret, reset_self, put_self.
  cbn [fst snd]. rewrite (clone_is_copy q).
  destruct (count_statement q) as [count_stmt|e] eqn:Hc; [|discriminate].
  cbn [execute logged fst snd].
  destruct (execute session (SelectS count_stmt) [] d) as [[c|e] d1]; [|discriminate].
  cbn [fst snd].
  destruct (scalar_one c) as [v|e]; [|discriminate].
  destruct (int_of_value (or_zero v)) as [T|e]; [|discriminate].
  destruct (compute_total_pages T (clamp_per_page per_page)) as [tp|e]; [|discriminate].
  destruct (_base_table q) as [base|] eqn:Hb.
  - rewrite (build_query_compiled q base Hb). cbn [fst snd].
    match goal with
    | |- context [execute session ?s [] d1] =>
        destruct (execute session s [] d1) as [[c2|e] d2]; [|discriminate]
    end.
    cbn [fst snd]. intros H. injection H as _ Hmeta Hw. subst w meta.
    exists base, count_stmt. split; [reflexivity|]. split; [reflexivity|].
    cbn [fst snd pagination_dict pg_limit pg_offset app].
    repeat split.
    + unfold clamp_per_page. destruct (per_page <? 1) eqn:E; [lia|].
      apply Z.ltb_ge in E. exact E.
    + assert (1 <= clamp_page page).
      { unfold clamp_page. destruct (page <? 1) eqn:E; [lia|]. now apply Z.ltb_ge in E. }
      assert (1 <= clamp_per_page per_page).
      { unfold clamp_per_page. destruct (per_page <? 1) eqn:E; [lia|].
        now apply Z.ltb_ge in E. }
      nia.
  - rewrite (build_query_no_base q Hb). discriminate.
Qed.

End StatementsIssued.

(** [update] and [delete] on a builder that only names its table. *)
Lemma X10_no_update_or_delete_without_where_witness :
  no_predicate (table new_TableQuery Sample.Users) = true
  /\ log_of (update (logged Engine.session) [("name", PStr "x")]
               (table new_TableQuery Sample.Users, (Sample.some_db, []))) = []
  /\ log_of (delete (logged Engine.session)
               (table new_TableQuery Sample.Users, (Sample.some_db, []))) = []
  /\ returned (update (logged Engine.session) [("name", PStr "x")]
                 (table new_TableQuery Sample.Users, (Sample.some_db, []))) = false
  /\ returned (delete (logged Engine.session)
                 (table new_TableQuery Sample.Users, (Sample.some_db, []))) = false.
Proof.
  split; [reflexivity|].
  exact (proj2 (proj2 (proj2 (proj2
           (X10_no_update_or_delete_without_where Engine.session
              (table new_TableQuery Sample.Users) Sample.some_db
              [("name", PStr "x")] (PInt 1))))) eq_refl).
Defined.

(** A key that is no column of [users], alone and in the second of two
    rows. *)
Lemma X11_mutations_validate_before_they_execute_witness :
  let e := ValueError "Column 'nope' does not exist on table 'users'" in
  let bad := [("name", PStr "a"); ("nope", PInt 1)] in
  _base_table Sample.active_users = Some Sample.Users
  /\ create Engine.session bad (Sample.active_users, Sample.some_db)
     = (Raise e, (Sample.active_users, Sample.some_db))
  /\ update Engine.session bad (Sample.active_users, Sample.some_db)
     = (Raise e, (Sample.active_users, Sample.some_db))
  /\ create_many Engine.session ([("name", PStr "b")] :: bad :: Sample.two_rows) 1000
       (Sample.active_users, Sample.some_db)
     = (Raise e, (Sample.active_users, Sample.some_db)).
Proof.
  cbv zeta. split; [reflexivity|].
  destruct (proj2 (proj2 (proj2
              (X11_mutations_validate_before_they_execute Engine.session
                 Sample.active_users Sample.some_db
                 [("name", PStr "a"); ("nope", PInt 1)] [] 1000)))
              Sample.Users "users" ["name"] "nope" [] eq_refl eq_refl eq_refl
              eq_refl eq_refl) as (Hc & Hu & Hm).
  split; [exact Hc|]. split; [exact (Hu eq_refl)|].
  exact (Hm [[("name", PStr "b")]] Sample.two_rows eq_refl).
Defined.

(** Page 2 of 25 records, ten to a page, on a builder that holds a
    limit of its own. *)
Lemma X12_paginate_issues_count_then_page_witness :
  exists items meta w,
    paginate (logged (counting_session 25)) 2 10
             (set_limit Sample.active_users (Some 3), (tt, [])) = (Ok (items, meta), w)
    /\ exists base count_stmt,
         _base_table (set_limit Sample.active_users (Some 3)) = Some base
         /\ count_statement (set_limit Sample.active_users (Some 3)) = Ok count_stmt
         /\ let L := clamp_per_page 10 in
            let O := (clamp_page 2 - 1) * L in
            let page_stmt :=
              stmt_offset
                (stmt_limit (compiled (set_limit Sample.active_users (Some 3)) base) L) O in
            snd (snd w) = [(SelectS count_stmt, []); (SelectS page_stmt, [])]
            /\ s_limit page_stmt = Some L /\ s_offset page_stmt = Some O
            /\ 1 <= L /\ 0 <= O
            /\ pg_limit meta = L /\ pg_offset meta = O
            /\ fst w = empty_state.
Proof.
  eexists _, _, _. split; [vm_compute; reflexivity|].
  exact (X12_paginate_issues_count_then_page (counting_session 25)
           (set_limit Sample.active_users (Some 3)) tt 2 10 _ _ _ eq_refl).
Defined.

(** [find(1)] on [users]: the row with id 1 is found and its
    conversion raises. *)
Lemma X13_find_issues_one_select_witness :
  _base_table (table new_TableQuery Sample.Users) = Some Sample.Users
  /\ hasattr Sample.Users "id" = true
  /\ s_limit (stmt_limit (stmt_where (compiled (table new_TableQuery Sample.Users)
                                               Sample.Users)
                                     (id_is Sample.Users (PInt 1))) 1) = Some 1
  /\ fst (find_ (logged Engine.session) (PInt 1)
            (table new_TableQuery Sample.Users, (Sample.some_db, [])))
     = Raise (TypeError (not_a_sequence_msg 0)).
Proof.
  split; [reflexivity|]. split; [reflexivity|].
  destruct (proj1 (X13_find_issues_one_select Engine.session
                     (table new_TableQuery Sample.Users)
                     Sample.Users Sample.some_db (PInt 1) eq_refl) eq_refl)
    as (_ & Hl & _ & _ & Hf).
  split; [exact Hl|].
  refine (proj2 (Hf _ _ eq_refl) _ _ eq_refl _ eq_refl). discriminate.
Defined.

(** [delete_by_id(1)] and [update_by_id(1, ...)] on the active users. *)
Lemma X14_by_id_touches_only_that_id_witness :
  _base_table Sample.active_users = Some Sample.Users
  /\ hasattr Sample.Users "id" = true
  /\ Forall (fun e => only_rows_with_id (PInt 1) (fst e))
            (log_of (update_by_id (logged Engine.session) (PInt 1) [("name", PStr "x")]
                       (Sample.active_users, (Sample.some_db, []))))
  /\ Forall (fun e => only_rows_with_id (PInt 1) (fst e))
            (log_of (delete_by_id (logged Engine.session) (PInt 1)
                       (Sample.active_users, (Sample.some_db, [])))).
Proof.
  split; [reflexivity|]. split; [reflexivity|].
  destruct (proj1 (X14_by_id_touches_only_that_id Engine.session Sample.active_users
                     Sample.Users Sample.some_db (PInt 1) [("name", PStr "x")] eq_refl)
                  eq_refl) as (Hu & Hd & _).
  split; [exact Hu|exact Hd].
Defined.

(** Two rows with a chunk size of -1, and of 0. *)
Lemma X15_create_many_without_a_positive_chunk_size_witness :
  _base_table (table new_TableQuery Sample.Users) = Some Sample.Users
  /\ Sample.two_rows <> []
  /\ validate_rows Sample.Users Sample.two_rows = Ok tt
  /\ create_many Engine.session Sample.two_rows (-1)
       (table new_TableQuery Sample.Users, Sample.db_with_returning)
     = (Ok [], (empty_state, Sample.db_with_returning))
  /\ create_many Engine.session Sample.two_rows 0
       (table new_TableQuery Sample.Users, Sample.db_with_returning)
     = (Raise (ValueError "range() arg 3 must not be zero"),
        (table new_TableQuery Sample.Users, Sample.db_with_returning)).
Proof.
  split; [reflexivity|]. split; [discriminate|]. split; [reflexivity|].
  split.
  - refine (proj1 (X15_create_many_without_a_positive_chunk_size Engine.session
                     (table new_TableQuery Sample.Users) Sample.Users
                     Sample.db_with_returning Sample.two_rows (-1) eq_refl _ eq_refl)
                  eq_refl).
    discriminate.
  - refine (proj2 (X15_create_many_without_a_positive_chunk_size Engine.session
                     (table new_TableQuery Sample.Users) Sample.Users
                     Sample.db_with_returning Sample.two_rows 0 eq_refl _ eq_refl)
                  eq_refl).
    discriminate.
Defined.

Lemma ceil_div_bounds (a b : Z) :
  0 < b -> (ceil_div a b - 1) * b < a <= ceil_div a b * b.
Proof.
  intros Hb. unfold ceil_div.
  pose proof (Z.div_mod (- a) b ltac:(lia)) as E.
  pose proof (Z.mod_pos_bound (- a) b Hb) as R.
  nia.
Qed.

Lemma range_len_ceil (n : nat) (chunk_size : Z) :
  0 < chunk_size ->
  Z.of_nat (range_len n (Z.to_nat chunk_size)) = ceil_div (Z.of_nat n) chunk_size.
Proof.
  intros Hs. unfold range_len.
  rewrite Nat2Z.inj_div, Nat2Z.inj_sub, Nat2Z.inj_add, Z2Nat.id by lia.
  symmetry. apply Z.div_unique with (r := Z.of_nat n + chunk_size - 1
                                           - chunk_size * ceil_div (Z.of_nat n) chunk_size).
  - pose proof (ceil_div_bounds (Z.of_nat n) chunk_size Hs). left. nia.
  - change (Z.of_nat 1) with 1. lia.
Qed.

(** X16.  For a positive [chunk_size], [_chunk] cuts the rows into
    consecutive pieces: joined again they are the rows, in order; no piece
    is empty and none is longer than [chunk_size]; every piece but the
    last has [chunk_size] rows; there are ceil(len / chunk_size) pieces. *)
Theorem X16_chunks_partition_the_rows {A} (data : list A) (chunk_size : Z) :
  0 < chunk_size ->
  exists chunks,
    _chunk data chunk_size = Ok chunks
    /\ List.concat chunks = data
    /\ Forall (fun c => (0 < List.length c <= Z.to_nat chunk_size)%nat) chunks
    /\ (forall i, (S i < List.length chunks)%nat ->
          List.length (nth i chunks []) = Z.to_nat chunk_size)
    /\ Z.of_nat (List.length chunks)
       = ceil_div (Z.of_nat (List.length data)) chunk_size.
Proof.
  intros Hs. destruct data as [|x xs].
  - exists []. unfold _chunk.
    assert (E1 : (chunk_size =? 0) = false) by (apply Z.eqb_neq; lia).
    assert (E2 : (chunk_size <? 0) = false) by (apply Z.ltb_ge; lia).
    rewrite E1, E2. cbn [List.length].
    assert (E3 : range_len 0 (Z.to_nat chunk_size) = 0%nat).
    { apply Nat2Z.inj. rewrite range_len_ceil by lia. reflexivity. }
    rewrite E3. cbn [chunk_from]. repeat split.
    + constructor.
    + intros i Hi. cbn in Hi. lia.
  - destruct (chunk_partitions (x :: xs) chunk_size Hs ltac:(discriminate))
      as (chunks & Hc & Hcat & Hlen & Hsz & Hlast).
    cbv zeta in Hlen, Hsz, Hlast.
    set (size := Z.to_nat chunk_size) in *.
    set (n := range_len (List.length (x :: xs)) size) in *.
    assert (Hsize : (0 < size)%nat) by (unfold size; lia).
    exists chunks. split; [exact Hc|]. split; [exact Hcat|]. split; [|split].
    + rewrite <- (Forall_map (@List.length A)
                    (fun k => (0 < k <= size)%nat)), Hsz.
      apply Forall_app. split.
      * apply Forall_forall. intros k Hk. apply repeat_spec in Hk. lia.
      * constructor; [exact Hlast|constructor].
    + intros i Hi.
      rewrite <- (map_nth (@List.length A) chunks [] i). cbn [List.length].
      rewrite Hsz, app_nth1 by (rewrite repeat_length; lia).
      rewrite (nth_indep _ 0%nat size) by (rewrite repeat_length; lia).
      apply nth_repeat.
    + rewrite Hlen. unfold n, size. apply range_len_ceil. exact Hs.
Qed.

Lemma X16_chunks_partition_the_rows_witness :
  0 < 2
  /\ exists chunks,
       _chunk [1; 2; 3; 4; 5] 2 = Ok chunks
       /\ List.concat chunks = [1; 2; 3; 4; 5]
       /\ Forall (fun c => (0 < List.length c <= Z.to_nat 2)%nat) chunks
       /\ (forall i, (S i < List.length chunks)%nat ->
             List.length (nth i chunks []) = Z.to_nat 2)
       /\ Z.of_nat (List.length chunks)
          = ceil_div (Z.of_nat (List.length [1; 2; 3; 4; 5])) 2.
Proof.
  split; [reflexivity|].
  exact (X16_chunks_partition_the_rows [1; 2; 3; 4; 5] 2 eq_refl).
Defined.

(** X17.  When the count the session reports is below 2^53 (and so is the
    page size), the metadata [paginate] returns is exact: the page and the
    page size after their defaults, one page for an empty result and
    otherwise the least number of pages that hold all records, a next page
    exactly when the current page is before the last, a previous page
    exactly when it is after the first. *)
Theorem X17_page_metadata_is_exact {D} (session : Session D) (page per_page : Z)
        (q : TableQuery) (d : D) (items : list row) (meta : pagination)
        (w : TableQuery * D) :
  paginate session page per_page (q, d) = (Ok (items, meta), w) ->
  0 <= total_records meta < 2 ^ 53 -> per_page < 2 ^ 53 ->
  let L := clamp_per_page per_page in
  let P := clamp_page page in
  pg_limit meta = L
  /\ current_page meta = P
  /\ pg_offset meta = (P - 1) * L
  /\ (total_records meta = 0 -> total_pages meta = 1)
  /\ (0 < total_records meta ->
      (total_pages meta - 1) * L < total_records meta <= total_pages meta * L)
  /\ has_more meta = (P <? total_pages meta)
  /\ next_page meta = (if P <? total_pages meta then Some (P + 1) else None)
  /\ previous_page meta = (if 1 <? P then Some (P - 1) else None)
  /\ first_page meta = 1
  /\ last_page meta = total_pages meta.
Proof.
  intros Hrun HT HP L P.
  destruct (paginate_metadata session page per_page q d items meta w Hrun)
    as (count_stmt & c & d1 & T & _ & _ & _ & Hmeta).
  assert (HTT : total_records meta = T).
  { unfold pagination_of in Hmeta.
    destruct (compute_total_pages T (clamp_per_page per_page)); [|discriminate].
    cbn in Hmeta. injection Hmeta as <-. reflexivity. }
  rewrite HTT in *.
  destruct (pagination_of_exact page per_page T HT HP)
    as (meta' & Hmeta' & _ & Htp & _).
  rewrite Hmeta in Hmeta'. injection Hmeta' as <-.
  assert (HL : 0 < L).
  { unfold L, clamp_per_page. destruct (per_page <? 1) eqn:E; [lia|].
    apply Z.ltb_ge in E. lia. }
  unfold pagination_of in Hmeta.
  destruct (compute_total_pages T (clamp_per_page per_page)) as [tp|]; [|discriminate].
  cbn in Hmeta. injection Hmeta as <-.
  cbn [pagination_dict total_records pg_limit pg_offset has_more total_pages
       current_page first_page previous_page next_page last_page] in *.
  fold L in Htp. fold P.
  repeat match goal with |- _ /\ _ => split end; try reflexivity.
  - intros ->. exact Htp.
  - intros H0. assert (E : (T =? 0) = false) by (apply Z.eqb_neq; lia).
    rewrite E in Htp. rewrite Htp. apply ceil_div_bounds. exact HL.
Qed.

Lemma X17_page_metadata_is_exact_witness :
  exists items meta w,
    paginate (counting_session 25) 3 10 (Sample.active_users, tt) = (Ok (items, meta), w)
    /\ 0 <= total_records meta < 2 ^ 53 /\ 10 < 2 ^ 53
    /\ (0 < total_records meta ->
        (total_pages meta - 1) * 10 < total_records meta <= total_pages meta * 10)
    /\ has_more meta = (3 <? total_pages meta)
    /\ previous_page meta = Some 2.
Proof.
  eexists _, _, _. split; [vm_compute; reflexivity|].
  split; [vm_compute; split; [discriminate|reflexivity]|].
  split; [reflexivity|].
  match goal with
  | |- (_ < total_records ?m -> _) /\ _ =>
      destruct (X17_page_metadata_is_exact (counting_session 25) 3 10
                  Sample.active_users tt _ m _ eq_refl
                  ltac:(vm_compute; split; [discriminate|reflexivity]) eq_refl)
        as (_ & _ & _ & _ & Hb & Hm & _ & Hp & _)
  end.
  split; [exact Hb|]. split; [exact Hm|exact Hp].
Defined.

Section DistinctTerminal.

Context {D : Type} (session : Session D).

(** X18.  [distinct] issues one SELECT DISTINCT and leaves the builder as it
    was.  The statement takes joins, predicates, ordering, limit, offset
    and schema from the builder as [_build_query] compiles them; its
    projection is the columns it is given (the base relation without
    any), not the builder's [select]; it never has a GROUP BY or a HAVING
    clause, whatever the builder holds. *)
Theorem X18_distinct_ignores_select_group_by_and_having
        (q : TableQuery) (base : relation) (d : D) (columns : list sel_item) :
  _base_table q = Some base ->
  let stmt := distinct_compiled q base columns in
  distinct (logged session) columns (q, (d, []))
  = (let '(r, d') := execute session (SelectS stmt) [] d in
     (c <- r ;; Ok (c_rows c), (q, (d', [(SelectS stmt, [])]))))
  /\ s_group_by stmt = [] /\ s_having stmt = []
  /\ (forall sel gb hv,
        distinct_compiled (set_select (set_group_by (set_having q hv) gb) sel) base columns
        = stmt)
  /\ (_group_by q = [] -> _having q = [] -> columns = _select q ->
      _build_query q
      = Ok (mkSelect (s_columns stmt) false [] (s_joins stmt) (s_where stmt) [] []
                     (s_order_by stmt) (s_limit stmt) (s_offset stmt) (s_schema stmt))).
Proof.
  intros Hb stmt. repeat match goal with |- _ /\ _ => split end;
    try reflexivity.
  - unfold distinct, bind, get_self, require_base, raise, lift, ret, exec.
    cbn [fst snd]. rewrite Hb. cbn [fst snd]. rewrite (clone_is_copy q).
    rewrite apply_joins_fields, apply_where_select.
    match goal with
    | |- context [execute (logged session) (SelectS ?s) [] _] =>
        replace s with stmt
    end.
    + cbn [execute logged fst snd].
      destruct (execute session (SelectS stmt) [] d) as [[c|e] d']; reflexivity.
    + unfold stmt, distinct_compiled, compiled.
      destruct q as [sch bt js w o sel ord gb hv lim off uq ua lo orm]; cbn in *.
      destruct sch as [n|]; [destruct (String.eqb n "")|];
        destruct ord; destruct lim; destruct off; reflexivity.
  - intros Hg Hh ->. rewrite (build_query_compiled q base Hb).
    unfold stmt, distinct_compiled, compiled. rewrite Hg, Hh.
    destruct (_select q); reflexivity.
Qed.

End DistinctTerminal.

(** [distinct] on a grouped builder. *)
Lemma X18_distinct_ignores_select_group_by_and_having_witness :
  _base_table SampleCount.users_by_name = Some Sample.Users
  /\ s_group_by (distinct_compiled SampleCount.users_by_name Sample.Users []) = []
  /\ s_having (distinct_compiled SampleCount.users_by_name Sample.Users []) = [].
Proof.
  split; [reflexivity|].
  destruct (X18_distinct_ignores_select_group_by_and_having Engine.session
              SampleCount.users_by_name Sample.Users Sample.some_db [] eq_refl)
    as (_ & Hg & Hh & _).
  split; [exact Hg|exact Hh].
Defined.
